(** * WBTC airdrop bot: holder aggregation, eligibility, allocation, execution

    A shallow embedding of [wbtc_airdrop_bot.py] (class [WBTCAirdropBot]).

    Numbers.  The development has two readings of Python's [float].  The
    first part reads the amounts as exact rationals ([Q]): the comparisons
    of the source are the decidable comparisons of [Q], equality of amounts
    is [Qeq], and a division whose divisor is zero raises
    [ZeroDivisionError].  It carries the properties that do not depend on
    rounding.  Module [F64] reads them as binary64 values
    ([PrimFloat.float]), with rounding, [nan], the infinities and the
    [OverflowError] of [float] on a large integer, and with dictionary
    keys that need not be strings; it carries the properties of the scan,
    the filter and the books of a cycle, where rounding, [nan] or such a
    key decide.

    Dictionaries.  A Python [dict] iterates in insertion order, and the
    order of the distribution list depends on it, so a dictionary is an
    association list in insertion order whose keys are distinct.

    Effects.  The ledger (RPC scan, transfer submission, wall clock) is an
    abstract world threaded through the cycle; the transfers a cycle
    attempts are returned as a trace. *)

From Stdlib Require Import List String Ascii Bool Arith ZArith Lia.
From Stdlib Require Import QArith Qabs Qround Lqa.
From Stdlib Require Import Permutation Sorted.
From Stdlib Require Import Floats.
Import ListNotations.

Open Scope string_scope.
Open Scope list_scope.
Open Scope Q_scope.

(** ** Exceptions *)

Module Exn.

(** A raised exception: the name of its class and its [str()]. *)
Record exn : Type := mk { class : string; msg : string }.

Definition KeyError (k : string) : exn := mk "KeyError" ("'" ++ k ++ "'")%string.
Definition TypeError (m : string) : exn := mk "TypeError" m.
Definition ValueError (m : string) : exn := mk "ValueError" m.
Definition ZeroDivisionError : exn :=
  mk "ZeroDivisionError" "float division by zero".

(** A computation that returns a value or raises. *)
Definition except (A : Type) : Type := (exn + A)%type.

Definition ret {A} (a : A) : except A := inr a.
Definition raise {A} (e : exn) : except A := inl e.
Definition bind {A B} (c : except A) (k : A -> except B) : except B :=
  match c with
  | inl e => inl e
  | inr a => k a
  end.

(** [except (K1, K2, ...)]: does the clause catch [e]? *)
Definition caught_by (classes : list string) (e : exn) : bool :=
  existsb (String.eqb (class e)) classes.

End Exn.

Import Exn.

Notation "x <- c ;; k" := (bind c (fun x => k))
  (at level 61, c at next level, right associativity).

(** ** JSON values, as [response.json()] decodes them *)

#[local] Set Warnings "-register-all".
#[local] Set Warnings "-inexact-float".

Inductive json : Type :=
| JNull
| JBool (b : bool)
| JNum (q : Q)
| JStr (s : string)
| JArr (l : list json)
| JObj (m : list (string * json)).

Fixpoint assoc {V} (m : list (string * V)) (k : string) : option V :=
  match m with
  | [] => None
  | (k', v) :: m' => if String.eqb k k' then Some v else assoc m' k
  end.

(** [v[k]] for a string subscript [k]. *)
Definition py_getitem (v : json) (k : string) : except json :=
  match v with
  | JObj m =>
      match assoc m k with
      | Some x => ret x
      | None => raise (KeyError k)
      end
  | JArr _ => raise (TypeError "list indices must be integers or slices, not str")
  | JStr _ => raise (TypeError "string indices must be integers, not 'str'")
  | JNull => raise (TypeError "'NoneType' object is not subscriptable")
  | JBool _ => raise (TypeError "'bool' object is not subscriptable")
  | JNum _ => raise (TypeError "'float' object is not subscriptable")
  end.

Definition chars (s : string) : list json :=
  map (fun c => JStr (String c EmptyString)) (list_ascii_of_string s).

(** The elements a [for] loop over [v] visits ([len(v)] raises on the same
    values): a list gives its items, a dict its keys, a string its
    characters. *)
Definition py_iter (v : json) : except (list json) :=
  match v with
  | JArr l => ret l
  | JObj m => ret (map (fun kv => JStr (fst kv)) m)
  | JStr s => ret (chars s)
  | JNull => raise (TypeError "object of type 'NoneType' has no len()")
  | JBool _ => raise (TypeError "object of type 'bool' has no len()")
  | JNum _ => raise (TypeError "object of type 'float' has no len()")
  end.

(** ** Dictionaries [Dict[str, float]] *)

Definition dict : Type := list (string * Q).

Definition keys (d : dict) : list string := map fst d.
Definition values (d : dict) : list Q := map snd d.

Definition dict_get (d : dict) (k : string) : option Q := assoc d k.

(** [d[k] = v]: an existing key keeps its position, a new key goes last. *)
Fixpoint dict_set (d : dict) (k : string) (v : Q) : dict :=
  match d with
  | [] => [(k, v)]
  | (k', v') :: d' =>
      if String.eqb k k' then (k', v) :: d' else (k', v') :: dict_set d' k v
  end.

(** The well-formedness of a dictionary: no key occurs twice. *)
Definition dict_wf (d : dict) : Prop := NoDup (keys d).

(** Python's [sum(xs)]: a left fold of [+] from [0]. *)
Definition py_sum (xs : list Q) : Q := fold_left Qplus xs 0.

(** [a / b] on floats. *)
Definition py_div (a b : Q) : except Q :=
  if Qeq_bool b 0 then raise ZeroDivisionError else ret (a / b).

Definition Qlt_bool (a b : Q) : bool :=
  match a ?= b with Lt => true | _ => false end.

(** ** HolderAggregator: [get_token_holders] *)

Section Aggregator.

(** [float(s)] on a string, a capability of the Python runtime:
    [None] when [s] is not a numeric literal ([ValueError]). *)
Variable parse_float : string -> option Q.

(** [float(v)], on the numbers this part holds: rationals within the range
    of [float].  [F64.py_float] has [nan], the infinities and the integers
    beyond the range, on which [float] raises [OverflowError]. *)
Definition py_float (v : json) : except Q :=
  match v with
  | JNum q => ret q
  | JBool b => ret (if b then 1 else 0)
  | JStr s =>
      match parse_float s with
      | Some q => ret q
      | None => raise (ValueError "could not convert string to float")
      end
  | JNull => raise (TypeError "float() argument must be a string or a real number, not 'NoneType'")
  | JArr _ => raise (TypeError "float() argument must be a string or a real number, not 'list'")
  | JObj _ => raise (TypeError "float() argument must be a string or a real number, not 'dict'")
  end.

(** The owner as a dictionary key.  In this part the wallets are address
    strings, the [Dict[str, float]] of the signature and what the
    jsonParsed encoding delivers, and a record with any other owner is
    passed over.  Python passes over a list or a dict, which are unhashable
    ([TypeError] at [owner in holders]), and counts a [null], a number or a
    boolean under that key: [F64.as_key] follows it. *)
Definition as_key (v : json) : except string :=
  match v with
  | JStr s => ret s
  | _ => raise (TypeError "unhashable type")
  end.

(** The reads of one loop body, lines 188-190. *)
Definition read_account (account : json) : except (json * Q) :=
  a <- py_getitem account "account" ;;
  d <- py_getitem a "data" ;;
  p <- py_getitem d "parsed" ;;
  account_data <- py_getitem p "info" ;;
  owner <- py_getitem account_data "owner" ;;
  ta <- py_getitem account_data "tokenAmount" ;;
  ui <- py_getitem ta "uiAmount" ;;
  token_amount <- py_float ui ;;
  ret (owner, token_amount).

(** The [try] block of the loop body on the state
    [(holders, total_supply)]. *)
Definition account_body (st : dict * Q) (account : json) : except (dict * Q) :=
  let '(holders, total_supply) := st in
  r <- read_account account ;;
  let '(owner_v, token_amount) := r in
  if Qeq_bool token_amount 0 then ret st
  else
    owner <- as_key owner_v ;;
    let holders' :=
      match dict_get holders owner with
      | Some b => dict_set holders owner (b + token_amount)
      | None => dict_set holders owner token_amount
      end in
    ret (holders', total_supply + token_amount).

(** One iteration: [except (KeyError, TypeError, ValueError): continue]. *)
Definition account_step (st : dict * Q) (account : json) : except (dict * Q) :=
  match account_body st account with
  | inr st' => ret st'
  | inl e =>
      if caught_by ["KeyError"; "TypeError"; "ValueError"] e
      then ret st
      else raise e
  end.

Fixpoint aggregate_accounts (st : dict * Q) (token_accounts : list json)
  : except (dict * Q) :=
  match token_accounts with
  | [] => ret st
  | account :: rest =>
      st' <- account_step st account ;;
      aggregate_accounts st' rest
  end.

(** What [get_token_holders] returns: the bare [{}] of line 178 or the
    pair of line 210. *)
Inductive scan_result : Type :=
| ScanBare
| ScanPair (holders : dict) (total_supply : Q).

(** [response] is what [make_rpc_request] returned: [None] or the decoded
    body, a dict. *)
Definition get_token_holders (response : option (list (string * json)))
  : except scan_result :=
  match response with
  | None => ret ScanBare
  | Some [] => ret ScanBare
  | Some body =>
      match assoc body "result" with
      | None => ret ScanBare
      | Some result =>
          value <- py_getitem result "value" ;;
          token_accounts <- py_iter value ;;
          st <- aggregate_accounts ([], 0) token_accounts ;;
          ret (ScanPair (fst st) (snd st))
      end
  end.

(** [holders, total_supply = ...]: unpacking the returned value. *)
Definition unpack2 (r : scan_result) : except (dict * Q) :=
  match r with
  | ScanPair holders total_supply => ret (holders, total_supply)
  | ScanBare =>
      raise (ValueError "not enough values to unpack (expected 2, got 0)")
  end.

End Aggregator.

(** ** Configuration and bot state *)

Record AirdropConfig : Type := {
  token_contract : string;
  total_wbtc_per_cycle : Q;
  cycle_interval : Z;
  min_token_holdings : Q;
  max_token_holdings : Q
}.

Record WBTCAirdropBot : Type := {
  config : AirdropConfig;
  is_running : bool;
  cycle_count : Z;
  total_wbtc_distributed : Q
}.

(** [WBTCAirdropBot.__init__]. *)
Definition init (cfg : AirdropConfig) : WBTCAirdropBot :=
  {| config := cfg; is_running := false; cycle_count := 0;
     total_wbtc_distributed := 0 |}.

(** ** EligibilityFilter: [filter_eligible_holders] *)

Definition in_bounds (cfg : AirdropConfig) (amount : Q) : bool :=
  Qle_bool (min_token_holdings cfg) amount
  && Qle_bool amount (max_token_holdings cfg).

(** [sum(1 for x in xs if p(x))]. *)
Definition count_if {A} (p : A -> bool) (xs : list A) : Z :=
  fold_left (fun n x => if p x then (n + 1)%Z else n) xs 0%Z.

(** The function returns [eligible_holders]; the two exclusion counts are
    the values it computes and logs on lines 220-225, returned here next to
    the mapping. *)
Definition filter_eligible_holders (cfg : AirdropConfig) (holders : dict)
  : dict * Z * Z :=
  let eligible_holders :=
    fold_left
      (fun el (item : string * Q) =>
         let '(wallet, amount) := item in
         if in_bounds cfg amount then dict_set el wallet amount else el)
      holders [] in
  let excluded_small :=
    count_if (fun amount => Qlt_bool amount (min_token_holdings cfg))
             (values holders) in
  let excluded_large :=
    count_if (fun amount => Qlt_bool (max_token_holdings cfg) amount)
             (values holders) in
  (eligible_holders, excluded_small, excluded_large).

(** ** DistributionCalculator: [calculate_wbtc_distribution] *)

Record entry : Type := {
  wallet : string;
  token_amount : Q;
  percentage : Q;
  wbtc_amount : Q
}.

(** [list.sort(key=..., reverse=True)]: a stable sort into descending key
    order.  A stable sort has one possible result, so the insertion sort
    below returns what Python's does. *)
Fixpoint insert_desc {A} (key : A -> Q) (x : A) (l : list A) : list A :=
  match l with
  | [] => [x]
  | y :: l' =>
      if Qlt_bool (key x) (key y) then y :: insert_desc key x l'
      else x :: y :: l'
  end.

Definition sort_desc {A} (key : A -> Q) (l : list A) : list A :=
  fold_right (insert_desc key) [] l.

(** The loop of lines 234-246: one entry per item, appended in turn. *)
Fixpoint distribution_loop (cfg : AirdropConfig) (total_eligible_tokens : Q)
  (items : dict) : except (list entry) :=
  match items with
  | [] => ret []
  | (w, amount) :: rest =>
      share <- py_div amount total_eligible_tokens ;;
      let pct := share * 100 in
      share' <- py_div amount total_eligible_tokens ;;
      let wbtc := share' * total_wbtc_per_cycle cfg in
      tl <- distribution_loop cfg total_eligible_tokens rest ;;
      ret ({| wallet := w; token_amount := amount;
              percentage := pct; wbtc_amount := wbtc |} :: tl)
  end.

Definition calculate_wbtc_distribution (cfg : AirdropConfig)
  (eligible_holders : dict) : except (list entry) :=
  let total_eligible_tokens := py_sum (values eligible_holders) in
  distribution <- distribution_loop cfg total_eligible_tokens eligible_holders ;;
  ret (sort_desc token_amount distribution).

(** ** TransferExecutor and CycleScheduler *)

(** The counters of step 4 (lines 359-361). *)
Record tally : Type := {
  successful_sends : Z;
  failed_sends : Z;
  total_wbtc_sent : Q
}.

Definition tally0 : tally :=
  {| successful_sends := 0; failed_sends := 0; total_wbtc_sent := 0 |}.

(** One call of the transfer capability, as the trace records it. *)
Record attempt : Type := {
  to_wallet : string;
  amount_of : Q;
  ok : bool
}.

(** The dict a cycle returns: [{"success": True, "cycle": ..., ...}] or
    [{"success": False, "error": ...}]. *)
Inductive cycle_result : Type :=
| CycleOk (cycle successful failed : Z) (total_sent duration : Q)
| CycleFail (error : string).

Definition success (r : cycle_result) : bool :=
  match r with
  | CycleOk _ _ _ _ _ => true
  | CycleFail _ => false
  end.

(** What a cycle added to the cumulative total. *)
Definition sent_of (r : cycle_result) : Q :=
  match r with
  | CycleOk _ _ _ total_sent _ => total_sent
  | CycleFail _ => 0
  end.

Definition is_empty {A} (l : list A) : bool :=
  match l with [] => true | _ :: _ => false end.

Section Cycle.

(** The ledger and the runtime, seen from the bot. *)
Variable World : Type.
(** [make_rpc_request("getTokenAccountsByMint", ...)]. *)
Variable rpc_request : World -> option (list (string * json)) * World.
(** [send_wbtc_airdrop(recipient, wbtc_amount)]: it catches every
    exception itself and returns [(success, signature_or_error)]. *)
Variable send_wbtc_airdrop : string -> Q -> World -> (bool * string) * World.
(** [datetime.now()], in seconds. *)
Variable now : World -> Q.
(** [asyncio.sleep(seconds)]. *)
Variable sleep : Q -> World -> World.
Variable parse_float : string -> option Q.

(** The loop of lines 363-380. *)
Fixpoint send_loop (distribution : list entry) (t : tally) (w : World)
  : tally * World * list attempt :=
  match distribution with
  | [] => (t, w, [])
  | recipient :: rest =>
      let '((sent, _), w1) :=
        send_wbtc_airdrop (wallet recipient) (wbtc_amount recipient) w in
      let t1 :=
        if sent
        then {| successful_sends := successful_sends t + 1;
                failed_sends := failed_sends t;
                total_wbtc_sent := total_wbtc_sent t + wbtc_amount recipient |}
        else {| successful_sends := successful_sends t;
                failed_sends := failed_sends t + 1;
                total_wbtc_sent := total_wbtc_sent t |} in
      let w2 := sleep (1 # 2) w1 in
      let '(t2, w3, trace) := send_loop rest t1 w2 in
      (t2, w3,
       {| to_wallet := wallet recipient; amount_of := wbtc_amount recipient;
          ok := sent |} :: trace)
  end.

Definition count_cycle (b : WBTCAirdropBot) : WBTCAirdropBot :=
  {| config := config b; is_running := is_running b;
     cycle_count := cycle_count b + 1;
     total_wbtc_distributed := total_wbtc_distributed b |}.

Definition add_distributed (b : WBTCAirdropBot) (x : Q) : WBTCAirdropBot :=
  {| config := config b; is_running := is_running b;
     cycle_count := cycle_count b;
     total_wbtc_distributed := total_wbtc_distributed b + x |}.

(** [execute_airdrop_cycle]: the result dict, the bot and the world after
    the cycle, and the transfers attempted.  The [try] of line 324 turns
    every exception of steps 1-3 into a failure result.  The log lines 354
    and 364 slice the wallet, which does not fail on the address strings
    of this part; [F64.execute_airdrop_cycle] has them. *)
Definition execute_airdrop_cycle (b : WBTCAirdropBot) (w : World)
  : cycle_result * WBTCAirdropBot * World * list attempt :=
  let cycle_start_time := now w in
  let b1 := count_cycle b in
  let cfg := config b1 in
  let '(response, w1) := rpc_request w in
  match r <- get_token_holders parse_float response ;; unpack2 r with
  | inl e => (CycleFail (msg e), b1, w1, [])
  | inr (holders, _) =>
      if is_empty holders
      then (CycleFail "No token holders found", b1, w1, [])
      else
        let eligible_holders := fst (fst (filter_eligible_holders cfg holders)) in
        if is_empty eligible_holders
        then (CycleFail "No eligible holders found", b1, w1, [])
        else
          match calculate_wbtc_distribution cfg eligible_holders with
          | inl e => (CycleFail (msg e), b1, w1, [])
          | inr distribution =>
              let '(t, w2, trace) := send_loop distribution tally0 w1 in
              let cycle_duration := now w2 - cycle_start_time in
              (CycleOk (cycle_count b1) (successful_sends t) (failed_sends t)
                       (total_wbtc_sent t) cycle_duration,
               add_distributed b1 (total_wbtc_sent t), w2, trace)
          end
  end.

Definition set_running (b : WBTCAirdropBot) (r : bool) : WBTCAirdropBot :=
  {| config := config b; is_running := r; cycle_count := cycle_count b;
     total_wbtc_distributed := total_wbtc_distributed b |}.

(** The [while self.is_running] loop, for the [n] iterations that start
    before the stop signal arrives. *)
Fixpoint run_cycles (n : nat) (b : WBTCAirdropBot) (w : World)
  : list cycle_result * WBTCAirdropBot * World :=
  match n with
  | O => ([], b, w)
  | S n' =>
      if is_running b then
        let '(result, b1, w1, _) := execute_airdrop_cycle b w in
        let w2 := sleep (inject_Z (cycle_interval (config b1))) w1 in
        let '(results, b2, w3) := run_cycles n' b1 w2 in
        (result :: results, b2, w3)
      else ([], b, w)
  end.

(** The final summary of lines 442-446. *)
Record summary : Type := {
  total_cycles : Z;
  total_runtime : Q;
  total_distributed : Q;
  average_per_cycle : except Q
}.

(** [run_continuous_airdrop], stopped after [n] cycles: the cycle
    results, the bot left behind and the summary of the [finally]
    block. *)
Definition run_continuous_airdrop (n : nat) (b : WBTCAirdropBot) (w : World)
  : list cycle_result * WBTCAirdropBot * summary :=
  let b0 := set_running b true in
  let start_time := now w in
  let '(results, b1, w1) := run_cycles n b0 w in
  let b2 := set_running b1 false in
  (results, b2,
   {| total_cycles := cycle_count b2;
      total_runtime := now w1 - start_time;
      total_distributed := total_wbtc_distributed b2;
      average_per_cycle :=
        py_div (total_wbtc_distributed b2)
               (inject_Z (Z.max (cycle_count b2) 1)) |}).

End Cycle.

(** ** A scripted world

    A ledger that answers the scan with queued responses and the transfers
    with queued outcomes; an exhausted queue is a failure. *)

Module Scripted.

Record world : Type := {
  responses : list (option (list (string * json)));
  outcomes : list bool;
  time : Q
}.

Definition rpc_request (w : world) : option (list (string * json)) * world :=
  match responses w with
  | [] => (None, w)
  | r :: rs => (r, {| responses := rs; outcomes := outcomes w; time := time w |})
  end.

Definition send_wbtc_airdrop (recipient : string) (wbtc_amount : Q) (w : world)
  : (bool * string) * world :=
  match outcomes w with
  | [] => ((false, "Transaction failed"), w)
  | o :: os =>
      ((o, if o then "signature" else "Transaction failed"),
       {| responses := responses w; outcomes := os; time := time w |})
  end.

Definition now (w : world) : Q := time w.

Definition sleep (d : Q) (w : world) : world :=
  {| responses := responses w; outcomes := outcomes w; time := time w + d |}.

(** No string amounts in the scripted scans. *)
Definition parse_float (s : string) : option Q := None.

Definition cycle := execute_airdrop_cycle world rpc_request send_wbtc_airdrop
                      now sleep parse_float.

Definition run := run_continuous_airdrop world rpc_request send_wbtc_airdrop
                    now sleep parse_float.

(** An account record of the jsonParsed encoding. *)
Definition account (owner : string) (ui_amount : json) : json :=
  JObj [("account",
         JObj [("data",
                JObj [("parsed",
                       JObj [("info",
                              JObj [("owner", JStr owner);
                                    ("tokenAmount",
                                     JObj [("uiAmount", ui_amount)])])])])])].

Definition scan (accounts : list json) : option (list (string * json)) :=
  Some [("jsonrpc", JStr "2.0");
        ("result", JObj [("value", JArr accounts)]);
        ("id", JNum 1)].

(** The defaults of [AirdropConfig]. *)
Definition cfg : AirdropConfig :=
  {| token_contract := "mint"; total_wbtc_per_cycle := 2 # 10;
     cycle_interval := 20; min_token_holdings := 1000;
     max_token_holdings := 10000000 |}.

(** Holders [{A: 1000, B: 3000, C: 500}]. *)
Definition abc : list json :=
  [account "A" (JNum 1000); account "B" (JNum 3000); account "C" (JNum 500)].

(** The scan of [abc] answered, the first transfer refused, the second
    accepted. *)
Definition partial_failure : world :=
  {| responses := [scan abc]; outcomes := [false; true]; time := 0 |}.

(** A scan that cancels out: wallet A holds 5 and -5. *)
Definition cancelling : world :=
  {| responses := [scan [account "A" (JNum 5); account "A" (JNum (-5))]];
     outcomes := []; time := 0 |}.

(** The defaults with the lower bound at zero. *)
Definition cfg0 : AirdropConfig :=
  {| token_contract := "mint"; total_wbtc_per_cycle := 2 # 10;
     cycle_interval := 20; min_token_holdings := 0;
     max_token_holdings := 10000000 |}.

(** The list calculated for eligible [{X: 10, Y: 0}] and budget 0.2. *)
Definition zero_share : list entry :=
  [ {| wallet := "X"; token_amount := 10; percentage := 100;
       wbtc_amount := 2 # 10 |};
    {| wallet := "Y"; token_amount := 0; percentage := 0;
       wbtc_amount := 0 |} ].

(** The defaults with a budget of zero, which the prompt of [main]
    accepts. *)
Definition cfg_no_budget : AirdropConfig :=
  {| token_contract := "mint"; total_wbtc_per_cycle := 0;
     cycle_interval := 20; min_token_holdings := 1000;
     max_token_holdings := 10000000 |}.

Definition loop := send_loop world send_wbtc_airdrop sleep.

End Scripted.

(** The entry the loop of lines 234-246 builds for one item, when the
    divisions return. *)
Definition entry_of (cfg : AirdropConfig) (total_eligible_tokens : Q)
  (item : string * Q) : entry :=
  {| wallet := fst item;
     token_amount := snd item;
     percentage := snd item / total_eligible_tokens * 100;
     wbtc_amount := snd item / total_eligible_tokens * total_wbtc_per_cycle cfg |}.

(** Descending order of a key. *)
Definition desc {A} (key : A -> Q) (x y : A) : Prop := key y <= key x.

(** Has [x] the key [v]? *)
Definition has_key {A} (key : A -> Q) (v : Q) (x : A) : bool :=
  Qeq_bool (key x) v.

(** ** Reading a trace of transfers *)

Definition failed (a : attempt) : bool := negb (ok a).

(** The transfers of a trace that succeeded, and those that failed. *)
Definition successes (trace : list attempt) : Z :=
  Z.of_nat (List.length (filter ok trace)).

Definition failures (trace : list attempt) : Z :=
  Z.of_nat (List.length (filter failed trace)).

Definition all_sent (trace : list attempt) : bool := forallb ok trace.

(** The amount of the successful transfers of a trace. *)
Definition amount_sent (trace : list attempt) : Q :=
  py_sum (map amount_of (filter ok trace)).

(** The amount a distribution list allocates. *)
Definition total_allocated (distribution : list entry) : Q :=
  py_sum (map wbtc_amount distribution).

(** The sum of a list of amounts, by structural recursion. *)
Definition total_of {A} (f : A -> Q) (l : list A) : Q :=
  fold_right (fun x s => f x + s) 0 l.

(** ** The RPC transport: [make_rpc_request] *)

(** What [requests.post] hands back: the status code, and what
    [response.json()] gives for the body, the decoded JSON-RPC response (an
    object, the [dict] of the signature) or the exception raised on a body
    that is not JSON. *)
Record http_response : Type := {
  status_code : Z;
  json_body : except (list (string * json))
}.

(** The request body of lines 135-140. *)
Definition rpc_payload (method : string) (params : list json) : json :=
  JObj [("jsonrpc", JStr "2.0"); ("id", JNum 1);
        ("method", JStr method); ("params", JArr params)].

(** [k in d] on a dict. *)
Definition has_member {V} (d : list (string * V)) (k : string) : bool :=
  match assoc d k with Some _ => true | None => false end.

(** [make_rpc_request], given the outcome of [requests.post]: [None] on an
    exception, on a status other than 200, on a body that does not decode
    and on a body with an "error" member. *)
Definition make_rpc_request (posted : except http_response)
  : option (list (string * json)) :=
  match posted with
  | inl _ => None
  | inr response =>
      if negb (status_code response =? 200)%Z then None
      else
        match json_body response with
        | inl _ => None
        | inr result =>
            if has_member result "error" then None else Some result
        end
  end.

(** The parameters of the scan request, lines 171-174. *)
Definition scan_params (token_contract : string) : list json :=
  [JStr token_contract;
   JObj [("encoding", JStr "jsonParsed"); ("commitment", JStr "confirmed")]].

Section Transport.

Variable World : Type.
(** [requests.post(url, json=payload, ...)]. *)
Variable requests_post : string -> json -> World -> except http_response * World.

(** The scan request of [get_token_holders] sent through
    [make_rpc_request]. *)
Definition scan_request (rpc_url token_contract : string) (w : World)
  : option (list (string * json)) * World :=
  let '(posted, w1) :=
    requests_post rpc_url
      (rpc_payload "getTokenAccountsByMint" (scan_params token_contract)) w in
  (make_rpc_request posted, w1).

End Transport.

(** ** The sender's balances: [get_token_balance], [check_sender_balance] *)

(** The truth value of [v] in a condition. *)
Definition py_truthy (v : json) : bool :=
  match v with
  | JNull => false
  | JBool b => b
  | JNum q => negb (Qeq_bool q 0)
  | JStr s => negb (String.eqb s "")
  | JArr l => negb (is_empty l)
  | JObj m => negb (is_empty m)
  end.

(** [v > 0]. *)
Definition py_gt_zero (v : json) : except bool :=
  match v with
  | JNum q => ret (Qlt_bool 0 q)
  | JBool b => ret b
  | JNull => raise (TypeError "'>' not supported between instances of 'NoneType' and 'int'")
  | JStr _ => raise (TypeError "'>' not supported between instances of 'str' and 'int'")
  | JArr _ => raise (TypeError "'>' not supported between instances of 'list' and 'int'")
  | JObj _ => raise (TypeError "'>' not supported between instances of 'dict' and 'int'")
  end.

(** WBTC on Solana, the default of [AirdropConfig.wbtc_mint]. *)
Definition wbtc_mint : string := "9n4nbM75f5Ui33ZbPYXn59EwSgE8CGsHtAeTH5YFeJ9E".

(** The parsed data of a token account that holds [ui_amount]. *)
Definition token_account (ui_amount : json) : json :=
  JObj [("info", JObj [("tokenAmount", JObj [("uiAmount", ui_amount)])])].

Section Balances.

Variable parse_float : string -> option Q.

(** The [uiAmount] of one account, line 123; [account] stands for its
    [account.data.parsed]. *)
Definition ui_amount_of (account : json) : except json :=
  info <- py_getitem account "info" ;;
  ta <- py_getitem info "tokenAmount" ;;
  py_getitem ta "uiAmount".

(** The loop of lines 122-125 and the [return 0.0] after it. *)
Fixpoint first_positive (accounts : list json) : except Q :=
  match accounts with
  | [] => ret 0
  | account :: rest =>
      token_amount <- ui_amount_of account ;;
      if py_truthy token_amount
      then
        positive <- py_gt_zero token_amount ;;
        if positive then py_float parse_float token_amount
        else first_positive rest
      else first_positive rest
  end.

(** [get_token_balance], given the outcome of
    [client.get_token_accounts_by_owner]: an exception, or the accounts of
    [response.value] (none when it is empty or [None]). *)
Definition get_token_balance (fetched : except (list json)) : Q :=
  match accounts <- fetched ;; first_positive accounts with
  | inl _ => 0
  | inr balance => balance
  end.

Variable World : Type.
(** [client.get_balance(sender_pubkey)], in lamports. *)
Variable get_balance : World -> except Z * World.
(** [client.get_token_accounts_by_owner(sender_pubkey, {"mint": mint})]. *)
Variable get_token_accounts_by_owner : string -> World -> except (list json) * World.

Definition check_sender_balance (cfg : AirdropConfig) (w : World)
  : bool * World :=
  let '(got, w1) := get_balance w in
  match got with
  | inl _ => (false, w1)
  | inr balance_lamports =>
      let balance_sol := inject_Z balance_lamports / 1000000000 in
      let '(fetched, w2) := get_token_accounts_by_owner wbtc_mint w1 in
      let wbtc_balance := get_token_balance fetched in
      (Qlt_bool 0 balance_sol
       && Qle_bool (total_wbtc_per_cycle cfg) wbtc_balance, w2)
  end.

End Balances.

(** ** Building and submitting a transfer *)

(** [int(x)] on a float: truncation toward zero. *)
Definition py_int (x : Q) : Z := Z.quot (Qnum x) (Z.pos (Qden x)).

(** The amount of the transfer instruction, line 271, on an exact amount.
    The product is exact here; Python rounds it to a float before [int]
    truncates it, so the two can differ by one lamport. *)
Definition lamports_of (wbtc_amount : Q) : Z :=
  py_int (wbtc_amount * 1000000000).

Module Ledger.

Section Sending.

Variable World : Type.
Variables pubkey blockhash transaction : Type.
(** [Pubkey.from_string]. *)
Variable pubkey_from_string : string -> except pubkey.
(** [client.get_latest_blockhash] and [Hash.from_string] on its value. *)
Variable latest_blockhash : World -> except blockhash * World.
(** The instruction, the compiled message and the signed transaction from
    the sender to a recipient, lines 267-282. *)
Variable build : pubkey -> Z -> blockhash -> except transaction.
(** [client.send_transaction]: it raises, or returns a result whose value
    is the signature or is empty. *)
Variable send_transaction : transaction -> World -> except (option string) * World.

(** [create_wbtc_transfer_transaction]: every exception gives [None]. *)
Definition create_wbtc_transfer_transaction (recipient : string)
  (wbtc_amount : Q) (w : World) : option transaction * World :=
  match pubkey_from_string recipient with
  | inl _ => (None, w)
  | inr recipient_pubkey =>
      let '(fetched, w1) := latest_blockhash w in
      match fetched with
      | inl _ => (None, w1)
      | inr recent_blockhash =>
          match build recipient_pubkey (lamports_of wbtc_amount)
                      recent_blockhash with
          | inl _ => (None, w1)
          | inr tx => (Some tx, w1)
          end
      end
  end.

(** [send_wbtc_airdrop], lines 289-312. *)
Definition send_wbtc_airdrop (recipient : string) (wbtc_amount : Q) (w : World)
  : (bool * string) * World :=
  let '(created, w1) := create_wbtc_transfer_transaction recipient wbtc_amount w in
  match created with
  | None => ((false, "Failed to create transaction"), w1)
  | Some tx =>
      let '(result, w2) := send_transaction tx w1 in
      match result with
      | inl e => ((false, msg e), w2)
      | inr None => ((false, "Transaction failed"), w2)
      | inr (Some signature) => ((true, signature), w2)
      end
  end.

End Sending.

End Ledger.

(** ** The prompt: [main] *)

Module Cli.

(** The ASCII characters [str.strip()] removes. *)
Definition is_space (c : ascii) : bool :=
  let n := nat_of_ascii c in
  ((9 <=? n) && (n <=? 13) || (28 <=? n) && (n <=? 32))%nat.

Fixpoint lstrip (cs : list ascii) : list ascii :=
  match cs with
  | c :: cs' => if is_space c then lstrip cs' else cs
  | [] => []
  end.

(** [s.strip()], on ASCII text. *)
Definition py_strip (s : string) : string :=
  string_of_list_ascii
    (rev (lstrip (rev (lstrip (list_ascii_of_string s))))).

Definition lower_char (c : ascii) : ascii :=
  let n := nat_of_ascii c in
  if ((65 <=? n) && (n <=? 90))%nat then ascii_of_nat (n + 32) else c.

(** [s.lower()], on ASCII text. *)
Definition py_lower (s : string) : string :=
  string_of_list_ascii (map lower_char (list_ascii_of_string s)).

Definition EOFError : exn :=
  {| class := "EOFError"; msg := "EOF when reading a line" |}.

(** [input(prompt)]: the next line of the standard input. *)
Definition input (stdin : list string) : except (string * list string) :=
  match stdin with
  | [] => raise EOFError
  | line :: rest => ret (line, rest)
  end.

Definition default_rpc_url : string := "https://api.mainnet-beta.solana.com".

(** Where [main] ends. *)
Inductive outcome : Type :=
| NoContract
| NoKey (rpc_url : string) (cfg : AirdropConfig)
| SenderRejected (rpc_url : string) (cfg : AirdropConfig) (key : string)
| Cancelled (rpc_url : string) (cfg : AirdropConfig) (key : string)
| Started (rpc_url : string) (cfg : AirdropConfig) (key : string).

Section Main.

(** [float(s)] and [int(s)] on a string: [None] for ValueError. *)
Variable parse_float : string -> option Q.
Variable parse_int : string -> option Z.
(** [bot.initialize_sender(private_key)] for the bot built from the
    collected settings. *)
Variable initialize_sender : string -> AirdropConfig -> string -> bool.

(** [float(line or default)], with the value of the default literal. *)
Definition float_or (line : string) (default : Q) : option Q :=
  if String.eqb line "" then Some default else parse_float line.

(** [int(line or default)]. *)
Definition int_or (line : string) (default : Z) : option Z :=
  if String.eqb line "" then Some default else parse_int line.

(** The two prompts of lines 485-490, in one [try]: the bounds and the rest
    of the input. *)
Definition read_bounds (stdin : list string) : except (Q * Q * list string) :=
  r <- input stdin ;;
  let '(line, stdin1) := r in
  match float_or line 1000 with
  | None => ret (1000, 10000000, stdin1)
  | Some min_holdings =>
      r <- input stdin1 ;;
      let '(line, stdin2) := r in
      match float_or line 10000000 with
      | None => ret (1000, 10000000, stdin2)
      | Some max_holdings => ret (min_holdings, max_holdings, stdin2)
      end
  end.

(** Lines 461-500: the RPC URL and the configuration, or [None] when no
    token contract was given, and the rest of the input. *)
Definition collect_config (stdin : list string)
  : except (option (string * AirdropConfig) * list string) :=
  r <- input stdin ;;
  let '(line, stdin) := r in
  let rpc_url := py_strip line in
  let rpc_url := if String.eqb rpc_url "" then default_rpc_url else rpc_url in
  r <- input stdin ;;
  let '(line, stdin) := r in
  let token_contract := py_strip line in
  if String.eqb token_contract "" then ret (None, stdin)
  else
    r <- input stdin ;;
    let '(line, stdin) := r in
    let wbtc_per_cycle :=
      match float_or line (2 # 10) with Some x => x | None => 2 # 10 end in
    r <- input stdin ;;
    let '(line, stdin) := r in
    let interval :=
      match int_or line 20 with Some x => x | None => 20%Z end in
    r <- read_bounds stdin ;;
    let '(min_holdings, max_holdings, stdin) := r in
    ret (Some (rpc_url,
               {| token_contract := token_contract;
                  total_wbtc_per_cycle := wbtc_per_cycle;
                  cycle_interval := interval;
                  min_token_holdings := min_holdings;
                  max_token_holdings := max_holdings |}),
         stdin).

(** [main] up to the point where the scheduler is awaited. *)
Definition main (stdin : list string) : except (outcome * list string) :=
  r <- collect_config stdin ;;
  let '(collected, stdin) := r in
  match collected with
  | None => ret (NoContract, stdin)
  | Some (rpc_url, cfg) =>
      r <- input stdin ;;
      let '(line, stdin) := r in
      let private_key := py_strip line in
      if String.eqb private_key "" then ret (NoKey rpc_url cfg, stdin)
      else if negb (initialize_sender rpc_url cfg private_key)
      then ret (SenderRejected rpc_url cfg private_key, stdin)
      else
        r <- input stdin ;;
        let '(line, stdin) := r in
        let confirm := py_lower (py_strip line) in
        if negb (String.eqb confirm "y")
        then ret (Cancelled rpc_url cfg private_key, stdin)
        else ret (Started rpc_url cfg private_key, stdin)
  end.

End Main.

End Cli.

(** ** Canned collaborators

    Fixed answers of the node, the ledger and the runtime, for trying the
    functions above on concrete inputs. *)

Module Canned.

(** A transport that answers every request with [posted]. *)
Definition requests_post (posted : except http_response)
  (url : string) (payload : json) (w : Scripted.world)
  : except http_response * Scripted.world :=
  (posted, w).

(** An answer with status 500 and a body that is not JSON. *)
Definition server_error : except http_response :=
  inr {| status_code := 500;
         json_body := inl (ValueError "Expecting value") |}.

(** A sender with 5 lamports. *)
Definition get_balance (w : unit) : except Z * unit := (inr 5%Z, w).

(** A sender with two token accounts, of 0 and of 1 WBTC. *)
Definition get_token_accounts_by_owner (mint : string) (w : unit)
  : except (list json) * unit :=
  (inr [token_account (JNum 0); token_account (JNum 1)], w).

(** [float] and [int] on the few literals of the examples. *)
Definition parse_float (s : string) : option Q :=
  if String.eqb s "0" then Some 0
  else if String.eqb s "5000" then Some 5000
  else if String.eqb s "10" then Some 10
  else None.

Definition parse_int (s : string) : option Z :=
  if String.eqb s "60" then Some 60%Z else None.

(** A sender that is always accepted. *)
Definition initialize_sender (rpc_url : string) (cfg : AirdropConfig)
  (key : string) : bool := true.

(** Answers to the prompts: a zero budget and a minimum above the
    maximum. *)
Definition answers : list string :=
  [" http://node "; "mint"; "0"; "60"; "5000"; "10"; " key "; " Y "; "left"].

End Canned.

(** * The binary64 model

    Module [F64] follows the scan, the filter, the calculator and one
    cycle with the amounts as binary64 floats ([PrimFloat.float]), which
    is what Python's [float] is: sums round, [nan] compares false with
    everything, [float] of an integer beyond the range raises
    [OverflowError].  The keys of a dictionary are the hashable values the
    JSON decoder can deliver, not strings only. *)

Module F64.

Local Open Scope float_scope.

(** ** Numbers *)

(** The binary64 value nearest to the integer [z], ties to even;
    [infinity] beyond the range. *)
Definition float_of_Z (z : Z) : float :=
  SF2Prim (binary_normalize prec emax z 0%Z false).

Definition OverflowError : exn :=
  Exn.mk "OverflowError" "int too large to convert to float".

(** [float(z)] on a Python [int]. *)
Definition float_of_int (z : Z) : except float :=
  let f := float_of_Z z in
  if is_infinity f then raise OverflowError else ret f.

(** [a / b]: a zero divisor raises, [nan] and the infinities divide. *)
Definition py_div (a b : float) : except float :=
  if b =? 0 then raise ZeroDivisionError else ret (a / b).

(** Adding the items left to right from [0]: the builtin [sum] up to
    CPython 3.11.  Later versions carry a compensation term next to the
    running sum, which is zero as long as no addition rounds. *)
Definition sum_left (xs : list float) : float := fold_left add xs 0.

(** ** JSON values, as [response.json()] decodes them

    A number without fraction or exponent decodes to an [int], any other
    number and the literals [NaN], [Infinity], [-Infinity] to a
    [float]. *)

Inductive json : Type :=
| JNull
| JBool (b : bool)
| JInt (z : Z)
| JFloat (f : float)
| JStr (s : string)
| JArr (l : list json)
| JObj (m : list (string * json)).

(** [v[k]] for a string subscript [k]. *)
Definition py_getitem (v : json) (k : string) : except json :=
  match v with
  | JObj m =>
      match assoc m k with
      | Some x => ret x
      | None => raise (KeyError k)
      end
  | JArr _ => raise (TypeError "list indices must be integers or slices, not str")
  | JStr _ => raise (TypeError "string indices must be integers, not 'str'")
  | JNull => raise (TypeError "'NoneType' object is not subscriptable")
  | JBool _ => raise (TypeError "'bool' object is not subscriptable")
  | JInt _ => raise (TypeError "'int' object is not subscriptable")
  | JFloat _ => raise (TypeError "'float' object is not subscriptable")
  end.

Definition chars (s : string) : list json :=
  map (fun c => JStr (String c EmptyString)) (list_ascii_of_string s).

(** The elements a [for] loop over [v] visits ([len(v)] raises on the same
    values). *)
Definition py_iter (v : json) : except (list json) :=
  match v with
  | JArr l => ret l
  | JObj m => ret (map (fun kv => JStr (fst kv)) m)
  | JStr s => ret (chars s)
  | JNull => raise (TypeError "object of type 'NoneType' has no len()")
  | JBool _ => raise (TypeError "object of type 'bool' has no len()")
  | JInt _ => raise (TypeError "object of type 'int' has no len()")
  | JFloat _ => raise (TypeError "object of type 'float' has no len()")
  end.

(** ** Dictionary keys *)

(** The hashable values an owner field can hold. *)
Inductive pykey : Type :=
| KNone
| KBool (b : bool)
| KInt (z : Z)
| KFloat (f : float)
| KStr (s : string).

(** What Python's [==] and [hash] see of a key: numbers by their exact
    value ([True] is [1], [1.0] is [1]), strings by their text. *)
Inductive key_value : Type :=
| VNone
| VStr (s : string)
| VNum (q : Q)
| VInf (negative : bool)
| VNan.

Definition signed (negative : bool) (q : Q) : Q :=
  if negative then Qopp q else q.

(** The exact value [m * 2 ^ e] of a finite float. *)
Definition dyadic (m : positive) (e : Z) : Q :=
  match e with
  | Zneg p => Qmake (Zpos m) (Pos.pow 2 p)
  | _ => inject_Z (Zpos m * 2 ^ e)
  end.

Definition value_of (k : pykey) : key_value :=
  match k with
  | KNone => VNone
  | KStr s => VStr s
  | KBool b => VNum (if b then 1%Q else 0%Q)
  | KInt z => VNum (inject_Z z)
  | KFloat f =>
      match Prim2SF f with
      | S754_zero _ => VNum 0%Q
      | S754_finite s m e => VNum (signed s (dyadic m e))
      | S754_infinity s => VInf s
      | S754_nan => VNan
      end
  end.

(** Every [NaN] of a decoded body is the one [nan] object of the decoder,
    which a dictionary finds by identity. *)
Definition key_value_eqb (a b : key_value) : bool :=
  match a, b with
  | VNone, VNone => true
  | VStr s, VStr s' => String.eqb s s'
  | VNum q, VNum q' => Qeq_bool q q'
  | VInf s, VInf s' => Bool.eqb s s'
  | VNan, VNan => true
  | _, _ => false
  end.

Definition key_eqb (k k' : pykey) : bool :=
  key_value_eqb (value_of k) (value_of k').

(** ** Dictionaries: association lists in insertion order *)

Definition dict : Type := list (pykey * float).

Definition keys (d : dict) : list pykey := map fst d.
Definition values (d : dict) : list float := map snd d.

Fixpoint dict_get (d : dict) (k : pykey) : option float :=
  match d with
  | [] => None
  | (k', v) :: d' => if key_eqb k k' then Some v else dict_get d' k
  end.

(** [d[k] = v]: an existing key keeps its position and its key object, a
    new key goes last. *)
Fixpoint dict_set (d : dict) (k : pykey) (v : float) : dict :=
  match d with
  | [] => [(k, v)]
  | (k', v') :: d' =>
      if key_eqb k k' then (k', v) :: d' else (k', v') :: dict_set d' k v
  end.

(** No two keys of a dictionary are equal. *)
Fixpoint dict_wf (d : dict) : Prop :=
  match d with
  | [] => True
  | (k, _) :: d' => dict_get d' k = None /\ dict_wf d'
  end.

(** ** HolderAggregator: [get_token_holders] *)

Section Aggregator.

(** [float(s)] on a string, a capability of the Python runtime: [None]
    when [s] is not a numeric literal ([ValueError]); the literals
    ["nan"] and ["inf"] are numeric. *)
Variable parse_float : string -> option float.

(** [float(v)]. *)
Definition py_float (v : json) : except float :=
  match v with
  | JFloat f => ret f
  | JInt z => float_of_int z
  | JBool b => ret (if b then 1 else 0)
  | JStr s =>
      match parse_float s with
      | Some f => ret f
      | None => raise (ValueError "could not convert string to float")
      end
  | JNull => raise (TypeError "float() argument must be a string or a real number, not 'NoneType'")
  | JArr _ => raise (TypeError "float() argument must be a string or a real number, not 'list'")
  | JObj _ => raise (TypeError "float() argument must be a string or a real number, not 'dict'")
  end.

(** The owner as a dictionary key: [owner in holders] hashes it, and a
    list or a dict is unhashable. *)
Definition as_key (v : json) : except pykey :=
  match v with
  | JNull => ret KNone
  | JBool b => ret (KBool b)
  | JInt z => ret (KInt z)
  | JFloat f => ret (KFloat f)
  | JStr s => ret (KStr s)
  | JArr _ => raise (TypeError "unhashable type: 'list'")
  | JObj _ => raise (TypeError "unhashable type: 'dict'")
  end.

(** The reads of one loop body, lines 188-190. *)
Definition read_account (account : json) : except (json * float) :=
  a <- py_getitem account "account" ;;
  d <- py_getitem a "data" ;;
  p <- py_getitem d "parsed" ;;
  account_data <- py_getitem p "info" ;;
  owner <- py_getitem account_data "owner" ;;
  ta <- py_getitem account_data "tokenAmount" ;;
  ui <- py_getitem ta "uiAmount" ;;
  token_amount <- py_float ui ;;
  ret (owner, token_amount).

(** The [try] block of the loop body on the state
    [(holders, total_supply)], lines 188-201. *)
Definition account_body (st : dict * float) (account : json)
  : except (dict * float) :=
  let '(holders, total_supply) := st in
  r <- read_account account ;;
  let '(owner_v, token_amount) := r in
  if token_amount =? 0 then ret st
  else
    owner <- as_key owner_v ;;
    let holders' :=
      match dict_get holders owner with
      | Some b => dict_set holders owner (b + token_amount)
      | None => dict_set holders owner token_amount
      end in
    ret (holders', total_supply + token_amount).

(** One iteration: [except (KeyError, TypeError, ValueError): continue];
    any other exception leaves the loop. *)
Definition account_step (st : dict * float) (account : json)
  : except (dict * float) :=
  match account_body st account with
  | inr st' => ret st'
  | inl e =>
      if caught_by ["KeyError"; "TypeError"; "ValueError"] e
      then ret st
      else raise e
  end.

Fixpoint aggregate_accounts (st : dict * float) (token_accounts : list json)
  : except (dict * float) :=
  match token_accounts with
  | [] => ret st
  | account :: rest =>
      st' <- account_step st account ;;
      aggregate_accounts st' rest
  end.

(** What [get_token_holders] returns: the bare [{}] of line 178 or the
    pair of line 210. *)
Inductive scan_result : Type :=
| ScanBare
| ScanPair (holders : dict) (total_supply : float).

Definition get_token_holders (response : option (list (string * json)))
  : except scan_result :=
  match response with
  | None => ret ScanBare
  | Some [] => ret ScanBare
  | Some body =>
      match assoc body "result" with
      | None => ret ScanBare
      | Some result =>
          value <- py_getitem result "value" ;;
          token_accounts <- py_iter value ;;
          st <- aggregate_accounts ([], 0) token_accounts ;;
          ret (ScanPair (fst st) (snd st))
      end
  end.

(** [holders, total_supply = ...]: unpacking the returned value. *)
Definition unpack2 (r : scan_result) : except (dict * float) :=
  match r with
  | ScanPair holders total_supply => ret (holders, total_supply)
  | ScanBare =>
      raise (ValueError "not enough values to unpack (expected 2, got 0)")
  end.

End Aggregator.

(** ** Configuration and bot state *)

Record AirdropConfig : Type := {
  token_contract : string;
  total_wbtc_per_cycle : float;
  cycle_interval : Z;
  min_token_holdings : float;
  max_token_holdings : float
}.

Record WBTCAirdropBot : Type := {
  config : AirdropConfig;
  is_running : bool;
  cycle_count : Z;
  total_wbtc_distributed : float
}.

Definition init (cfg : AirdropConfig) : WBTCAirdropBot :=
  {| config := cfg; is_running := false; cycle_count := 0%Z;
     total_wbtc_distributed := 0 |}.

(** ** EligibilityFilter: [filter_eligible_holders] *)

(** [min_token_holdings <= amount <= max_token_holdings]. *)
Definition in_bounds (cfg : AirdropConfig) (amount : float) : bool :=
  (min_token_holdings cfg <=? amount) && (amount <=? max_token_holdings cfg).

(** The mapping returned, and the two counts of lines 220-221 next to
    it. *)
Definition filter_eligible_holders (cfg : AirdropConfig) (holders : dict)
  : dict * Z * Z :=
  let eligible_holders :=
    fold_left
      (fun el (item : pykey * float) =>
         let '(wallet, amount) := item in
         if in_bounds cfg amount then dict_set el wallet amount else el)
      holders [] in
  let excluded_small :=
    count_if (fun amount => amount <? min_token_holdings cfg)
             (values holders) in
  let excluded_large :=
    count_if (fun amount => max_token_holdings cfg <? amount)
             (values holders) in
  (eligible_holders, excluded_small, excluded_large).

(** ** DistributionCalculator: [calculate_wbtc_distribution] *)

Record entry : Type := {
  wallet : pykey;
  token_amount : float;
  percentage : float;
  wbtc_amount : float
}.

(** [list.sort(key=..., reverse=True)] on keys that are not [nan] (no
    eligible balance is): stable, descending. *)
Fixpoint insert_desc {A} (key : A -> float) (x : A) (l : list A) : list A :=
  match l with
  | [] => [x]
  | y :: l' =>
      if key x <? key y then y :: insert_desc key x l'
      else x :: y :: l'
  end.

Definition sort_desc {A} (key : A -> float) (l : list A) : list A :=
  fold_right (insert_desc key) [] l.

Section Calculator.

(** The builtin [sum] on a list of floats. *)
Variable py_sum : list float -> float.

(** The loop of lines 234-246. *)
Fixpoint distribution_loop (cfg : AirdropConfig) (total_eligible_tokens : float)
  (items : dict) : except (list entry) :=
  match items with
  | [] => ret []
  | (w, amount) :: rest =>
      share <- py_div amount total_eligible_tokens ;;
      let pct := share * 100 in
      share' <- py_div amount total_eligible_tokens ;;
      let wbtc := share' * total_wbtc_per_cycle cfg in
      tl <- distribution_loop cfg total_eligible_tokens rest ;;
      ret ({| wallet := w; token_amount := amount;
              percentage := pct; wbtc_amount := wbtc |} :: tl)
  end.

Definition calculate_wbtc_distribution (cfg : AirdropConfig)
  (eligible_holders : dict) : except (list entry) :=
  let total_eligible_tokens := py_sum (values eligible_holders) in
  distribution <- distribution_loop cfg total_eligible_tokens eligible_holders ;;
  ret (sort_desc token_amount distribution).

End Calculator.

(** ** One cycle: [execute_airdrop_cycle] *)

Record tally : Type := {
  successful_sends : Z;
  failed_sends : Z;
  total_wbtc_sent : float
}.

Definition tally0 : tally :=
  {| successful_sends := 0%Z; failed_sends := 0%Z; total_wbtc_sent := 0 |}.

(** One call of the transfer capability. *)
Record attempt : Type := {
  to_wallet : string;
  amount_of : float;
  ok : bool
}.

Inductive cycle_result : Type :=
| CycleOk (cycle successful failed : Z) (total_sent duration : float)
| CycleFail (error : string).

Definition success (r : cycle_result) : bool :=
  match r with
  | CycleOk _ _ _ _ _ => true
  | CycleFail _ => false
  end.

(** [recipient['wallet'][:8]] in the log lines 354 and 364: a [str] can be
    sliced, and is then the address handed to the transfer; no other key
    is subscriptable. *)
Definition sliced (k : pykey) : except string :=
  match k with
  | KStr address => ret address
  | KNone => raise (TypeError "'NoneType' object is not subscriptable")
  | KBool _ => raise (TypeError "'bool' object is not subscriptable")
  | KInt _ => raise (TypeError "'int' object is not subscriptable")
  | KFloat _ => raise (TypeError "'float' object is not subscriptable")
  end.

(** The log loop of lines 353-355 over [distribution[:10]]. *)
Fixpoint log_recipients (top : list entry) : except unit :=
  match top with
  | [] => ret tt
  | recipient :: rest =>
      _ <- sliced (wallet recipient) ;;
      log_recipients rest
  end.

Section Cycle.

Variable World : Type.
Variable rpc_request : World -> option (list (string * json)) * World.
Variable send_wbtc_airdrop : string -> float -> World -> (bool * string) * World.
Variable now : World -> float.
Variable sleep : float -> World -> World.
Variable parse_float : string -> option float.
Variable py_sum : list float -> float.

(** The loop of lines 363-380: the exception that ended it, if any, the
    counters and the world it left, and the transfers attempted. *)
Fixpoint send_loop (distribution : list entry) (t : tally) (w : World)
  : option exn * tally * World * list attempt :=
  match distribution with
  | [] => (None, t, w, [])
  | recipient :: rest =>
      match sliced (wallet recipient) with
      | inl e => (Some e, t, w, [])
      | inr address =>
          let '((sent, _), w1) :=
            send_wbtc_airdrop address (wbtc_amount recipient) w in
          let t1 :=
            if sent
            then {| successful_sends := successful_sends t + 1;
                    failed_sends := failed_sends t;
                    total_wbtc_sent := total_wbtc_sent t + wbtc_amount recipient |}
            else {| successful_sends := successful_sends t;
                    failed_sends := failed_sends t + 1;
                    total_wbtc_sent := total_wbtc_sent t |} in
          let w2 := sleep 0.5 w1 in
          let '(e, t2, w3, trace) := send_loop rest t1 w2 in
          (e, t2, w3,
           {| to_wallet := address; amount_of := wbtc_amount recipient;
              ok := sent |} :: trace)
      end
  end.

Definition count_cycle (b : WBTCAirdropBot) : WBTCAirdropBot :=
  {| config := config b; is_running := is_running b;
     cycle_count := cycle_count b + 1;
     total_wbtc_distributed := total_wbtc_distributed b |}.

Definition add_distributed (b : WBTCAirdropBot) (x : float) : WBTCAirdropBot :=
  {| config := config b; is_running := is_running b;
     cycle_count := cycle_count b;
     total_wbtc_distributed := total_wbtc_distributed b + x |}.

(** [execute_airdrop_cycle]: the result dict, the bot and the world after
    the cycle, and the transfers attempted.  The [except Exception] of
    line 403 turns an exception raised anywhere in the [try], the log loop
    of the plan and the transfer loop included, into a failure result; the
    transfers sent before it stay sent. *)
Definition execute_airdrop_cycle (b : WBTCAirdropBot) (w : World)
  : cycle_result * WBTCAirdropBot * World * list attempt :=
  let cycle_start_time := now w in
  let b1 := count_cycle b in
  let cfg := config b1 in
  let '(response, w1) := rpc_request w in
  match r <- get_token_holders parse_float response ;; unpack2 r with
  | inl e => (CycleFail (msg e), b1, w1, [])
  | inr (holders, _) =>
      if is_empty holders
      then (CycleFail "No token holders found", b1, w1, [])
      else
        let eligible_holders := fst (fst (filter_eligible_holders cfg holders)) in
        if is_empty eligible_holders
        then (CycleFail "No eligible holders found", b1, w1, [])
        else
          match distribution <- calculate_wbtc_distribution py_sum cfg eligible_holders ;;
                _ <- log_recipients (firstn 10 distribution) ;;
                ret distribution with
          | inl e => (CycleFail (msg e), b1, w1, [])
          | inr distribution =>
              match send_loop distribution tally0 w1 with
              | (Some e, _, w2, trace) => (CycleFail (msg e), b1, w2, trace)
              | (None, t, w2, trace) =>
                  let cycle_duration := now w2 - cycle_start_time in
                  (CycleOk (cycle_count b1) (successful_sends t) (failed_sends t)
                           (total_wbtc_sent t) cycle_duration,
                   add_distributed b1 (total_wbtc_sent t), w2, trace)
              end
          end
  end.

End Cycle.

(** ** Reading a trace of transfers *)

Definition successes (trace : list attempt) : Z :=
  Z.of_nat (List.length (filter ok trace)).

Definition failures (trace : list attempt) : Z :=
  Z.of_nat (List.length (filter (fun a => negb (ok a)) trace)).

(** The amounts of the successful transfers of a trace, added in order
    from [0.0]. *)
Definition amount_sent (trace : list attempt) : float :=
  fold_left add (map amount_of (filter ok trace)) 0.

(** ** The records of a scan

    What the node offers, for stating what the scan does with it. *)

(** An account record of the jsonParsed encoding. *)
Definition account_record (owner ui_amount : json) : json :=
  JObj [("account",
         JObj [("data",
                JObj [("parsed",
                       JObj [("info",
                              JObj [("owner", owner);
                                    ("tokenAmount",
                                     JObj [("uiAmount", ui_amount)])])])])])].

(** The decoded body that carries [accounts]. *)
Definition scan_response (accounts : list json) : option (list (string * json)) :=
  Some [("jsonrpc", JStr "2.0");
        ("result", JObj [("value", JArr accounts)]);
        ("id", JInt 1)].

(** The entry [k] of a value that is a dict. *)
Definition field (v : json) (k : string) : option json :=
  match v with
  | JObj m => assoc m k
  | _ => None
  end.

(** The owner and the [uiAmount] of a value of the record shape: a dict
    whose [account.data.parsed.info] is a dict with an ["owner"] and a
    ["tokenAmount"], the latter a dict with an ["uiAmount"]. *)
Definition record_of (v : json) : option (json * json) :=
  match field v "account" with
  | None => None
  | Some a =>
  match field a "data" with
  | None => None
  | Some d =>
  match field d "parsed" with
  | None => None
  | Some p =>
  match field p "info" with
  | None => None
  | Some info =>
  match field info "owner", field info "tokenAmount" with
  | Some owner, Some token_amount =>
      match field token_amount "uiAmount" with
      | Some ui_amount => Some (owner, ui_amount)
      | None => None
      end
  | _, _ => None
  end end end end end.

(** An integer amount within the range of [float]. *)
Definition in_range (ui_amount : json) : bool :=
  match ui_amount with
  | JInt z => negb (is_infinity (float_of_Z z))
  | _ => true
  end.

(** A value that is no record, or a record whose amount is no integer
    beyond the range of [float]. *)
Definition within_range (v : json) : bool :=
  match record_of v with
  | Some (_, ui_amount) => in_range ui_amount
  | None => true
  end.

(** A value that is no record, or a record whose owner is a string. *)
Definition string_owner (v : json) : bool :=
  match record_of v with
  | Some (JStr _, _) => true
  | Some _ => false
  | None => true
  end.

(** The key an owner value is counted under; a list and a dict are no
    key. *)
Definition owner_key (owner : json) : option pykey :=
  match owner with
  | JNull => Some KNone
  | JBool b => Some (KBool b)
  | JInt z => Some (KInt z)
  | JFloat f => Some (KFloat f)
  | JStr s => Some (KStr s)
  | JArr _ | JObj _ => None
  end.

Section Offered.

Variable parse_float : string -> option float.

(** The number an [uiAmount] value stands for: a float is itself, an
    integer is the float nearest to it, a boolean is 1 or 0, a string is
    what it spells; [null], a list and a dict stand for no number. *)
Definition amount_value (ui_amount : json) : option float :=
  match ui_amount with
  | JFloat f => Some f
  | JInt z => Some (float_of_Z z)
  | JBool b => Some (if b then 1 else 0)
  | JStr s => parse_float s
  | JNull | JArr _ | JObj _ => None
  end.

(** The key and the amount a value of the scanned list counts with: it is
    a record, its amount is a number and not zero, and its owner is a
    key. *)
Definition counted (v : json) : option (pykey * float) :=
  match record_of v with
  | Some (owner, ui_amount) =>
      match amount_value ui_amount with
      | Some a =>
          if a =? 0 then None
          else match owner_key owner with
               | Some k => Some (k, a)
               | None => None
               end
      | None => None
      end
  | None => None
  end.

(** The counted amounts of the wallet with key [k], in scan order. *)
Definition offered_to (k : pykey) (accounts : list json) : list float :=
  flat_map
    (fun v =>
       match counted v with
       | Some (k', a) => if key_eqb k' k then [a] else []
       | None => []
       end)
    accounts.

(** All counted amounts, in scan order. *)
Definition offered (accounts : list json) : list float :=
  flat_map
    (fun v =>
       match counted v with
       | Some (_, a) => [a]
       | None => []
       end)
    accounts.

End Offered.

(** A wallet's entry after it was offered [amounts], given its entry
    before. *)
Definition accumulate (before : option float) (amounts : list float)
  : option float :=
  fold_left
    (fun entry a => Some match entry with Some b => b + a | None => a end)
    amounts before.

(** The sum of [amounts] in their order, each added to the sum of those
    before it; no sum for no amount. *)
Definition in_order_sum (amounts : list float) : option float :=
  match amounts with
  | [] => None
  | a :: rest => Some (fold_left add rest a)
  end.

(** ** The order of binary64 values

    [SFcompare] orders the values that are not [nan] by class and sign,
    then exponent, then mantissa. *)

(** The place of a value in that order; [nan] has none. *)
Definition rank (x : spec_float) : option (Z * Z * Z) :=
  match x with
  | S754_nan => None
  | S754_infinity true => Some (-2, 0, 0)%Z
  | S754_infinity false => Some (2, 0, 0)%Z
  | S754_zero _ => Some (0, 0, 0)%Z
  | S754_finite true m e => Some (-1, - e, Zneg m)%Z
  | S754_finite false m e => Some (1, e, Zpos m)%Z
  end.

(** The lexicographic comparison of two triples, and the order it
    decides. *)
Definition lex3 (a b : Z * Z * Z) : comparison :=
  let '(a1, a2, a3) := a in
  let '(b1, b2, b3) := b in
  match (a1 ?= b1)%Z with
  | Eq => match (a2 ?= b2)%Z with
          | Eq => (a3 ?= b3)%Z
          | c => c
          end
  | c => c
  end.

Definition lt3 (a b : Z * Z * Z) : Prop :=
  let '(a1, a2, a3) := a in
  let '(b1, b2, b3) := b in
  (a1 < b1 \/ (a1 = b1 /\ (a2 < b2 \/ (a2 = b2 /\ a3 < b3))))%Z.

(** ** A scripted world for the binary64 model *)

Module Scripted.

Record world : Type := {
  responses : list (option (list (string * json)));
  outcomes : list bool;
  time : float
}.

Definition rpc_request (w : world) : option (list (string * json)) * world :=
  match responses w with
  | [] => (None, w)
  | r :: rs => (r, {| responses := rs; outcomes := outcomes w; time := time w |})
  end.

Definition send_wbtc_airdrop (recipient : string) (wbtc_amount : float)
  (w : world) : (bool * string) * world :=
  match outcomes w with
  | [] => ((false, "Transaction failed"), w)
  | o :: os =>
      ((o, if o then "signature" else "Transaction failed"),
       {| responses := responses w; outcomes := os; time := time w |})
  end.

Definition now (w : world) : float := time w.

Definition sleep (d : float) (w : world) : world :=
  {| responses := responses w; outcomes := outcomes w; time := time w + d |}.

(** [float] on the string literals of the examples. *)
Definition parse_float (s : string) : option float :=
  if String.eqb s "nan" then Some nan
  else if String.eqb s "12" then Some 12
  else None.

Definition cycle := execute_airdrop_cycle world rpc_request send_wbtc_airdrop
                      now sleep parse_float sum_left.

(** The defaults of [AirdropConfig]. *)
Definition cfg : AirdropConfig :=
  {| token_contract := "mint"; total_wbtc_per_cycle := 0.2;
     cycle_interval := 20; min_token_holdings := 1000;
     max_token_holdings := 10000000 |}.

(** The account of wallet [owner] with [ui_amount]. *)
Definition account (owner : string) (ui_amount : json) : json :=
  account_record (JStr owner) ui_amount.

(** Wallet A holds two accounts: amounts 0.1, 0.2 (wallet B), 0.4. *)
Definition rounding : list json :=
  [account "A" (JFloat 0.1); account "B" (JFloat 0.2); account "A" (JFloat 0.4)].

(** A repeated owner, a zero, a null amount, string amounts, a value that
    is no record, a record without amount, a [null] owner, an owner that
    is a list. *)
Definition mixed : list json :=
  [account "A" (JInt 1000); account "B" (JFloat 3000.5); account "A" (JInt 250);
   account "C" (JInt 0); account "D" JNull; account "E" (JStr "12");
   account "F" (JStr "nan"); account "G" (JStr "twelve"); JStr "junk";
   JObj [("account", JObj [("data", JObj [("parsed",
           JObj [("info", JObj [("owner", JStr "H")])])])])];
   account_record JNull (JInt 7);
   account_record (JArr [JStr "I"]) (JInt 5)].

(** An integer amount of 400 digits. *)
Definition huge : list json :=
  [account_record (JStr "A") (JInt 1000);
   account_record (JStr "B") (JInt (10 ^ 400))].

(** Holders [{A: nan, B: 2000}]. *)
Definition with_nan : dict := [(KStr "A", nan); (KStr "B", 2000)].

(** Holders below, within and above the default bounds, and a [nan]. *)
Definition spread : dict :=
  [(KStr "A", 500); (KStr "B", 2000); (KStr "C", nan); (KStr "D", 20000000);
   (KStr "E", 1000); (KStr "F", 10000000)].

(** The capital letter number [i]. *)
Definition letter (i : nat) : string :=
  String (ascii_of_nat (65 + i)) EmptyString.

(** Ten wallets A to J of 2000 tokens, and an eleventh account of 1000
    tokens whose owner is [null]. *)
Definition eleven : list json :=
  map (fun i => account_record (JStr (letter i)) (JInt 2000)) (seq 0 10)
  ++ [account_record JNull (JInt 1000)].

(** The scan of [eleven] answered, every transfer accepted. *)
Definition null_owner : world :=
  {| responses := [scan_response eleven]; outcomes := repeat true 11;
     time := 0 |}.

(** The bounds at 1 and 1e18. *)
Definition cfg_wide : AirdropConfig :=
  {| token_contract := "mint"; total_wbtc_per_cycle := 0.2;
     cycle_interval := 20; min_token_holdings := 1;
     max_token_holdings := 1e18 |}.

(** Holders [{X: 1e17, Y: 1}]; the transfer to X accepted, to Y refused. *)
Definition absorbed : world :=
  {| responses :=
       [scan_response [account_record (JStr "X") (JFloat 1e17);
                       account_record (JStr "Y") (JInt 1)]];
     outcomes := [true; false]; time := 0 |}.

(** Holders [{A: 1000, B: 3000}]. *)
Definition ab : list json :=
  [account_record (JStr "A") (JInt 1000);
   account_record (JStr "B") (JInt 3000)].

(** The scan of [ab] answered, the first transfer refused, the second
    accepted. *)
Definition partial_failure : world :=
  {| responses := [scan_response ab]; outcomes := [false; true]; time := 0 |}.

(** Wallet A holds accounts of 281.9, 257.2 and 460.9 tokens, wallet B one
    of 2000. *)
Definition at_the_bound : list json :=
  [account "A" (JFloat 281.9); account "A" (JFloat 257.2);
   account "B" (JInt 2000); account "A" (JFloat 460.9)].

(** One wallet, amounts 0.1, 0.2, 0.3, and the same accounts in reverse
    order. *)
Definition ascending : list json :=
  [account "A" (JFloat 0.1); account "A" (JFloat 0.2); account "A" (JFloat 0.3)].

Definition descending : list json := rev ascending.

(** The bounds at -10 and 10. *)
Definition cfg_signed : AirdropConfig :=
  {| token_contract := "mint"; total_wbtc_per_cycle := 0.2;
     cycle_interval := 20; min_token_holdings := -10;
     max_token_holdings := 10 |}.

(** Holders [{X: 3, Y: -1}]; the transfer to X accepted, to Y refused. *)
Definition negative : world :=
  {| responses :=
       [scan_response [account_record (JStr "X") (JInt 3);
                       account_record (JStr "Y") (JInt (-1))]];
     outcomes := [true; false]; time := 0 |}.

End Scripted.

End F64.

(** * Properties *)

(** ** Arithmetic and list facts *)

Lemma fold_left_Qplus (l : list Q) (a : Q) :
  fold_left Qplus l a == a + py_sum l.
Proof.
  unfold py_sum. revert a.
  induction l as [|x l IH]; intros a; simpl.
  - ring.
  - rewrite (IH (a + x)), (IH (0 + x)). ring.
Qed.

Lemma py_sum_cons (x : Q) (l : list Q) : py_sum (x :: l) == x + py_sum l.
Proof.
  unfold py_sum at 1. simpl. rewrite fold_left_Qplus. ring.
Qed.

Lemma py_sum_map {A} (f : A -> Q) (l : list A) :
  py_sum (map f l) == total_of f l.
Proof.
  induction l as [|x l IH]; simpl.
  - reflexivity.
  - rewrite py_sum_cons, IH. reflexivity.
Qed.

Lemma Qlt_bool_iff (a b : Q) : Qlt_bool a b = true <-> a < b.
Proof.
  unfold Qlt_bool. rewrite Qlt_alt.
  destruct (a ?= b); split; congruence.
Qed.

Lemma Qlt_bool_false (a b : Q) : Qlt_bool a b = false <-> b <= a.
Proof.
  rewrite <- Bool.not_true_iff_false, Qlt_bool_iff. split.
  - apply Qnot_lt_le.
  - apply Qle_not_lt.
Qed.

Lemma Qeq_bool_false (a b : Q) : Qeq_bool a b = false <-> ~ a == b.
Proof.
  rewrite <- Bool.not_true_iff_false, Qeq_bool_iff. tauto.
Qed.

Lemma bind_inr {A B} (c : except A) (k : A -> except B) (b : B) :
  bind c k = inr b -> exists a, c = inr a /\ k a = inr b.
Proof.
  destruct c as [e'|a]; simpl; intros H.
  - discriminate.
  - eauto.
Qed.

(** ** EligibilityFilter *)

Lemma dict_set_fresh (d : dict) (k : string) (v : Q) :
  ~ In k (keys d) -> dict_set d k v = d ++ [(k, v)].
Proof.
  unfold keys. induction d as [|[k0 v0] d IH]; simpl; intros H.
  - reflexivity.
  - destruct (String.eqb k k0) eqn:E.
    + apply String.eqb_eq in E. subst. tauto.
    + rewrite IH by tauto. reflexivity.
Qed.

Lemma count_if_length {A} (p : A -> bool) (xs : list A) :
  count_if p xs = Z.of_nat (List.length (filter p xs)).
Proof.
  unfold count_if.
  assert (G : forall n, fold_left (fun n x => if p x then (n + 1)%Z else n) xs n
                        = (n + Z.of_nat (List.length (filter p xs)))%Z).
  { induction xs as [|x xs IH]; intros n; simpl.
    - lia.
    - rewrite IH. destruct (p x); simpl List.length; lia. }
  rewrite G. lia.
Qed.

Lemma in_bounds_iff (cfg : AirdropConfig) (a : Q) :
  in_bounds cfg a = true <->
  min_token_holdings cfg <= a /\ a <= max_token_holdings cfg.
Proof.
  unfold in_bounds. rewrite Bool.andb_true_iff, !Qle_bool_iff. tauto.
Qed.

Section FilterFacts.

Variable cfg : AirdropConfig.

Local Abbreviation keep := (fun item : string * Q => in_bounds cfg (snd item)).

Lemma keys_filter_incl (p : string * Q -> bool) (d : dict) (k : string) :
  In k (keys (filter p d)) -> In k (keys d).
Proof.
  unfold keys. rewrite !in_map_iff.
  intros (x & Hx & Hin). apply filter_In in Hin. exists x. tauto.
Qed.

Lemma dict_wf_filter (p : string * Q -> bool) (d : dict) :
  dict_wf d -> dict_wf (filter p d).
Proof.
  unfold dict_wf.
  induction d as [|[k v] d IH]; simpl; intros H.
  - constructor.
  - inversion H as [|? ? Hnin Hd]; subst.
    destruct (p (k, v)); simpl.
    + constructor; [|exact (IH Hd)].
      intros Hin. apply Hnin. exact (keys_filter_incl _ _ _ Hin).
    + exact (IH Hd).
Qed.

(** The loop of lines 216-218 from an accumulator whose keys the
    remaining items do not repeat. *)
Lemma eligible_loop (items acc : dict) :
  dict_wf (acc ++ items) ->
  fold_left
    (fun el (item : string * Q) =>
       let '(wallet, amount) := item in
       if in_bounds cfg amount then dict_set el wallet amount else el)
    items acc
  = acc ++ filter keep items.
Proof.
  unfold dict_wf, keys. revert acc.
  induction items as [|[k v] items IH]; intros acc Hwf; simpl.
  - rewrite app_nil_r. reflexivity.
  - assert (Hk : ~ In k (keys acc)).
    { rewrite map_app in Hwf. simpl in Hwf.
      apply NoDup_remove_2 in Hwf. intros Hin. apply Hwf.
      apply in_or_app. left. exact Hin. }
    destruct (in_bounds cfg v) eqn:E.
    + rewrite dict_set_fresh by exact Hk.
      rewrite IH.
      * rewrite <- app_assoc. reflexivity.
      * rewrite <- app_assoc. simpl. exact Hwf.
    + apply IH.
      rewrite map_app in *. simpl in Hwf.
      apply NoDup_remove_1 in Hwf. exact Hwf.
Qed.

Lemma eligible_is_filter (holders : dict) :
  dict_wf holders ->
  fst (fst (filter_eligible_holders cfg holders)) = filter keep holders.
Proof.
  intros Hwf. unfold filter_eligible_holders. simpl.
  rewrite eligible_loop; [reflexivity | exact Hwf].
Qed.

End FilterFacts.

(** ** Stable descending sort *)

Section SortFacts.

Context {A : Type}.
Variable key : A -> Q.

Lemma insert_desc_perm (x : A) (l : list A) :
  Permutation (insert_desc key x l) (x :: l).
Proof.
  induction l as [|y l IH]; simpl.
  - apply Permutation_refl.
  - destruct (Qlt_bool (key x) (key y)).
    + apply perm_trans with (y :: x :: l).
      * apply perm_skip, IH.
      * apply perm_swap.
    + apply Permutation_refl.
Qed.

Lemma sort_desc_perm (l : list A) : Permutation (sort_desc key l) l.
Proof.
  induction l as [|x l IH]; simpl.
  - apply perm_nil.
  - apply perm_trans with (x :: sort_desc key l).
    + apply insert_desc_perm.
    + apply perm_skip, IH.
Qed.

Lemma insert_desc_hd (x z : A) (l : list A) :
  desc key z x -> HdRel (desc key) z l ->
  HdRel (desc key) z (insert_desc key x l).
Proof.
  intros Hzx Hzl. destruct l as [|y l]; simpl.
  - constructor. exact Hzx.
  - destruct (Qlt_bool (key x) (key y)); constructor.
    + inversion Hzl. assumption.
    + exact Hzx.
Qed.

Lemma insert_desc_sorted (x : A) (l : list A) :
  Sorted (desc key) l -> Sorted (desc key) (insert_desc key x l).
Proof.
  induction l as [|y l IH]; simpl; intros Hs.
  - repeat constructor.
  - inversion Hs as [|? ? Hl Hhd]; subst.
    destruct (Qlt_bool (key x) (key y)) eqn:E.
    + constructor; [exact (IH Hl)|].
      apply insert_desc_hd; [|exact Hhd].
      apply Qlt_bool_iff in E. unfold desc. lra.
    + constructor; [exact Hs|]. constructor.
      apply Qlt_bool_false in E. exact E.
Qed.

Lemma sort_desc_sorted (l : list A) : Sorted (desc key) (sort_desc key l).
Proof.
  induction l as [|x l IH]; simpl.
  - constructor.
  - apply insert_desc_sorted, IH.
Qed.

Lemma desc_trans : Relations_1.Transitive (desc key).
Proof.
  intros x y z Hxy Hyz. unfold desc in *. lra.
Qed.

Lemma sort_desc_strongly_sorted (l : list A) :
  StronglySorted (desc key) (sort_desc key l).
Proof.
  apply Sorted_StronglySorted; [exact desc_trans | apply sort_desc_sorted].
Qed.

(** Insertion moves [x] only past strictly larger keys, so it keeps the
    order among the elements of any one key. *)
Lemma insert_desc_stable (v : Q) (x : A) (l : list A) :
  filter (has_key key v) (insert_desc key x l) =
  filter (has_key key v) (x :: l).
Proof.
  induction l as [|y l IH]; simpl.
  - reflexivity.
  - destruct (Qlt_bool (key x) (key y)) eqn:E; [|reflexivity].
    simpl. rewrite IH. simpl.
    apply Qlt_bool_iff in E. unfold has_key.
    destruct (Qeq_bool (key x) v) eqn:Ex; [|reflexivity].
    destruct (Qeq_bool (key y) v) eqn:Ey; [|reflexivity].
    apply Qeq_bool_iff in Ex, Ey. lra.
Qed.

Lemma sort_desc_stable (v : Q) (l : list A) :
  filter (has_key key v) (sort_desc key l) = filter (has_key key v) l.
Proof.
  induction l as [|x l IH]; simpl.
  - reflexivity.
  - rewrite insert_desc_stable. simpl. rewrite IH. reflexivity.
Qed.

End SortFacts.

Lemma filter_map_comm {A B} (f : A -> B) (p : B -> bool) (l : list A) :
  filter p (map f l) = map f (filter (fun x => p (f x)) l).
Proof.
  induction l as [|x l IH]; simpl.
  - reflexivity.
  - rewrite IH. destruct (p (f x)); reflexivity.
Qed.

Lemma total_of_perm {A} (f : A -> Q) (l l' : list A) :
  Permutation l l' -> total_of f l == total_of f l'.
Proof.
  induction 1; simpl.
  - reflexivity.
  - rewrite IHPermutation. reflexivity.
  - ring.
  - rewrite IHPermutation1. exact IHPermutation2.
Qed.

(** ** DistributionCalculator *)

Section CalculatorFacts.

Variable cfg : AirdropConfig.

Lemma py_div_ok (a b : Q) : ~ b == 0 -> py_div a b = inr (a / b).
Proof.
  intros H. unfold py_div. apply Qeq_bool_false in H. rewrite H. reflexivity.
Qed.

Lemma py_div_zero (a b : Q) : b == 0 -> py_div a b = inl ZeroDivisionError.
Proof.
  intros H. unfold py_div. apply Qeq_bool_iff in H. rewrite H. reflexivity.
Qed.

Lemma distribution_loop_ok (total : Q) (items : dict) :
  ~ total == 0 ->
  distribution_loop cfg total items = inr (map (entry_of cfg total) items).
Proof.
  intros H. induction items as [|[w a] items IH]; simpl.
  - reflexivity.
  - rewrite (py_div_ok a total H). simpl. rewrite IH. reflexivity.
Qed.

Lemma distribution_loop_zero (total : Q) (items : dict) :
  total == 0 -> items <> [] ->
  distribution_loop cfg total items = inl ZeroDivisionError.
Proof.
  intros H Hne. destruct items as [|[w a] items]; [congruence|].
  simpl. rewrite (py_div_zero a total H). reflexivity.
Qed.

Lemma distribution_loop_inr (total : Q) (items : dict) (d : list entry) :
  distribution_loop cfg total items = inr d ->
  d = map (entry_of cfg total) items.
Proof.
  destruct items as [|item items]; simpl.
  - intros H. injection H as <-. reflexivity.
  - destruct (Qeq_bool total 0) eqn:E.
    + destruct item as [w a]. rewrite (py_div_zero a total); [discriminate|].
      apply Qeq_bool_iff, E.
    + apply Qeq_bool_false in E.
      change (distribution_loop cfg total (item :: items) = inr d ->
              d = map (entry_of cfg total) (item :: items)).
      rewrite (distribution_loop_ok total (item :: items) E).
      intros H. injection H as <-. reflexivity.
Qed.

Lemma calculate_inr (eligible : dict) (d : list entry) :
  calculate_wbtc_distribution cfg eligible = inr d ->
  d = sort_desc token_amount
        (map (entry_of cfg (py_sum (values eligible))) eligible).
Proof.
  unfold calculate_wbtc_distribution. intros H.
  apply bind_inr in H. destruct H as (d0 & H0 & H1).
  apply distribution_loop_inr in H0. subst d0.
  injection H1 as <-. reflexivity.
Qed.

Lemma calculate_ok (eligible : dict) :
  ~ py_sum (values eligible) == 0 ->
  calculate_wbtc_distribution cfg eligible =
  inr (sort_desc token_amount
         (map (entry_of cfg (py_sum (values eligible))) eligible)).
Proof.
  intros H. unfold calculate_wbtc_distribution.
  rewrite (distribution_loop_ok _ eligible H). reflexivity.
Qed.

Lemma calculate_zero (eligible : dict) :
  eligible <> [] -> py_sum (values eligible) == 0 ->
  calculate_wbtc_distribution cfg eligible = inl ZeroDivisionError.
Proof.
  intros Hne H. unfold calculate_wbtc_distribution.
  rewrite (distribution_loop_zero _ eligible H Hne). reflexivity.
Qed.

Lemma total_of_wbtc (total : Q) (items : dict) :
  ~ total == 0 ->
  total_of wbtc_amount (map (entry_of cfg total) items) ==
  total_of snd items / total * total_wbtc_per_cycle cfg.
Proof.
  intros H. induction items as [|[w a] items IH]; simpl.
  - field. exact H.
  - rewrite IH. field. exact H.
Qed.

Lemma total_of_percentage (total : Q) (items : dict) :
  ~ total == 0 ->
  total_of percentage (map (entry_of cfg total) items) ==
  total_of snd items / total * 100.
Proof.
  intros H. induction items as [|[w a] items IH]; simpl.
  - field. exact H.
  - rewrite IH. field. exact H.
Qed.

End CalculatorFacts.

(** C8.  Whenever the calculation returns a list, the list is in descending
    order of token_amount (every entry is at least every later one), and for
    each amount the entries holding it are the entries of the eligible
    wallets holding it, in the order the eligible mapping has them. *)
Theorem calculate_wbtc_distribution_sorted_stable
  (cfg : AirdropConfig) (eligible : dict) (distribution : list entry) :
  calculate_wbtc_distribution cfg eligible = inr distribution ->
  StronglySorted (desc token_amount) distribution
  /\ forall v,
      filter (has_key token_amount v) distribution =
      map (entry_of cfg (py_sum (values eligible)))
          (filter (has_key snd v) eligible).
Proof.
  intros H. apply calculate_inr in H. subst distribution. split.
  - apply sort_desc_strongly_sorted.
  - intros v. rewrite sort_desc_stable, filter_map_comm. reflexivity.
Qed.

(** C2.  For an eligible mapping with positive total balance (hence not
    empty) and budget B, the calculation returns a list with one entry per
    eligible wallet; each entry has percentage = token_amount / total * 100
    and allocated amount = token_amount / total * B; the allocated amounts
    sum to B and the percentages to 100, exactly, hence within a relative
    tolerance of 1e-9. *)
Theorem calculate_wbtc_distribution_proportional
  (cfg : AirdropConfig) (eligible : dict) :
  eligible <> [] ->
  0 < py_sum (values eligible) ->
  exists distribution,
    calculate_wbtc_distribution cfg eligible = inr distribution
    /\ Permutation distribution
         (map (entry_of cfg (py_sum (values eligible))) eligible)
    /\ (forall e, In e distribution ->
          In (wallet e, token_amount e) eligible
          /\ percentage e == token_amount e / py_sum (values eligible) * 100
          /\ wbtc_amount e ==
             token_amount e / py_sum (values eligible) * total_wbtc_per_cycle cfg)
    /\ py_sum (map wbtc_amount distribution) == total_wbtc_per_cycle cfg
    /\ py_sum (map percentage distribution) == 100
    /\ Qabs (py_sum (map wbtc_amount distribution) - total_wbtc_per_cycle cfg)
       <= (1 # 1000000000) * Qabs (total_wbtc_per_cycle cfg)
    /\ Qabs (py_sum (map percentage distribution) - 100)
       <= (1 # 1000000000) * 100.
Proof.
  intros _ Hpos.
  set (total := py_sum (values eligible)) in *.
  set (B := total_wbtc_per_cycle cfg).
  assert (Hnz : ~ total == 0) by lra.
  exists (sort_desc token_amount (map (entry_of cfg total) eligible)).
  pose proof (sort_desc_perm token_amount (map (entry_of cfg total) eligible))
    as Hperm.
  assert (Hw : py_sum (map wbtc_amount
                 (sort_desc token_amount (map (entry_of cfg total) eligible)))
               == B).
  { rewrite py_sum_map, (total_of_perm _ _ _ Hperm), total_of_wbtc by exact Hnz.
    rewrite <- py_sum_map. fold (values eligible). fold total. fold B.
    field. exact Hnz. }
  assert (Hp : py_sum (map percentage
                 (sort_desc token_amount (map (entry_of cfg total) eligible)))
               == 100).
  { rewrite py_sum_map, (total_of_perm _ _ _ Hperm), total_of_percentage
      by exact Hnz.
    rewrite <- py_sum_map. fold (values eligible). fold total.
    field. exact Hnz. }
  split; [apply calculate_ok; exact Hnz|].
  split; [exact Hperm|].
  split; [|split; [exact Hw|split; [exact Hp|split]]].
  - intros e He. apply (Permutation_in _ Hperm) in He.
    apply in_map_iff in He. destruct He as ([w a] & <- & Hin). simpl.
    split; [exact Hin|]. split; reflexivity.
  - rewrite Hw. setoid_replace (B - B) with 0 by ring.
    simpl Qabs at 1. apply Qmult_le_0_compat; [discriminate | apply Qabs_nonneg].
  - rewrite Hp. setoid_replace (100 - 100) with 0 by ring.
    discriminate.
Qed.

(** ** TransferExecutor *)

Section ExecutorFacts.

Variable World : Type.
Variable send_wbtc_airdrop : string -> Q -> World -> (bool * string) * World.
Variable sleep : Q -> World -> World.

Local Abbreviation run_loop := (send_loop World send_wbtc_airdrop sleep).

(** Every entry is attempted, once and in order, with its own amount. *)
Lemma send_loop_trace (distribution : list entry) :
  forall t w,
    map to_wallet (snd (run_loop distribution t w)) = map wallet distribution
    /\ map amount_of (snd (run_loop distribution t w))
       = map wbtc_amount distribution.
Proof.
  induction distribution as [|e rest IH]; intros t w; simpl.
  - split; reflexivity.
  - destruct (send_wbtc_airdrop (wallet e) (wbtc_amount e) w) as [[sent sg] w1].
    match goal with
    | |- context [send_loop _ _ _ rest ?t1 ?w2] =>
        destruct (IH t1 w2) as [IH1 IH2];
        destruct (send_loop World send_wbtc_airdrop sleep rest t1 w2)
          as [[t2 w3] trace]
    end.
    simpl in *. rewrite IH1, IH2. split; reflexivity.
Qed.

(** The counters after the loop, read off the trace. *)
Lemma send_loop_tally (distribution : list entry) :
  forall t w,
    let r := run_loop distribution t w in
    successful_sends (fst (fst r)) = (successful_sends t + successes (snd r))%Z
    /\ failed_sends (fst (fst r)) = (failed_sends t + failures (snd r))%Z
    /\ total_wbtc_sent (fst (fst r)) == total_wbtc_sent t + amount_sent (snd r).
Proof.
  unfold successes, failures, amount_sent.
  induction distribution as [|e rest IH]; intros t w; simpl.
  - split; [lia | split; [lia |]]. change (py_sum []) with 0. ring.
  - destruct (send_wbtc_airdrop (wallet e) (wbtc_amount e) w) as [[sent sg] w1].
    match goal with
    | |- context [send_loop _ _ _ rest ?t1 ?w2] =>
        destruct (IH t1 w2) as (IH1 & IH2 & IH3);
        destruct (send_loop World send_wbtc_airdrop sleep rest t1 w2)
          as [[t2 w3] trace]
    end.
    unfold failed in *. simpl in *.
    destruct sent; simpl in *.
    + rewrite IH1, IH2, IH3, py_sum_cons. split; [lia | split; [lia | ring]].
    + rewrite IH1, IH2, IH3. split; [lia | split; [lia | reflexivity]].
Qed.

Lemma all_sent_failures (trace : list attempt) :
  all_sent trace = true <-> failures trace = 0%Z.
Proof.
  unfold all_sent, failures, failed.
  induction trace as [|a trace IH]; simpl.
  - tauto.
  - destruct (ok a); simpl negb; cbv iota.
    + exact IH.
    + rewrite Bool.andb_false_l. simpl List.length.
      split; [discriminate | lia].
Qed.

(** What was sent and what was not add up to what was attempted. *)
Lemma amount_sent_split (trace : list attempt) :
  amount_sent trace + py_sum (map amount_of (filter failed trace))
  == py_sum (map amount_of trace).
Proof.
  unfold amount_sent, failed.
  induction trace as [|a trace IH]; simpl.
  - change (py_sum []) with 0. ring.
  - destruct (ok a); simpl; rewrite !py_sum_cons, <- IH; ring.
Qed.

Lemma unsent_nonneg (trace : list attempt) :
  (forall a, In a trace -> 0 <= amount_of a) ->
  0 <= py_sum (map amount_of (filter failed trace)).
Proof.
  induction trace as [|a trace IH]; simpl; intros H.
  - change (py_sum []) with 0. lra.
  - assert (IH' := IH (fun x Hx => H x (or_intror Hx))).
    destruct (failed a); simpl; [|exact IH'].
    rewrite py_sum_cons. pose proof (H a (or_introl eq_refl)). lra.
Qed.

Lemma trace_amounts (distribution : list entry) (trace : list attempt)
  (P : Q -> Prop) :
  map amount_of trace = map wbtc_amount distribution ->
  (forall e, In e distribution -> P (wbtc_amount e)) ->
  forall a, In a trace -> P (amount_of a).
Proof.
  intros Hmap H a Ha.
  apply (in_map amount_of) in Ha. rewrite Hmap in Ha.
  apply in_map_iff in Ha. destruct Ha as (e & <- & He). apply H, He.
Qed.

End ExecutorFacts.

(** ** One cycle *)

Section CycleFacts.

Variable World : Type.
Variable rpc_request : World -> option (list (string * json)) * World.
Variable send_wbtc_airdrop : string -> Q -> World -> (bool * string) * World.
Variable now : World -> Q.
Variable sleep : Q -> World -> World.
Variable parse_float : string -> option Q.

Local Abbreviation cycle :=
  (execute_airdrop_cycle World rpc_request send_wbtc_airdrop now sleep
                         parse_float).
Local Abbreviation run_loop := (send_loop World send_wbtc_airdrop sleep).

(** Steps 1 and 2 came through with a non-empty eligible mapping: the
    cycle is decided by the calculation and the transfer loop. *)
Lemma cycle_from_eligible (b : WBTCAirdropBot) (w w1 : World)
  (response : option (list (string * json))) (holders : dict) (total : Q) :
  rpc_request w = (response, w1) ->
  get_token_holders parse_float response = inr (ScanPair holders total) ->
  fst (fst (filter_eligible_holders (config b) holders)) <> [] ->
  cycle b w =
  match calculate_wbtc_distribution (config b)
          (fst (fst (filter_eligible_holders (config b) holders))) with
  | inl e => (CycleFail (msg e), count_cycle b, w1, [])
  | inr distribution =>
      let '(t, w2, trace) := run_loop distribution tally0 w1 in
      (CycleOk (cycle_count b + 1) (successful_sends t) (failed_sends t)
               (total_wbtc_sent t) (now w2 - now w),
       add_distributed (count_cycle b) (total_wbtc_sent t), w2, trace)
  end.
Proof.
  intros Hrpc Hscan Hel. unfold execute_airdrop_cycle.
  rewrite Hrpc, Hscan. cbn [bind unpack2 ret].
  destruct holders as [|item holders].
  - exfalso. apply Hel. reflexivity.
  - cbn [is_empty count_cycle config].
    destruct (fst (fst (filter_eligible_holders (config b) (item :: holders))))
      as [|x eligible]; [congruence|].
    cbn [is_empty]. reflexivity.
Qed.

(** What every cycle does to the bot, whatever its outcome. *)
Lemma cycle_bot (b b1 : WBTCAirdropBot) (w w1 : World) (r : cycle_result)
  (trace : list attempt) :
  cycle b w = (r, b1, w1, trace) ->
  config b1 = config b
  /\ is_running b1 = is_running b
  /\ cycle_count b1 = (cycle_count b + 1)%Z
  /\ total_wbtc_distributed b1 == total_wbtc_distributed b + sent_of r
  /\ sent_of r == amount_sent trace.
Proof.
  unfold execute_airdrop_cycle.
  destruct (rpc_request w) as [response w0].
  destruct (r0 <- get_token_holders parse_float response;; unpack2 r0)
    as [e|[holders total]].
  2: destruct (is_empty holders).
  3: destruct (is_empty _).
  4: destruct (calculate_wbtc_distribution _ _) as [e|distribution].
  5: { pose proof (send_loop_tally World send_wbtc_airdrop sleep
                     distribution tally0 w0) as (_ & _ & Ht).
       destruct (send_loop World send_wbtc_airdrop sleep distribution
                           tally0 w0) as [[t w2] tr].
       simpl in Ht.
       intros H. injection H as <- <- <- <-. simpl.
       repeat split; try reflexivity. rewrite Ht. ring. }
  all: intros H; injection H as <- <- <- <-; simpl;
    repeat split; try reflexivity; try ring.
Qed.

(** The scheduler loop, from a running bot. *)
Lemma run_cycles_spec (n : nat) :
  forall (b : WBTCAirdropBot) (w : World),
    is_running b = true ->
    let r := run_cycles World rpc_request send_wbtc_airdrop now sleep
                        parse_float n b w in
    List.length (fst (fst r)) = n
    /\ cycle_count (snd (fst r)) = (cycle_count b + Z.of_nat n)%Z
    /\ total_wbtc_distributed (snd (fst r)) ==
       total_wbtc_distributed b + py_sum (map sent_of (fst (fst r))).
Proof.
  induction n as [|n IH]; intros b w Hrun.
  - simpl. split; [reflexivity|]. split; [lia|].
    change (py_sum []) with 0. ring.
  - cbn [run_cycles]. rewrite Hrun.
    destruct (cycle b w) as [[[r b1] w1] tr] eqn:Hc.
    apply cycle_bot in Hc. destruct Hc as (Hcfg & Hr & Hcc & Htot & _).
    assert (Hrun1 : is_running b1 = true) by congruence.
    specialize (IH b1 (sleep (inject_Z (cycle_interval (config b1))) w1) Hrun1).
    destruct (run_cycles World rpc_request send_wbtc_airdrop now sleep
                parse_float n b1 _) as [[results b2] w3].
    simpl in *. destruct IH as (IH1 & IH2 & IH3).
    split; [congruence|]. split; [lia|].
    rewrite IH3, Htot, py_sum_cons. ring.
Qed.

End CycleFacts.

(** ** The cycle and the scheduler against the ledger *)

Section CycleClaims.

Variable World : Type.
Variable rpc_request : World -> option (list (string * json)) * World.
Variable send_wbtc_airdrop : string -> Q -> World -> (bool * string) * World.
Variable now : World -> Q.
Variable sleep : Q -> World -> World.
Variable parse_float : string -> option Q.

Local Abbreviation cycle :=
  (execute_airdrop_cycle World rpc_request send_wbtc_airdrop now sleep
                         parse_float).
Local Abbreviation run_loop := (send_loop World send_wbtc_airdrop sleep).

(** C1, as the code has it.  For a non-empty eligible mapping whose
    balances add up to zero the calculation divides by that zero and
    raises ZeroDivisionError; a cycle whose filter produced this mapping
    reports failure with that exception's message, attempts no transfer
    and leaves the cumulative total as it was. *)
Theorem zero_supply_raises_zero_division
  (b : WBTCAirdropBot) (w w1 : World)
  (response : option (list (string * json)))
  (holders eligible : dict) (total : Q) :
  eligible <> [] ->
  py_sum (values eligible) == 0 ->
  rpc_request w = (response, w1) ->
  get_token_holders parse_float response = inr (ScanPair holders total) ->
  fst (fst (filter_eligible_holders (config b) holders)) = eligible ->
  calculate_wbtc_distribution (config b) eligible = inl ZeroDivisionError
  /\ cycle b w =
     (CycleFail "float division by zero", count_cycle b, w1, [])
  /\ success (fst (fst (fst (cycle b w)))) = false
  /\ total_wbtc_distributed (snd (fst (fst (cycle b w))))
     = total_wbtc_distributed b.
Proof.
  intros Hne Hzero Hrpc Hscan Hel.
  pose proof (calculate_zero (config b) eligible Hne Hzero) as Hcalc.
  assert (Hc : cycle b w =
               (CycleFail "float division by zero", count_cycle b, w1, [])).
  { rewrite (cycle_from_eligible World rpc_request send_wbtc_airdrop now sleep
                  parse_float b w w1 response holders total
               Hrpc Hscan) by (rewrite Hel; exact Hne).
    rewrite Hel, Hcalc. reflexivity. }
  split; [exact Hcalc|]. split; [exact Hc|].
  rewrite Hc. split; reflexivity.
Qed.

(** C4.  When the filter leaves no eligible holder, the cycle reports
    failure and attempts no transfer: the trace is empty, so no transfer
    succeeded and none failed, the world is as the scan left it and the
    cumulative total is unchanged.  The holder mapping being empty after
    aggregation is the same case, reported as "No token holders found". *)
Theorem empty_eligible_set_fails_cycle
  (b : WBTCAirdropBot) (w w1 : World)
  (response : option (list (string * json)))
  (holders : dict) (total : Q) :
  rpc_request w = (response, w1) ->
  get_token_holders parse_float response = inr (ScanPair holders total) ->
  fst (fst (filter_eligible_holders (config b) holders)) = [] ->
  exists (r : cycle_result) (b' : WBTCAirdropBot) (trace : list attempt),
    cycle b w = (r, b', w1, trace)
    /\ r = CycleFail (if is_empty holders then "No token holders found"
                      else "No eligible holders found")
    /\ success r = false
    /\ trace = []
    /\ successes trace = 0%Z /\ failures trace = 0%Z
    /\ total_wbtc_distributed b' = total_wbtc_distributed b.
Proof.
  intros Hrpc Hscan Hel.
  exists (CycleFail (if is_empty holders then "No token holders found"
                     else "No eligible holders found")),
    (count_cycle b), [].
  split.
  - unfold execute_airdrop_cycle.
    rewrite Hrpc, Hscan. cbn [bind unpack2 ret count_cycle config].
    destruct (is_empty holders); [reflexivity|].
    rewrite Hel. reflexivity.
  - repeat split; reflexivity.
Qed.

(** C10.  When the RPC request fails ([None]) or its body has no
    "result", [get_token_holders] returns the bare empty dict and not a
    pair; unpacking it into two names raises ValueError, so the cycle
    fails through the generic handler with that exception's message, not
    through the "No token holders found" branch, and attempts no
    transfer. *)
Theorem scan_failure_fails_by_unpacking
  (b : WBTCAirdropBot) (w w1 : World)
  (response : option (list (string * json))) :
  rpc_request w = (response, w1) ->
  (response = None
   \/ exists body, response = Some body /\ assoc body "result" = None) ->
  get_token_holders parse_float response = inr ScanBare
  /\ (exists e, unpack2 ScanBare = inl e
                /\ class e = "ValueError"
                /\ cycle b w = (CycleFail (msg e), count_cycle b, w1, []))
  /\ fst (fst (fst (cycle b w))) <> CycleFail "No token holders found"
  /\ success (fst (fst (fst (cycle b w)))) = false
  /\ snd (cycle b w) = [].
Proof.
  intros Hrpc Hresp.
  assert (Hscan : get_token_holders parse_float response = inr ScanBare).
  { destruct Hresp as [-> | (body & -> & Hres)]; [reflexivity|].
    unfold get_token_holders. destruct body; [reflexivity|].
    rewrite Hres. reflexivity. }
  assert (Hc : cycle b w =
               (CycleFail "not enough values to unpack (expected 2, got 0)",
                count_cycle b, w1, [])).
  { unfold execute_airdrop_cycle. rewrite Hrpc, Hscan. reflexivity. }
  split; [exact Hscan|]. split.
  - eexists. split; [reflexivity|]. split; [reflexivity | exact Hc].
  - rewrite Hc. simpl. repeat split. discriminate.
Qed.

(** C9.  A scheduler started on a fresh bot and stopped after N cycles
    has counted N cycles and accumulated the sum of the cycles' sent
    amounts (a failed cycle sent nothing); the average of its final
    summary is cumulative_sent / max(cycle_count, 1), a division that
    cannot fail, and equals that sum divided by N when N >= 1. *)
Theorem scheduler_cumulative_statistics
  (n : nat) (cfg : AirdropConfig) (w : World) :
  let r := run_continuous_airdrop World rpc_request send_wbtc_airdrop now
                                  sleep parse_float n (init cfg) w in
  let results := fst (fst r) in
  let bot := snd (fst r) in
  let final := snd r in
  List.length results = n
  /\ cycle_count bot = Z.of_nat n
  /\ total_cycles final = Z.of_nat n
  /\ total_wbtc_distributed bot == py_sum (map sent_of results)
  /\ total_distributed final == py_sum (map sent_of results)
  /\ average_per_cycle final =
     inr (total_wbtc_distributed bot / inject_Z (Z.max (cycle_count bot) 1))
  /\ ((1 <= n)%nat ->
      exists avg, average_per_cycle final = inr avg
                  /\ avg == py_sum (map sent_of results) / inject_Z (Z.of_nat n)).
Proof.
  unfold run_continuous_airdrop.
  pose proof (run_cycles_spec World rpc_request send_wbtc_airdrop now sleep
                parse_float n (set_running (init cfg) true) w eq_refl)
    as (Hlen & Hcc & Htot).
  destruct (run_cycles World rpc_request send_wbtc_airdrop now sleep
              parse_float n (set_running (init cfg) true) w)
    as [[results b1] w1].
  simpl in Hlen, Hcc, Htot. simpl.
  assert (Htot' : total_wbtc_distributed b1 == py_sum (map sent_of results)).
  { rewrite Htot. ring. }
  assert (Hdiv : py_div (total_wbtc_distributed b1)
                        (inject_Z (Z.max (cycle_count b1) 1))
                 = inr (total_wbtc_distributed b1
                        / inject_Z (Z.max (cycle_count b1) 1))).
  { apply py_div_ok. intros H.
    assert (Hlt : 0 < inject_Z (Z.max (cycle_count b1) 1)).
    { change 0 with (inject_Z 0). rewrite <- Zlt_Qlt. lia. }
    lra. }
  repeat split; try assumption.
  intros Hn. eexists. split; [exact Hdiv|].
  rewrite Htot'. replace (Z.max (cycle_count b1) 1) with (Z.of_nat n) by lia.
  reflexivity.
Qed.

End CycleClaims.

(** C5, as the code has it.  For a distribution list whose allocated
    amounts are not negative and any outcomes of the transfers, the amount
    sent is the sum of the allocated amounts of the successful entries and
    is at most the amount allocated, with equality when every send
    succeeds.  Equality does not tell that every send succeeded. *)
Theorem total_sent_bounded_by_allocated
  (World : Type)
  (send_wbtc_airdrop : string -> Q -> World -> (bool * string) * World)
  (sleep : Q -> World -> World)
  (distribution : list entry) (w : World) :
  (forall e, In e distribution -> 0 <= wbtc_amount e) ->
  total_wbtc_sent
    (fst (fst (send_loop World send_wbtc_airdrop sleep distribution tally0 w)))
  == amount_sent
       (snd (send_loop World send_wbtc_airdrop sleep distribution tally0 w))
  /\ total_wbtc_sent
       (fst (fst (send_loop World send_wbtc_airdrop sleep distribution tally0 w)))
     <= total_allocated distribution
  /\ (all_sent
        (snd (send_loop World send_wbtc_airdrop sleep distribution tally0 w))
      = true ->
      total_wbtc_sent
        (fst (fst (send_loop World send_wbtc_airdrop sleep distribution tally0 w)))
      == total_allocated distribution).
Proof.
  intros Hnn.
  pose proof (send_loop_tally World send_wbtc_airdrop sleep distribution
                tally0 w) as (_ & _ & Ht).
  pose proof (send_loop_trace World send_wbtc_airdrop sleep distribution
                tally0 w) as (_ & Ha).
  destruct (send_loop World send_wbtc_airdrop sleep distribution tally0 w)
    as [[t w2] trace].
  simpl in *.
  assert (Hsent : total_wbtc_sent t == amount_sent trace) by (rewrite Ht; ring).
  pose proof (amount_sent_split trace) as Hsplit.
  rewrite Ha in Hsplit. fold (total_allocated distribution) in Hsplit.
  assert (Hun : 0 <= py_sum (map amount_of (filter failed trace))).
  { apply unsent_nonneg.
    exact (trace_amounts distribution trace (fun q => 0 <= q) Ha Hnn). }
  split; [exact Hsent|]. split; [lra|].
  intros Hall. apply all_sent_failures in Hall.
  unfold failures in Hall.
  assert (Hnil : filter failed trace = []).
  { apply length_zero_iff_nil. lia. }
  rewrite Hnil in Hsplit. change (py_sum (map amount_of [])) with 0 in Hsplit.
  lra.
Qed.

(** ** Where the code departs from the claims *)

(** The list [zero_share] is what the calculation returns for eligible
    [{X: 10, Y: 0}] under the default budget. *)
Example zero_share_is_calculated :
  exists x y,
    calculate_wbtc_distribution Scripted.cfg [("X", 10); ("Y", 0)]
    = inr [x; y]
    /\ wallet x = "X" /\ wbtc_amount x == 2 # 10
    /\ wallet y = "Y" /\ wbtc_amount y == 0.
Proof.
  vm_compute. do 2 eexists. split; [reflexivity|].
  repeat split; reflexivity.
Qed.

(** Against C1 as stated: the eligible mapping [{A: 0}] is not empty and
    its balances add up to zero; the calculation divides by zero and raises
    ZeroDivisionError, and no exception of class ZeroEligibleSupplyError is
    raised. *)
Lemma zero_supply_is_not_guarded :
  [("A", 0)] <> ([] : dict)
  /\ py_sum (values [("A", 0)]) == 0
  /\ calculate_wbtc_distribution Scripted.cfg [("A", 0)]
     = inl ZeroDivisionError
  /\ ~ (exists e,
          calculate_wbtc_distribution Scripted.cfg [("A", 0)] = inl e
          /\ class e = "ZeroEligibleSupplyError").
Proof.
  split; [discriminate|]. split; [reflexivity|]. split; [reflexivity|].
  intros (e & He & Hclass).
  vm_compute in He. injection He as <-. discriminate Hclass.
Qed.

(** Against C5 as stated: on the list [zero_share], with X's transfer
    accepted and Y's refused, the amount sent equals the amount allocated
    although a send failed, so equality is not "exactly when every send
    succeeds". *)
Lemma equal_totals_with_a_failed_send :
  let r := Scripted.loop Scripted.zero_share tally0
             {| Scripted.responses := []; Scripted.outcomes := [true; false];
                Scripted.time := 0 |} in
  total_wbtc_sent (fst (fst r)) == total_allocated Scripted.zero_share
  /\ all_sent (snd r) = false
  /\ failed_sends (fst (fst r)) = 1%Z
  /\ ~ (total_wbtc_sent (fst (fst r)) == total_allocated Scripted.zero_share
        <-> all_sent (snd r) = true).
Proof.
  vm_compute. split; [reflexivity|]. split; [reflexivity|].
  split; [reflexivity|].
  intros [H _]. specialize (H eq_refl). discriminate H.
Qed.

(** The same through a whole cycle: under a budget of zero every entry is
    allocated nothing, B's transfer fails, and the amount sent equals the
    amount allocated. *)
Example zero_budget_cycle :
  exists total_sent duration b' w' trace,
    Scripted.cycle (init Scripted.cfg_no_budget) Scripted.partial_failure
    = (CycleOk 1 1 1 total_sent duration, b', w', trace)
    /\ map ok trace = [false; true]
    /\ total_sent == py_sum (map amount_of trace).
Proof.
  vm_compute. do 5 eexists. split; [reflexivity|].
  split; reflexivity.
Qed.

(** ** The theorems at concrete inputs *)

(** C8 on eligible [{A: 1000, B: 3000, C: 1000}]: B first, then A before C. *)
Lemma calculate_wbtc_distribution_sorted_stable_witness :
  StronglySorted (desc token_amount)
    (map (entry_of Scripted.cfg 5000) [("B", 3000); ("A", 1000); ("C", 1000)])
  /\ forall v,
      filter (has_key token_amount v)
        (map (entry_of Scripted.cfg 5000)
             [("B", 3000); ("A", 1000); ("C", 1000)]) =
      map (entry_of Scripted.cfg
             (py_sum (values [("A", 1000); ("B", 3000); ("C", 1000)])))
          (filter (has_key snd v) [("A", 1000); ("B", 3000); ("C", 1000)]).
Proof.
  apply (calculate_wbtc_distribution_sorted_stable Scripted.cfg
           [("A", 1000); ("B", 3000); ("C", 1000)]).
  reflexivity.
Defined.

(** C2 on eligible [{A: 1000, B: 3000}] and budget 0.2. *)
Lemma calculate_wbtc_distribution_proportional_witness :
  exists distribution,
    calculate_wbtc_distribution Scripted.cfg [("A", 1000); ("B", 3000)]
    = inr distribution
    /\ py_sum (map wbtc_amount distribution) == 2 # 10
    /\ py_sum (map percentage distribution) == 100.
Proof.
  destruct (calculate_wbtc_distribution_proportional Scripted.cfg
              [("A", 1000); ("B", 3000)])
    as (distribution & Hrun & _ & _ & Hw & Hp & _).
  - discriminate.
  - reflexivity.
  - exists distribution. split; [exact Hrun|]. split; [exact Hw | exact Hp].
Defined.

(** C5 on allocations 0.15 and 0.05, the first refused. *)
Lemma total_sent_bounded_by_allocated_witness :
  total_wbtc_sent
    (fst (fst (Scripted.loop
                 (map (entry_of Scripted.cfg 4000) [("B", 3000); ("A", 1000)])
                 tally0 Scripted.partial_failure)))
  <= total_allocated
       (map (entry_of Scripted.cfg 4000) [("B", 3000); ("A", 1000)]).
Proof.
  apply (total_sent_bounded_by_allocated Scripted.world
           Scripted.send_wbtc_airdrop Scripted.sleep
           (map (entry_of Scripted.cfg 4000) [("B", 3000); ("A", 1000)])
           Scripted.partial_failure).
  simpl. intros e [<-|[<-|[]]]; simpl; discriminate.
Defined.

(** C1 on the scan [Scripted.cancelling] under a zero lower bound. *)
Lemma zero_supply_raises_zero_division_witness :
  Scripted.cycle (init Scripted.cfg0) Scripted.cancelling =
  (CycleFail "float division by zero",
   count_cycle (init Scripted.cfg0),
   {| Scripted.responses := []; Scripted.outcomes := []; Scripted.time := 0 |},
   []).
Proof.
  apply (zero_supply_raises_zero_division Scripted.world Scripted.rpc_request
           Scripted.send_wbtc_airdrop Scripted.now Scripted.sleep
           Scripted.parse_float (init Scripted.cfg0) Scripted.cancelling
           {| Scripted.responses := []; Scripted.outcomes := [];
              Scripted.time := 0 |}
           (Scripted.scan [Scripted.account "A" (JNum 5);
                           Scripted.account "A" (JNum (-5))])
           [("A", 0)] [("A", 0)] 0).
  - discriminate.
  - reflexivity.
  - reflexivity.
  - reflexivity.
  - reflexivity.
Defined.

(** C4 on a scan whose only holder is below the minimum. *)
Lemma empty_eligible_set_fails_cycle_witness :
  exists (r : cycle_result) (b' : WBTCAirdropBot) (trace : list attempt),
    Scripted.cycle (init Scripted.cfg)
      {| Scripted.responses := [Scripted.scan [Scripted.account "C" (JNum 500)]];
         Scripted.outcomes := [true]; Scripted.time := 0 |}
    = (r, b',
       {| Scripted.responses := []; Scripted.outcomes := [true];
          Scripted.time := 0 |}, trace)
    /\ r = CycleFail "No eligible holders found"
    /\ success r = false
    /\ trace = []
    /\ successes trace = 0%Z /\ failures trace = 0%Z
    /\ total_wbtc_distributed b' = 0.
Proof.
  apply (empty_eligible_set_fails_cycle Scripted.world Scripted.rpc_request
           Scripted.send_wbtc_airdrop Scripted.now Scripted.sleep
           Scripted.parse_float (init Scripted.cfg)
           {| Scripted.responses :=
                [Scripted.scan [Scripted.account "C" (JNum 500)]];
              Scripted.outcomes := [true]; Scripted.time := 0 |}
           {| Scripted.responses := []; Scripted.outcomes := [true];
              Scripted.time := 0 |}
           (Scripted.scan [Scripted.account "C" (JNum 500)])
           [("C", 500)] 500).
  - reflexivity.
  - reflexivity.
  - reflexivity.
Defined.

(** C10 on a ledger whose scan request fails. *)
Lemma scan_failure_fails_by_unpacking_witness :
  Scripted.cycle (init Scripted.cfg)
    {| Scripted.responses := [None]; Scripted.outcomes := [true];
       Scripted.time := 0 |}
  = (CycleFail "not enough values to unpack (expected 2, got 0)",
     count_cycle (init Scripted.cfg),
     {| Scripted.responses := []; Scripted.outcomes := [true];
        Scripted.time := 0 |}, []).
Proof.
  destruct (scan_failure_fails_by_unpacking Scripted.world Scripted.rpc_request
              Scripted.send_wbtc_airdrop Scripted.now Scripted.sleep
              Scripted.parse_float (init Scripted.cfg)
              {| Scripted.responses := [None]; Scripted.outcomes := [true];
                 Scripted.time := 0 |}
              {| Scripted.responses := []; Scripted.outcomes := [true];
                 Scripted.time := 0 |}
              None)
    as (_ & (e & He & _ & Hc) & _).
  - reflexivity.
  - left. reflexivity.
  - injection He as <-. exact Hc.
Defined.

(** C9 on two cycles, the first the partial failure, the second a failed
    scan. *)
Lemma scheduler_cumulative_statistics_witness :
  exists avg,
    average_per_cycle
      (snd (Scripted.run 2 (init Scripted.cfg) Scripted.partial_failure))
    = inr avg
    /\ avg ==
       py_sum (map sent_of
                 (fst (fst (Scripted.run 2 (init Scripted.cfg)
                                          Scripted.partial_failure))))
       / inject_Z (Z.of_nat 2).
Proof.
  destruct (scheduler_cumulative_statistics Scripted.world Scripted.rpc_request
              Scripted.send_wbtc_airdrop Scripted.now Scripted.sleep
              Scripted.parse_float 2 Scripted.cfg Scripted.partial_failure)
    as (_ & _ & _ & _ & _ & _ & H).
  apply H. lia.
Defined.

(** * Further properties of the code *)

(** ** Sums of amounts *)

Lemma py_sum_nonneg (l : list Q) :
  (forall x, In x l -> 0 <= x) -> 0 <= py_sum l.
Proof.
  induction l as [|a l IH]; intros H.
  - change (py_sum []) with 0. lra.
  - rewrite py_sum_cons.
    pose proof (H a (or_introl eq_refl)).
    pose proof (IH (fun x Hx => H x (or_intror Hx))). lra.
Qed.

Lemma py_sum_pos (l : list Q) :
  l <> [] -> (forall x, In x l -> 0 < x) -> 0 < py_sum l.
Proof.
  destruct l as [|a l]; [congruence|]. intros _ H.
  rewrite py_sum_cons.
  pose proof (H a (or_introl eq_refl)).
  assert (0 <= py_sum l).
  { apply py_sum_nonneg. intros x Hx. apply Qlt_le_weak, H. right. exact Hx. }
  lra.
Qed.

Lemma In_le_py_sum (l : list Q) (a : Q) :
  (forall x, In x l -> 0 <= x) -> In a l -> a <= py_sum l.
Proof.
  induction l as [|x l IH]; intros H Ha; [destruct Ha|].
  rewrite py_sum_cons.
  assert (Hl : 0 <= py_sum l).
  { apply py_sum_nonneg. intros y Hy. apply H. right. exact Hy. }
  destruct Ha as [->|Ha].
  - lra.
  - pose proof (H x (or_introl eq_refl)).
    pose proof (IH (fun y Hy => H y (or_intror Hy)) Ha). lra.
Qed.

(** ** More on the filter *)

Lemma filter_all {A} (p : A -> bool) (l : list A) :
  (forall x, In x l -> p x = true) -> filter p l = l.
Proof.
  induction l as [|x l IH]; simpl; intros H; [reflexivity|].
  rewrite (H x (or_introl eq_refl)), IH; [reflexivity|].
  intros y Hy. apply H. right. exact Hy.
Qed.

Lemma filter_none {A} (p : A -> bool) (l : list A) :
  (forall x, In x l -> p x = false) -> filter p l = [].
Proof.
  induction l as [|x l IH]; simpl; intros H; [reflexivity|].
  rewrite (H x (or_introl eq_refl)). apply IH.
  intros y Hy. apply H. right. exact Hy.
Qed.

Lemma eligible_loop_none (cfg : AirdropConfig) (items acc : dict) :
  (forall a, In a (values items) -> in_bounds cfg a = false) ->
  fold_left
    (fun el (item : string * Q) =>
       let '(wallet, amount) := item in
       if in_bounds cfg amount then dict_set el wallet amount else el)
    items acc
  = acc.
Proof.
  unfold values. revert acc.
  induction items as [|[k v] items IH]; intros acc H; simpl; [reflexivity|].
  rewrite (H v (or_introl eq_refl)). apply IH.
  intros a Ha. apply H. right. exact Ha.
Qed.

(** X3.  Filtering an eligible mapping again with the same bounds changes
    nothing: the mapping comes back as it is and both exclusion counts are
    zero. *)
Theorem filter_eligible_holders_idempotent
  (cfg : AirdropConfig) (holders : dict) :
  dict_wf holders ->
  filter_eligible_holders cfg (fst (fst (filter_eligible_holders cfg holders)))
  = (fst (fst (filter_eligible_holders cfg holders)), 0%Z, 0%Z).
Proof.
  intros Hwf.
  rewrite (eligible_is_filter cfg holders Hwf).
  set (el := filter (fun item : string * Q => in_bounds cfg (snd item)) holders).
  assert (Hwf' : dict_wf el) by (apply dict_wf_filter, Hwf).
  assert (Hin : forall item, In item el -> in_bounds cfg (snd item) = true).
  { intros item H. apply filter_In in H. tauto. }
  pose proof (eligible_is_filter cfg el Hwf') as Hel.
  rewrite (filter_all _ el Hin) in Hel.
  unfold filter_eligible_holders in *. simpl in Hel. rewrite Hel.
  rewrite !count_if_length.
  rewrite !filter_none; [reflexivity| |].
  - intros a Ha. unfold values in Ha. apply in_map_iff in Ha.
    destruct Ha as (item & <- & Hitem). apply Hin, in_bounds_iff in Hitem.
    apply Qlt_bool_false. tauto.
  - intros a Ha. unfold values in Ha. apply in_map_iff in Ha.
    destruct Ha as (item & <- & Hitem). apply Hin, in_bounds_iff in Hitem.
    apply Qlt_bool_false. tauto.
Qed.

(** X4.  The bounds are not validated: when max < min no balance can lie
    between them, so the eligible mapping is empty for every holder
    mapping. *)
Theorem inverted_bounds_exclude_everyone
  (cfg : AirdropConfig) (holders : dict) :
  max_token_holdings cfg < min_token_holdings cfg ->
  fst (fst (filter_eligible_holders cfg holders)) = [].
Proof.
  intros Hinv. unfold filter_eligible_holders. simpl.
  apply eligible_loop_none. intros a _.
  destruct (in_bounds cfg a) eqn:E; [|reflexivity].
  apply in_bounds_iff in E. lra.
Qed.

(** ** More on the calculation *)

Lemma StronglySorted_weaken {A} (R R' : A -> A -> Prop) (l : list A) :
  (forall x y, In x l -> In y l -> R x y -> R' x y) ->
  StronglySorted R l -> StronglySorted R' l.
Proof.
  intros H Hs. induction Hs as [|a l Hs IH Hall]; constructor.
  - apply IH. intros x y Hx Hy. apply H; right; assumption.
  - rewrite Forall_forall in *. intros y Hy.
    apply H; [left; reflexivity | right; exact Hy | apply Hall, Hy].
Qed.

Lemma sorted_entries (cfg : AirdropConfig) (eligible : dict) (e : entry) :
  In e (sort_desc token_amount
          (map (entry_of cfg (py_sum (values eligible))) eligible)) ->
  exists item, In item eligible /\ e = entry_of cfg (py_sum (values eligible)) item.
Proof.
  intros He.
  apply (Permutation_in _ (sort_desc_perm token_amount _)) in He.
  apply in_map_iff in He. destruct He as (item & <- & Hin). eauto.
Qed.

(** X5.  The calculation fails in one way only: it raises ZeroDivisionError
    exactly when the mapping is not empty and its balances add up to zero.
    On the empty mapping it returns the empty list without dividing, and
    whenever it returns, the list has one entry per eligible wallet. *)
Theorem calculate_wbtc_distribution_failure
  (cfg : AirdropConfig) (eligible : dict) :
  (forall e, calculate_wbtc_distribution cfg eligible = inl e ->
             e = ZeroDivisionError
             /\ eligible <> [] /\ py_sum (values eligible) == 0)
  /\ (forall d, calculate_wbtc_distribution cfg eligible = inr d ->
                List.length d = List.length eligible
                /\ (eligible = [] \/ ~ py_sum (values eligible) == 0))
  /\ calculate_wbtc_distribution cfg [] = inr [].
Proof.
  split; [|split; [|reflexivity]].
  - intros e He.
    destruct (Qeq_bool (py_sum (values eligible)) 0) eqn:E.
    + apply Qeq_bool_iff in E. destruct eligible as [|item eligible].
      * discriminate He.
      * rewrite calculate_zero in He by (discriminate || exact E).
        injection He as <-. split; [reflexivity|]. split; [discriminate|exact E].
    + apply Qeq_bool_false in E. rewrite (calculate_ok cfg eligible E) in He.
      discriminate.
  - intros d Hd. split.
    + apply calculate_inr in Hd. subst d.
      rewrite (Permutation_length (sort_desc_perm token_amount _)).
      apply length_map.
    + destruct eligible as [|item eligible]; [left; reflexivity|]. right.
      intros Hz. rewrite calculate_zero in Hd by (discriminate || exact Hz).
      discriminate.
Qed.

(** X6.  With a positive total and a budget that is not negative, the list
    is in descending order of allocated amount and of percentage as well:
    the entries served first are the ones that receive the most. *)
Theorem distribution_descends_in_allocation
  (cfg : AirdropConfig) (eligible : dict) (distribution : list entry) :
  0 < py_sum (values eligible) ->
  0 <= total_wbtc_per_cycle cfg ->
  calculate_wbtc_distribution cfg eligible = inr distribution ->
  StronglySorted (desc wbtc_amount) distribution
  /\ StronglySorted (desc percentage) distribution.
Proof.
  intros Hpos HB Hd. apply calculate_inr in Hd. subst distribution.
  pose proof (sort_desc_strongly_sorted token_amount
                (map (entry_of cfg (py_sum (values eligible))) eligible)) as Hs.
  set (total := py_sum (values eligible)) in *.
  assert (Hinv : 0 < / total) by (apply Qinv_lt_0_compat, Hpos).
  split; refine (StronglySorted_weaken _ _ _ _ Hs);
    intros x y Hx Hy Hxy;
    apply sorted_entries in Hx; apply sorted_entries in Hy;
    destruct Hx as (ix & _ & ->); destruct Hy as (iy & _ & ->);
    unfold desc in *; simpl in *; fold total; unfold Qdiv.
  - apply Qmult_le_compat_r; [|exact HB].
    apply Qmult_le_compat_r; [exact Hxy | apply Qlt_le_weak, Hinv].
  - apply Qmult_le_compat_r; [|discriminate].
    apply Qmult_le_compat_r; [exact Hxy | apply Qlt_le_weak, Hinv].
Qed.

Lemma positive_total (eligible : dict) :
  eligible <> [] ->
  (forall w b, In (w, b) eligible -> 0 < b) ->
  (forall x, In x (values eligible) -> 0 < x)
  /\ 0 < py_sum (values eligible).
Proof.
  intros Hne Hpos.
  assert (Hvals : forall x, In x (values eligible) -> 0 < x).
  { intros x Hx. unfold values in Hx. apply in_map_iff in Hx.
    destruct Hx as ([w b] & <- & Hin). exact (Hpos w b Hin). }
  split; [exact Hvals|].
  apply py_sum_pos; [|exact Hvals].
  unfold values. destruct eligible; [congruence | discriminate].
Qed.

Lemma share_positive (total b : Q) : 0 < total -> 0 < b -> 0 < b / total.
Proof.
  intros Ht Hb. apply Qlt_shift_div_l; [exact Ht | lra].
Qed.

Lemma allocations_nonneg (cfg : AirdropConfig) (eligible : dict) (e : entry) :
  eligible <> [] ->
  (forall w b, In (w, b) eligible -> 0 < b) ->
  0 <= total_wbtc_per_cycle cfg ->
  In e (sort_desc token_amount
          (map (entry_of cfg (py_sum (values eligible))) eligible)) ->
  0 <= wbtc_amount e.
Proof.
  intros Hne Hpos HB He.
  destruct (positive_total eligible Hne Hpos) as (_ & Htot).
  apply sorted_entries in He. destruct He as ([w b] & Hin & ->). simpl.
  apply Qmult_le_0_compat; [|exact HB].
  apply Qlt_le_weak, share_positive; [exact Htot | exact (Hpos w b Hin)].
Qed.

(** X7.  When every eligible balance is positive and the budget is not
    negative, the calculation cannot fail, no entry is allocated less than
    nothing or more than the whole budget, and every percentage lies in
    (0, 100]. *)
Theorem positive_balances_allocate_within_budget
  (cfg : AirdropConfig) (eligible : dict) :
  eligible <> [] ->
  (forall w b, In (w, b) eligible -> 0 < b) ->
  0 <= total_wbtc_per_cycle cfg ->
  exists distribution,
    calculate_wbtc_distribution cfg eligible = inr distribution
    /\ forall e, In e distribution ->
         0 <= wbtc_amount e /\ wbtc_amount e <= total_wbtc_per_cycle cfg
         /\ 0 < percentage e /\ percentage e <= 100.
Proof.
  intros Hne Hpos HB.
  destruct (positive_total eligible Hne Hpos) as (Hvals & Htot).
  eexists. split; [apply calculate_ok; lra|].
  intros e He.
  pose proof (allocations_nonneg cfg eligible e Hne Hpos HB He) as Hnn.
  apply sorted_entries in He. destruct He as ([w b] & Hin & ->).
  simpl in *.
  set (total := py_sum (values eligible)) in *.
  assert (Hb : 0 < b) by exact (Hpos w b Hin).
  assert (Hle : b <= total).
  { apply In_le_py_sum.
    - intros x Hx. apply Qlt_le_weak, Hvals, Hx.
    - unfold values. apply (in_map snd) in Hin. exact Hin. }
  pose proof (share_positive total b Htot Hb) as Hshare0.
  assert (Hshare1 : b / total <= 1).
  { apply Qle_shift_div_r; [exact Htot | lra]. }
  split; [exact Hnn|]. split; [|split].
  - setoid_replace (total_wbtc_per_cycle cfg)
      with (1 * total_wbtc_per_cycle cfg) at 2 by ring.
    apply Qmult_le_compat_r; assumption.
  - apply Qmult_lt_0_compat; [exact Hshare0 | reflexivity].
  - setoid_replace 100 with (1 * 100) at 2 by ring.
    apply Qmult_le_compat_r; [exact Hshare1 | discriminate].
Qed.

(** ** More on the cycle and the scheduler *)

Section CycleMore.

Variable World : Type.
Variable rpc_request : World -> option (list (string * json)) * World.
Variable send_wbtc_airdrop : string -> Q -> World -> (bool * string) * World.
Variable now : World -> Q.
Variable sleep : Q -> World -> World.
Variable parse_float : string -> option Q.

Local Abbreviation cycle :=
  (execute_airdrop_cycle World rpc_request send_wbtc_airdrop now sleep
                         parse_float).
Local Abbreviation run_loop := (send_loop World send_wbtc_airdrop sleep).

(** X11.  A response whose "result" has no usable "value" (the key is
    missing, or the result or the value is null, a boolean or a number) makes
    [get_token_holders] raise: line 180 is outside its [try].  The cycle's
    handler reports the KeyError or TypeError as a failure, and no transfer
    is attempted. *)
Theorem scan_without_value_fails_cycle
  (b : WBTCAirdropBot) (w w1 : World)
  (body : list (string * json)) (result : json) (e : exn) :
  rpc_request w = (Some body, w1) ->
  assoc body "result" = Some result ->
  (value <- py_getitem result "value" ;; py_iter value) = inl e ->
  get_token_holders parse_float (Some body) = inl e
  /\ (class e = "KeyError" \/ class e = "TypeError")
  /\ cycle b w = (CycleFail (msg e), count_cycle b, w1, []).
Proof.
  intros Hrpc Hres Hbad.
  assert (Hscan : get_token_holders parse_float (Some body) = inl e).
  { unfold get_token_holders. destruct body as [|kv body']; [discriminate|].
    rewrite Hres.
    destruct (py_getitem result "value") as [e0|value]; cbn [bind] in *.
    - injection Hbad as <-. reflexivity.
    - rewrite Hbad. reflexivity. }
  split; [exact Hscan|]. split.
  - destruct (py_getitem result "value") as [e0|value] eqn:Hv;
      cbn [bind] in Hbad.
    + injection Hbad as <-.
      destruct result; simpl in Hv; try (injection Hv as <-; right; reflexivity).
      destruct (assoc m "value"); [discriminate|].
      injection Hv as <-. left. reflexivity.
    + destruct value; simpl in Hbad; try discriminate;
        injection Hbad as <-; right; reflexivity.
  - unfold execute_airdrop_cycle. rewrite Hrpc, Hscan. reflexivity.
Qed.

(** X12.  The scheduler never resets its counters: run for n cycles on any
    bot, it leaves the running flag off, has added n to the cycle counter
    and the sent amounts of its cycles to the cumulative total, and keeps
    the configuration. *)
Theorem scheduler_continues_counters
  (n : nat) (b : WBTCAirdropBot) (w : World) :
  let r := run_continuous_airdrop World rpc_request send_wbtc_airdrop now
                                  sleep parse_float n b w in
  List.length (fst (fst r)) = n
  /\ is_running (snd (fst r)) = false
  /\ cycle_count (snd (fst r)) = (cycle_count b + Z.of_nat n)%Z
  /\ total_wbtc_distributed (snd (fst r))
     == total_wbtc_distributed b + py_sum (map sent_of (fst (fst r)))
  /\ total_cycles (snd r) = (cycle_count b + Z.of_nat n)%Z.
Proof.
  unfold run_continuous_airdrop.
  pose proof (run_cycles_spec World rpc_request send_wbtc_airdrop now sleep
                parse_float n (set_running b true) w eq_refl)
    as (Hlen & Hcc & Htot).
  destruct (run_cycles World rpc_request send_wbtc_airdrop now sleep
              parse_float n (set_running b true) w) as [[results b1] w1].
  simpl in *. repeat split; assumption.
Qed.

End CycleMore.

(** ** The RPC transport *)

Section TransportFacts.

Variable World : Type.
Variable requests_post : string -> json -> World -> except http_response * World.
Variable send_wbtc_airdrop : string -> Q -> World -> (bool * string) * World.
Variable now : World -> Q.
Variable sleep : Q -> World -> World.
Variable parse_float : string -> option Q.

(** X13.  Whatever goes wrong in the HTTP exchange of the scan (an
    exception of the transport, a status other than 200, a body that is not
    JSON, or a body with an "error" member, even next to a "result"),
    [make_rpc_request] returns [None]; the cycle then fails on unpacking the
    bare dict, so its error text says nothing of the cause, and no transfer
    is attempted. *)
Theorem rpc_failure_fails_cycle
  (rpc_url : string) (b : WBTCAirdropBot) (w w1 : World)
  (posted : except http_response) :
  requests_post rpc_url
    (rpc_payload "getTokenAccountsByMint"
                 (scan_params (token_contract (config b)))) w
  = (posted, w1) ->
  ((exists e, posted = inl e)
   \/ exists response,
       posted = inr response
       /\ (status_code response <> 200%Z
           \/ (exists e, json_body response = inl e)
           \/ (exists result err,
                 json_body response = inr result
                 /\ assoc result "error" = Some err))) ->
  make_rpc_request posted = None
  /\ execute_airdrop_cycle World
       (scan_request World requests_post rpc_url (token_contract (config b)))
       send_wbtc_airdrop now sleep parse_float b w
     = (CycleFail "not enough values to unpack (expected 2, got 0)",
        count_cycle b, w1, []).
Proof.
  intros Hpost Hbad.
  assert (Hnone : make_rpc_request posted = None).
  { destruct Hbad as [(e & ->) | (response & -> & Hr)]; [reflexivity|].
    unfold make_rpc_request.
    destruct (status_code response =? 200)%Z eqn:Es; simpl; [|reflexivity].
    apply Z.eqb_eq in Es.
    destruct Hr as [Hs | [(e & ->) | (result & err & -> & Herr)]].
    - contradiction.
    - reflexivity.
    - unfold has_member. rewrite Herr. reflexivity. }
  split; [exact Hnone|].
  unfold execute_airdrop_cycle, scan_request.
  rewrite Hpost, Hnone. reflexivity.
Qed.

End TransportFacts.

(** ** The sender's balances *)

Section BalanceFacts.

Variable parse_float : string -> option Q.

Lemma py_gt_zero_true (ui : json) (q : Q) :
  py_gt_zero ui = inr true ->
  py_float parse_float ui = inr q -> 0 < q.
Proof.
  destruct ui; simpl; try discriminate.
  - intros Hb Hq. injection Hb as ->. injection Hq as <-. reflexivity.
  - intros Hb Hq. injection Hb as Hb. injection Hq as <-.
    apply Qlt_bool_iff, Hb.
Qed.

(** The value the loop returns is zero or the amount of one of the
    accounts. *)
Lemma first_positive_origin (accounts : list json) (q : Q) :
  first_positive parse_float accounts = inr q ->
  0 <= q
  /\ (0 < q ->
      exists account ui,
        In account accounts
        /\ ui_amount_of account = inr ui
        /\ py_float parse_float ui = inr q).
Proof.
  induction accounts as [|account rest IH]; simpl.
  - intros H. injection H as <-. split; [discriminate|].
    intros H. discriminate H.
  - destruct (ui_amount_of account) as [e|ui] eqn:Hui; cbn [bind];
      [discriminate|].
    assert (Hrest : first_positive parse_float rest = inr q ->
                    0 <= q /\
                    (0 < q ->
                     exists account0 ui0,
                       (account = account0 \/ In account0 rest)
                       /\ ui_amount_of account0 = inr ui0
                       /\ py_float parse_float ui0 = inr q)).
    { intros H. destruct (IH H) as (H0 & H1). split; [exact H0|].
      intros Hq. destruct (H1 Hq) as (a0 & u0 & Hin & Ha & Hf).
      exists a0, u0. tauto. }
    destruct (py_truthy ui); [|exact Hrest].
    destruct (py_gt_zero ui) as [e|[|]] eqn:Hgt; cbn [bind];
      [discriminate| |exact Hrest].
    intros Hf. pose proof (py_gt_zero_true ui q Hgt Hf) as Hq.
    split; [apply Qlt_le_weak, Hq|]. intros _.
    exists account, ui. tauto.
Qed.

(** X14.  The token balance is never negative, whatever the node answers,
    and a positive balance is the amount of one single token account: the
    amounts of several accounts are not added up. *)
Theorem get_token_balance_is_one_account (fetched : except (list json)) :
  0 <= get_token_balance parse_float fetched
  /\ (0 < get_token_balance parse_float fetched ->
      exists accounts account ui,
        fetched = inr accounts
        /\ In account accounts
        /\ ui_amount_of account = inr ui
        /\ py_float parse_float ui
           = inr (get_token_balance parse_float fetched)).
Proof.
  unfold get_token_balance.
  destruct fetched as [e|accounts]; cbn [bind].
  - split; [discriminate|]. intros H. discriminate H.
  - destruct (first_positive parse_float accounts) as [e|q] eqn:Hq.
    + split; [discriminate|]. intros H. discriminate H.
    + destruct (first_positive_origin accounts q Hq) as (H0 & H1).
      split; [exact H0|]. intros Hpos.
      destruct (H1 Hpos) as (account & ui & Hin & Hui & Hf).
      exists accounts, account, ui. tauto.
Qed.

(** X16.  An account whose amount cannot be read, or cannot be compared
    with zero, met before any positive amount, makes the balance zero,
    whatever the accounts after it hold. *)
Theorem unreadable_account_hides_balance
  (qs : list Q) (bad : json) (rest : list json) :
  (forall q, In q qs -> q <= 0) ->
  (forall ui, ui_amount_of bad = inr ui ->
              py_truthy ui = true /\ exists e, py_gt_zero ui = inl e) ->
  get_token_balance parse_float
    (inr (map (fun q => token_account (JNum q)) qs ++ bad :: rest))
  = 0.
Proof.
  intros Hqs Hbad. unfold get_token_balance. cbn [bind].
  assert (H : exists e,
             first_positive parse_float
               (map (fun q => token_account (JNum q)) qs ++ bad :: rest)
             = inl e).
  { induction qs as [|q qs IH].
    - cbn [map app first_positive].
      destruct (ui_amount_of bad) as [e|ui] eqn:Hui; cbn [bind]; [eauto|].
      destruct (Hbad ui eq_refl) as (Ht & e & He).
      rewrite Ht, He. cbn [bind]. eauto.
    - cbn [map app first_positive].
      change (ui_amount_of (token_account (JNum q)))
        with (@inr exn json (JNum q)).
      cbn [bind py_truthy py_gt_zero ret].
      assert (Hq : Qlt_bool 0 q = false).
      { apply Qlt_bool_false, Hqs. left. reflexivity. }
      rewrite Hq.
      assert (IH' := IH (fun x Hx => Hqs x (or_intror Hx))).
      destruct (negb (Qeq_bool q 0)); exact IH'. }
  destruct H as (e & ->). reflexivity.
Qed.

Variable World : Type.
Variable get_balance : World -> except Z * World.
Variable get_token_accounts_by_owner : string -> World -> except (list json) * World.

(** X17.  The start-up check passes only for a sender that holds lamports
    and one single token account of the WBTC mint whose amount alone covers
    the (positive) budget of a cycle; when the balance request raises, it
    fails without asking for the token accounts. *)
Theorem check_sender_balance_passes
  (cfg : AirdropConfig) (w w' : World) :
  0 < total_wbtc_per_cycle cfg ->
  check_sender_balance parse_float World get_balance
    get_token_accounts_by_owner cfg w = (true, w') ->
  exists lamports w1 accounts account ui q,
    get_balance w = (inr lamports, w1)
    /\ (0 < lamports)%Z
    /\ get_token_accounts_by_owner wbtc_mint w1 = (inr accounts, w')
    /\ In account accounts
    /\ ui_amount_of account = inr ui
    /\ py_float parse_float ui = inr q
    /\ total_wbtc_per_cycle cfg <= q.
Proof.
  intros HB. unfold check_sender_balance.
  destruct (get_balance w) as [[e|lamports] w1]; [discriminate|].
  destruct (get_token_accounts_by_owner wbtc_mint w1) as [fetched w2] eqn:Hf.
  intros H. injection H as Hok <-.
  apply Bool.andb_true_iff in Hok. destruct Hok as [Hsol Hw].
  apply Qlt_bool_iff in Hsol. apply Qle_bool_iff in Hw.
  unfold get_token_balance in Hw.
  destruct fetched as [e|accounts]; cbn [bind] in Hw; [lra|].
  destruct (first_positive parse_float accounts) as [e|q] eqn:Hq; [lra|].
  destruct (first_positive_origin accounts q Hq) as (_ & Horigin).
  destruct Horigin as (account & ui & Hin & Hui & Hfl); [lra|].
  exists lamports, w1, accounts, account, ui, q.
  split; [reflexivity|]. split.
  - assert (Hl : inject_Z 0 < inject_Z lamports).
    { change (inject_Z 0) with 0.
      apply (Qmult_lt_r _ _ (/ 1000000000)); [reflexivity|].
      rewrite Qmult_0_l. exact Hsol. }
    rewrite <- Zlt_Qlt in Hl. exact Hl.
  - repeat split; assumption.
Qed.

End BalanceFacts.

(** ** Submitting a transfer *)

Section SendingFacts.

Variable World : Type.
Variables pubkey blockhash transaction : Type.
Variable pubkey_from_string : string -> except pubkey.
Variable latest_blockhash : World -> except blockhash * World.
Variable build : pubkey -> Z -> blockhash -> except transaction.
Variable send_transaction : transaction -> World -> except (option string) * World.

Local Abbreviation send :=
  (Ledger.send_wbtc_airdrop World pubkey blockhash transaction
     pubkey_from_string latest_blockhash build send_transaction).


End SendingFacts.

(** ** The prompt *)

Section CliFacts.

Variable parse_float : string -> option Q.
Variable parse_int : string -> option Z.
Variable initialize_sender : string -> AirdropConfig -> string -> bool.

Local Abbreviation collect := (Cli.collect_config parse_float parse_int).
Local Abbreviation run_main :=
  (Cli.main parse_float parse_int initialize_sender).

Lemma input_inr (stdin rest : list string) (line : string) :
  Cli.input stdin = inr (line, rest) -> stdin = line :: rest.
Proof.
  destruct stdin as [|l stdin]; simpl; intros H; [discriminate|].
  injection H as <- <-. reflexivity.
Qed.

Ltac read_line H :=
  let r := fresh "r" in
  let Hin := fresh "Hin" in
  apply bind_inr in H; destruct H as (r & Hin & H);
  destruct r as [? ?]; apply input_inr in Hin; subst.

Lemma read_bounds_consumes (stdin rest : list string) (lo hi : Q) :
  Cli.read_bounds parse_float stdin = inr (lo, hi, rest) ->
  exists consumed, stdin = consumed ++ rest.
Proof.
  unfold Cli.read_bounds. intros H. read_line H.
  destruct (Cli.float_or parse_float s 1000).
  - read_line H.
    exists [s; s0].
    destruct (Cli.float_or parse_float s0 10000000);
      injection H as _ _ <-; reflexivity.
  - exists [s]. injection H as _ _ <-. reflexivity.
Qed.

Lemma collect_config_consumes (stdin rest : list string) (rpc_url : string)
  (cfg : AirdropConfig) :
  collect stdin = inr (Some (rpc_url, cfg), rest) ->
  token_contract cfg <> ""
  /\ exists consumed, stdin = consumed ++ rest.
Proof.
  unfold Cli.collect_config. intros H.
  read_line H. read_line H.
  destruct (String.eqb (Cli.py_strip s0) "") eqn:Ec; [discriminate|].
  read_line H. read_line H.
  apply bind_inr in H. destruct H as ([[lo hi] st] & Hb & H).
  apply read_bounds_consumes in Hb. destruct Hb as (consumed & ->).
  injection H as <- <- <-. split.
  - simpl. apply String.eqb_neq, Ec.
  - exists (s :: s0 :: s1 :: s2 :: consumed). reflexivity.
Qed.

(** X21.  The two bounds are read in one [try]: a maximum that does not
    parse throws away a minimum that did, and a minimum that does not
    parse sets both to the defaults without the second prompt being shown,
    so the line meant for it is left for the next prompt. *)
Theorem unparsable_bound_resets_both
  (url contract budget interval lo hi : string) (rest : list string) :
  Cli.py_strip contract <> "" ->
  ((exists m, Cli.float_or parse_float lo 1000 = Some m) ->
   Cli.float_or parse_float hi 10000000 = None ->
   exists rpc_url cfg,
     collect (url :: contract :: budget :: interval :: lo :: hi :: rest)
     = inr (Some (rpc_url, cfg), rest)
     /\ min_token_holdings cfg = 1000
     /\ max_token_holdings cfg = 10000000)
  /\ (Cli.float_or parse_float lo 1000 = None ->
      exists rpc_url cfg,
        collect (url :: contract :: budget :: interval :: lo :: hi :: rest)
        = inr (Some (rpc_url, cfg), hi :: rest)
        /\ min_token_holdings cfg = 1000
        /\ max_token_holdings cfg = 10000000).
Proof.
  intros Hc. apply String.eqb_neq in Hc.
  split.
  - intros (m & Hlo) Hhi.
    unfold Cli.collect_config, Cli.read_bounds.
    cbn [Cli.input bind ret]. rewrite Hc. cbn [bind ret].
    rewrite Hlo. cbn [bind ret]. rewrite Hhi.
    do 2 eexists. split; [reflexivity|]. split; reflexivity.
  - intros Hlo.
    unfold Cli.collect_config, Cli.read_bounds.
    cbn [Cli.input bind ret]. rewrite Hc. cbn [bind ret].
    rewrite Hlo.
    do 2 eexists. split; [reflexivity|]. split; reflexivity.
Qed.

(** X22.  The scheduler is started only when a token contract and a
    private key were given, [initialize_sender] accepted the key, and the
    last line read, stripped and lowered, is "y"; that answer is the line
    right before what is left of the input. *)
Theorem scheduler_starts_only_on_y
  (stdin rest : list string) (rpc_url key : string) (cfg : AirdropConfig) :
  run_main stdin = inr (Cli.Started rpc_url cfg key, rest) ->
  token_contract cfg <> ""
  /\ key <> ""
  /\ initialize_sender rpc_url cfg key = true
  /\ exists consumed answer,
      stdin = consumed ++ answer :: rest
      /\ Cli.py_lower (Cli.py_strip answer) = "y".
Proof.
  unfold Cli.main. intros H.
  apply bind_inr in H. destruct H as ([collected st] & Hcol & H).
  destruct collected as [[url c]|]; [|discriminate].
  apply collect_config_consumes in Hcol.
  destruct Hcol as (Hcontract & consumed & ->).
  read_line H.
  destruct (String.eqb (Cli.py_strip s) "") eqn:Ek; [discriminate|].
  destruct (initialize_sender url c (Cli.py_strip s)) eqn:Ei;
    [|discriminate].
  cbn [negb] in H. read_line H.
  destruct (String.eqb (Cli.py_lower (Cli.py_strip s0)) "y") eqn:Ey;
    [|discriminate].
  cbn [negb] in H. injection H as <- <- <- <-.
  split; [exact Hcontract|]. split; [apply String.eqb_neq, Ek|].
  split; [exact Ei|].
  exists (consumed ++ [s]), s0. split.
  - rewrite <- app_assoc. reflexivity.
  - apply String.eqb_eq, Ey.
Qed.

(** X23.  Nothing the prompt reads is checked for range: whatever numbers
    the budget, the interval and the two bounds parse to (a zero or negative
    budget, a minimum above the maximum), they become the configuration the
    scheduler is started with. *)
Theorem prompt_accepts_any_parsed_values
  (url contract budget interval lo hi key answer : string)
  (rest : list string) (B m M : Q) (I : Z) :
  Cli.py_strip url <> "" ->
  Cli.py_strip contract <> "" ->
  Cli.float_or parse_float budget (2 # 10) = Some B ->
  Cli.int_or parse_int interval 20 = Some I ->
  Cli.float_or parse_float lo 1000 = Some m ->
  Cli.float_or parse_float hi 10000000 = Some M ->
  Cli.py_strip key <> "" ->
  initialize_sender (Cli.py_strip url)
    {| token_contract := Cli.py_strip contract; total_wbtc_per_cycle := B;
       cycle_interval := I; min_token_holdings := m;
       max_token_holdings := M |}
    (Cli.py_strip key) = true ->
  Cli.py_lower (Cli.py_strip answer) = "y" ->
  run_main (url :: contract :: budget :: interval :: lo :: hi :: key
                :: answer :: rest)
  = inr (Cli.Started (Cli.py_strip url)
           {| token_contract := Cli.py_strip contract;
              total_wbtc_per_cycle := B; cycle_interval := I;
              min_token_holdings := m; max_token_holdings := M |}
           (Cli.py_strip key),
         rest).
Proof.
  intros Hu Hc HB HI Hm HM Hk Hinit Hy.
  apply String.eqb_neq in Hu, Hc, Hk. apply String.eqb_eq in Hy.
  unfold Cli.main, Cli.collect_config, Cli.read_bounds.
  cbn [Cli.input bind ret]. rewrite Hu, Hc. cbn [bind ret].
  rewrite HB, HI, Hm. cbn [bind ret]. rewrite HM.
  cbn [Cli.input bind ret]. rewrite Hk, Hinit.
  cbn [Cli.input negb bind ret]. rewrite Hy. reflexivity.
Qed.

End CliFacts.

(** ** The further properties at concrete inputs *)

(** X3 on holders [{A: 1000, B: 3000, C: 500}]. *)
Lemma filter_eligible_holders_idempotent_witness :
  filter_eligible_holders Scripted.cfg
    (fst (fst (filter_eligible_holders Scripted.cfg
                 [("A", 1000); ("B", 3000); ("C", 500)])))
  = (fst (fst (filter_eligible_holders Scripted.cfg
                 [("A", 1000); ("B", 3000); ("C", 500)])), 0%Z, 0%Z).
Proof.
  apply (filter_eligible_holders_idempotent Scripted.cfg
           [("A", 1000); ("B", 3000); ("C", 500)]).
  repeat constructor; simpl; intuition discriminate.
Defined.

(** X4 on the bounds [5000, 10], as [Canned.answers] gives them. *)
Lemma inverted_bounds_exclude_everyone_witness :
  fst (fst (filter_eligible_holders
              {| token_contract := "mint"; total_wbtc_per_cycle := 0;
                 cycle_interval := 60; min_token_holdings := 5000;
                 max_token_holdings := 10 |}
              [("A", 1000); ("B", 3000); ("C", 5)])) = [].
Proof.
  apply (inverted_bounds_exclude_everyone
           {| token_contract := "mint"; total_wbtc_per_cycle := 0;
              cycle_interval := 60; min_token_holdings := 5000;
              max_token_holdings := 10 |}
           [("A", 1000); ("B", 3000); ("C", 5)]).
  reflexivity.
Defined.

(** X6 on eligible [{A: 1000, B: 3000}]. *)
Lemma distribution_descends_in_allocation_witness :
  StronglySorted (desc wbtc_amount)
    (map (entry_of Scripted.cfg 4000) [("B", 3000); ("A", 1000)])
  /\ StronglySorted (desc percentage)
       (map (entry_of Scripted.cfg 4000) [("B", 3000); ("A", 1000)]).
Proof.
  apply (distribution_descends_in_allocation Scripted.cfg
           [("A", 1000); ("B", 3000)]).
  - reflexivity.
  - discriminate.
  - reflexivity.
Defined.

(** X7 on eligible [{A: 1000, B: 3000}]. *)
Lemma positive_balances_allocate_within_budget_witness :
  exists distribution,
    calculate_wbtc_distribution Scripted.cfg [("A", 1000); ("B", 3000)]
    = inr distribution
    /\ forall e, In e distribution ->
         0 <= wbtc_amount e
         /\ wbtc_amount e <= total_wbtc_per_cycle Scripted.cfg
         /\ 0 < percentage e /\ percentage e <= 100.
Proof.
  apply (positive_balances_allocate_within_budget Scripted.cfg
           [("A", 1000); ("B", 3000)]).
  - discriminate.
  - intros w b [H|[H|[]]]; injection H as _ <-; reflexivity.
  - discriminate.
Defined.

(** X11 on a response whose result is null. *)
Lemma scan_without_value_fails_cycle_witness :
  Scripted.cycle (init Scripted.cfg)
    {| Scripted.responses := [Some [("result", JNull)]];
       Scripted.outcomes := [true]; Scripted.time := 0 |}
  = (CycleFail "'NoneType' object is not subscriptable",
     count_cycle (init Scripted.cfg),
     {| Scripted.responses := []; Scripted.outcomes := [true];
        Scripted.time := 0 |}, []).
Proof.
  apply (scan_without_value_fails_cycle Scripted.world Scripted.rpc_request
           Scripted.send_wbtc_airdrop Scripted.now Scripted.sleep
           Scripted.parse_float (init Scripted.cfg)
           {| Scripted.responses := [Some [("result", JNull)]];
              Scripted.outcomes := [true]; Scripted.time := 0 |}
           {| Scripted.responses := []; Scripted.outcomes := [true];
              Scripted.time := 0 |}
           [("result", JNull)] JNull
           (TypeError "'NoneType' object is not subscriptable")).
  - reflexivity.
  - reflexivity.
  - reflexivity.
Defined.

(** X13 on a node that answers with status 500. *)
Lemma rpc_failure_fails_cycle_witness :
  execute_airdrop_cycle Scripted.world
    (scan_request Scripted.world (Canned.requests_post Canned.server_error)
       "http://node" "mint")
    Scripted.send_wbtc_airdrop Scripted.now Scripted.sleep
    Scripted.parse_float (init Scripted.cfg) Scripted.partial_failure
  = (CycleFail "not enough values to unpack (expected 2, got 0)",
     count_cycle (init Scripted.cfg), Scripted.partial_failure, []).
Proof.
  apply (rpc_failure_fails_cycle Scripted.world
           (Canned.requests_post Canned.server_error)
           Scripted.send_wbtc_airdrop Scripted.now Scripted.sleep
           Scripted.parse_float "http://node" (init Scripted.cfg)
           Scripted.partial_failure Scripted.partial_failure
           Canned.server_error).
  - reflexivity.
  - right. eexists. split; [reflexivity|]. left. discriminate.
Defined.

(** X16 on a zero amount, a string amount and an account of 5. *)
Lemma unreadable_account_hides_balance_witness :
  get_token_balance Scripted.parse_float
    (inr (map (fun q => token_account (JNum q)) [0]
          ++ token_account (JStr "5") :: [token_account (JNum 5)]))
  = 0.
Proof.
  apply (unreadable_account_hides_balance Scripted.parse_float
           [0] (token_account (JStr "5")) [token_account (JNum 5)]).
  - intros q [<-|[]]. discriminate.
  - intros ui H. vm_compute in H. injection H as <-.
    split; [reflexivity|]. eexists. reflexivity.
Defined.

(** X17 on a sender with 5 lamports and token accounts of 0 and 1. *)
Lemma check_sender_balance_passes_witness :
  exists lamports w1 accounts account ui q,
    Canned.get_balance tt = (inr lamports, w1)
    /\ (0 < lamports)%Z
    /\ Canned.get_token_accounts_by_owner wbtc_mint w1 = (inr accounts, tt)
    /\ In account accounts
    /\ ui_amount_of account = inr ui
    /\ py_float Scripted.parse_float ui = inr q
    /\ total_wbtc_per_cycle Scripted.cfg <= q.
Proof.
  apply (check_sender_balance_passes Scripted.parse_float unit
           Canned.get_balance Canned.get_token_accounts_by_owner
           Scripted.cfg tt tt).
  - reflexivity.
  - reflexivity.
Defined.

(** X21 on a contract line and a minimum of 5000 followed by a maximum
    that is not a number. *)
Lemma unparsable_bound_resets_both_witness :
  exists rpc_url cfg,
    Cli.collect_config Canned.parse_float Canned.parse_int
      ["url"; "mint"; "0"; "60"; "5000"; "ten"; "key"]
    = inr (Some (rpc_url, cfg), ["key"])
    /\ min_token_holdings cfg = 1000
    /\ max_token_holdings cfg = 10000000.
Proof.
  apply (unparsable_bound_resets_both Canned.parse_float Canned.parse_int
           "url" "mint" "0" "60" "5000" "ten" ["key"]).
  - discriminate.
  - exists 5000. reflexivity.
  - reflexivity.
Defined.

(** X23 on [Canned.answers]. *)
Lemma prompt_accepts_any_parsed_values_witness :
  Cli.main Canned.parse_float Canned.parse_int Canned.initialize_sender
    Canned.answers
  = inr (Cli.Started "http://node"
           {| token_contract := "mint"; total_wbtc_per_cycle := 0;
              cycle_interval := 60; min_token_holdings := 5000;
              max_token_holdings := 10 |}
           "key",
         ["left"]).
Proof.
  apply (prompt_accepts_any_parsed_values Canned.parse_float Canned.parse_int
           Canned.initialize_sender
           " http://node " "mint" "0" "60" "5000" "10" " key " " Y " ["left"]
           0 5000 10 60%Z).
  - discriminate.
  - discriminate.
  - reflexivity.
  - reflexivity.
  - reflexivity.
  - reflexivity.
  - discriminate.
  - reflexivity.
  - reflexivity.
Defined.

(** X22 on [Canned.answers]: the answer is the line before "left". *)
Lemma scheduler_starts_only_on_y_witness :
  exists consumed answer,
    Canned.answers = consumed ++ answer :: ["left"]
    /\ Cli.py_lower (Cli.py_strip answer) = "y".
Proof.
  apply (scheduler_starts_only_on_y Canned.parse_float Canned.parse_int
           Canned.initialize_sender Canned.answers ["left"] "http://node" "key"
           {| token_contract := "mint"; total_wbtc_per_cycle := 0;
              cycle_interval := 60; min_token_holdings := 5000;
              max_token_holdings := 10 |}).
  reflexivity.
Defined.

(** * The binary64 model: properties *)

Section F64Facts.

Import F64.
Local Open Scope float_scope.

(** ** Keys *)

Lemma key_value_eqb_refl (v : key_value) : key_value_eqb v v = true.
Proof.
  destruct v; simpl; auto using String.eqb_refl, Bool.eqb_reflx.
  apply Qeq_bool_iff. reflexivity.
Qed.

Lemma key_value_eqb_sym (a b : key_value) :
  key_value_eqb a b = key_value_eqb b a.
Proof.
  destruct a, b; simpl; auto using String.eqb_sym.
  - apply Bool.eq_true_iff_eq. rewrite !Qeq_bool_iff.
    split; intros H; symmetry; exact H.
  - destruct negative, negative0; reflexivity.
Qed.

Lemma key_value_eqb_trans (a b c : key_value) :
  key_value_eqb a b = true -> key_value_eqb b c = true ->
  key_value_eqb a c = true.
Proof.
  destruct a, b, c; simpl; try discriminate; auto.
  - rewrite !String.eqb_eq. congruence.
  - rewrite !Qeq_bool_iff. intros H1 H2. rewrite H1. exact H2.
  - destruct negative, negative0, negative1; simpl; auto.
Qed.

Lemma key_eqb_refl (k : pykey) : key_eqb k k = true.
Proof. apply key_value_eqb_refl. Qed.

Lemma key_eqb_sym (k k' : pykey) : key_eqb k k' = key_eqb k' k.
Proof. apply key_value_eqb_sym. Qed.

Lemma key_eqb_trans (a b c : pykey) :
  key_eqb a b = true -> key_eqb b c = true -> key_eqb a c = true.
Proof. apply key_value_eqb_trans. Qed.

Lemma key_eqb_str (a b : string) : key_eqb (KStr a) (KStr b) = String.eqb a b.
Proof. reflexivity. Qed.

Lemma key_eqb_congr (a b c : pykey) :
  key_eqb a b = true -> key_eqb a c = key_eqb b c.
Proof.
  intros H. apply Bool.eq_true_iff_eq. split; intros H'.
  - apply key_eqb_trans with a; [rewrite key_eqb_sym|]; assumption.
  - apply key_eqb_trans with b; assumption.
Qed.

(** ** Dictionaries *)

Lemma f64_dict_get_equiv (d : dict) (k k' : pykey) :
  key_eqb k k' = true -> dict_get d k = dict_get d k'.
Proof.
  intros H. induction d as [|[k0 v] d IH]; simpl.
  - reflexivity.
  - rewrite (key_eqb_congr k k' k0 H), IH. reflexivity.
Qed.

Lemma f64_dict_get_set (d : dict) (k k' : pykey) (v : float) :
  dict_get (dict_set d k v) k'
  = if key_eqb k' k then Some v else dict_get d k'.
Proof.
  induction d as [|[k0 v0] d IH]; simpl.
  - reflexivity.
  - destruct (key_eqb k k0) eqn:E; simpl.
    + rewrite key_eqb_sym in E.
      rewrite <- (key_eqb_sym k0 k'), (key_eqb_congr k0 k k' E).
      rewrite (key_eqb_sym k k').
      destruct (key_eqb k' k); reflexivity.
    + destruct (key_eqb k' k0) eqn:E'.
      * rewrite (key_eqb_congr k' k0 k E'), key_eqb_sym, E. reflexivity.
      * apply IH.
Qed.

Lemma f64_dict_set_fresh (d : dict) (k : pykey) (v : float) :
  dict_get d k = None -> dict_set d k v = d ++ [(k, v)].
Proof.
  induction d as [|[k0 v0] d IH]; simpl; intros H.
  - reflexivity.
  - destruct (key_eqb k k0); [discriminate|]. rewrite IH by exact H.
    reflexivity.
Qed.

Lemma f64_dict_wf_set (d : dict) (k : pykey) (v : float) :
  dict_wf d -> dict_wf (dict_set d k v).
Proof.
  induction d as [|[k0 v0] d IH]; simpl; intros H.
  - auto.
  - destruct H as [H0 H]. destruct (key_eqb k k0) eqn:E; simpl.
    + auto.
    + split; [|auto]. rewrite f64_dict_get_set, key_eqb_sym, E. exact H0.
Qed.

Lemma f64_keys_set (d : dict) (k k' : pykey) (v : float) :
  In k' (keys (dict_set d k v)) -> In k' (keys d) \/ k' = k.
Proof.
  induction d as [|[k0 v0] d IH]; simpl.
  - intros [H|[]]. auto.
  - destruct (key_eqb k k0); simpl.
    + intros [H|H]; auto.
    + intros [H|H]; auto. destruct (IH H); auto.
Qed.

Lemma f64_dict_get_app (d1 d2 : dict) (k : pykey) :
  dict_get (d1 ++ d2) k
  = match dict_get d1 k with Some v => Some v | None => dict_get d2 k end.
Proof.
  induction d1 as [|[k0 v0] d1 IH]; simpl.
  - reflexivity.
  - destruct (key_eqb k k0); auto.
Qed.

Lemma f64_dict_get_filter_None (p : pykey * float -> bool) (d : dict) (k : pykey) :
  dict_get d k = None -> dict_get (filter p d) k = None.
Proof.
  induction d as [|[k0 v0] d IH]; simpl; intros H.
  - reflexivity.
  - destruct (key_eqb k k0) eqn:E; [discriminate|].
    destruct (p (k0, v0)); simpl; [rewrite E|]; auto.
Qed.

Lemma f64_dict_wf_filter (p : pykey * float -> bool) (d : dict) :
  dict_wf d -> dict_wf (filter p d).
Proof.
  induction d as [|[k0 v0] d IH]; simpl; intros H.
  - exact I.
  - destruct H as [H0 H]. destruct (p (k0, v0)); simpl; auto.
    split; auto using f64_dict_get_filter_None.
Qed.

Lemma f64_dict_wf_app_fresh (d1 d2 : dict) (k : pykey) (v : float) :
  dict_wf (d1 ++ (k, v) :: d2) -> dict_get d1 k = None.
Proof.
  induction d1 as [|[k0 v0] d1 IH]; simpl; intros H.
  - reflexivity.
  - destruct H as [H0 H]. rewrite f64_dict_get_app in H0.
    destruct (dict_get d1 k0); [discriminate|]. simpl in H0.
    destruct (key_eqb k0 k) eqn:E; [discriminate|].
    rewrite key_eqb_sym, E. auto.
Qed.

(** ** The scan *)

Section Scan.

Variable parse_float : string -> option float.

Local Abbreviation handled := ["KeyError"; "TypeError"; "ValueError"].

Lemma py_getitem_field (v : json) (k : string) :
  match field v k with
  | Some x => py_getitem v k = inr x
  | None => exists e, py_getitem v k = inl e /\ caught_by handled e = true
  end.
Proof.
  destruct v; simpl; try (eexists; split; reflexivity).
  destruct (assoc m k); [reflexivity|].
  eexists; split; reflexivity.
Qed.

(** Reading a value of the record shape gives its owner and [float] of
    its amount; reading any other value raises what the loop skips. *)
Lemma read_account_record_of (v : json) :
  match record_of v with
  | Some (owner, ui_amount) =>
      read_account parse_float v
      = (token_amount <- py_float parse_float ui_amount ;;
         ret (owner, token_amount))
  | None =>
      exists e, read_account parse_float v = inl e
                /\ caught_by handled e = true
  end.
Proof.
  unfold record_of, read_account.
  pose proof (py_getitem_field v "account") as H1.
  destruct (field v "account") as [a|];
    [rewrite H1; cbn [bind]
    | destruct H1 as (e & -> & Hc); exists e; split; [reflexivity|exact Hc]].
  pose proof (py_getitem_field a "data") as H2.
  destruct (field a "data") as [d|];
    [rewrite H2; cbn [bind]
    | destruct H2 as (e & -> & Hc); exists e; split; [reflexivity|exact Hc]].
  pose proof (py_getitem_field d "parsed") as H3.
  destruct (field d "parsed") as [p|];
    [rewrite H3; cbn [bind]
    | destruct H3 as (e & -> & Hc); exists e; split; [reflexivity|exact Hc]].
  pose proof (py_getitem_field p "info") as H4.
  destruct (field p "info") as [info|];
    [rewrite H4; cbn [bind]
    | destruct H4 as (e & -> & Hc); exists e; split; [reflexivity|exact Hc]].
  pose proof (py_getitem_field info "owner") as H5.
  destruct (field info "owner") as [owner|];
    [rewrite H5; cbn [bind]
    | destruct H5 as (e & -> & Hc); exists e; split; [reflexivity|exact Hc]].
  pose proof (py_getitem_field info "tokenAmount") as H6.
  destruct (field info "tokenAmount") as [ta|];
    [rewrite H6; cbn [bind]
    | destruct H6 as (e & -> & Hc); exists e; split; [reflexivity|exact Hc]].
  pose proof (py_getitem_field ta "uiAmount") as H7.
  destruct (field ta "uiAmount") as [ui|];
    [rewrite H7; cbn [bind]
    | destruct H7 as (e & -> & Hc); exists e; split; [reflexivity|exact Hc]].
  reflexivity.
Qed.

Lemma py_float_amount_value (ui_amount : json) :
  in_range ui_amount = true ->
  match amount_value parse_float ui_amount with
  | Some a => py_float parse_float ui_amount = inr a
  | None => exists e, py_float parse_float ui_amount = inl e
                      /\ caught_by handled e = true
  end.
Proof.
  destruct ui_amount; simpl; intros Hr;
    try reflexivity; try (eexists; split; reflexivity).
  - unfold float_of_int.
    destruct (is_infinity (float_of_Z z)); [discriminate|reflexivity].
  - destruct (parse_float s); [reflexivity|].
    eexists; split; reflexivity.
Qed.

Lemma as_key_owner_key (owner : json) :
  match owner_key owner with
  | Some k => as_key owner = inr k
  | None => exists e, as_key owner = inl e /\ caught_by handled e = true
  end.
Proof.
  destruct owner; simpl; try reflexivity; eexists; split; reflexivity.
Qed.

(** One iteration on a value whose amount, if it is a record, is within
    range: a counted value updates the entry of its key and the total,
    any other leaves the state as it is. *)
Lemma account_step_counted (h : dict) (t : float) (v : json) :
  within_range v = true ->
  account_step parse_float (h, t) v
  = inr match counted parse_float v with
        | Some (k, a) =>
            (match dict_get h k with
             | Some b => dict_set h k (b + a)
             | None => dict_set h k a
             end, t + a)
        | None => (h, t)
        end.
Proof.
  unfold within_range, counted, account_step, account_body.
  pose proof (read_account_record_of v) as Hread.
  destruct (record_of v) as [[owner ui_amount]|].
  - intros Hr. rewrite Hread.
    pose proof (py_float_amount_value ui_amount Hr) as Hf.
    destruct (amount_value parse_float ui_amount) as [a|].
    + rewrite Hf. cbn [bind ret].
      destruct (a =? 0); [reflexivity|].
      pose proof (as_key_owner_key owner) as Hk.
      destruct (owner_key owner) as [k|].
      * rewrite Hk. reflexivity.
      * destruct Hk as (e & -> & Hc). cbn [bind]. rewrite Hc. reflexivity.
    + destruct Hf as (e & -> & Hc). cbn [bind]. rewrite Hc. reflexivity.
  - intros _. destruct Hread as (e & -> & Hc). cbn [bind]. rewrite Hc.
    reflexivity.
Qed.

Lemma accumulate_Some (b : float) (amounts : list float) :
  accumulate (Some b) amounts = Some (fold_left add amounts b).
Proof.
  revert b. induction amounts as [|a l IH]; intros b.
  - reflexivity.
  - apply IH.
Qed.

Lemma accumulate_in_order (amounts : list float) :
  accumulate None amounts = in_order_sum amounts.
Proof.
  destruct amounts as [|a l]; [reflexivity|]. apply accumulate_Some.
Qed.

(** The entry of [k] after [holders[k'] += a] or [holders[k'] = a]. *)
Lemma dict_get_counted (h : dict) (k' k : pykey) (a : float) :
  dict_get (match dict_get h k' with
            | Some b => dict_set h k' (b + a)
            | None => dict_set h k' a
            end) k
  = if key_eqb k' k
    then Some match dict_get h k with Some b => b + a | None => a end
    else dict_get h k.
Proof.
  destruct (key_eqb k' k) eqn:E.
  - rewrite <- (f64_dict_get_equiv h k' k E).
    rewrite key_eqb_sym in E.
    destruct (dict_get h k'); rewrite f64_dict_get_set, E; reflexivity.
  - rewrite key_eqb_sym in E.
    destruct (dict_get h k'); rewrite f64_dict_get_set, E; reflexivity.
Qed.

Lemma aggregate_accounts_counted (accounts : list json) :
  forallb within_range accounts = true ->
  forall (h : dict) (t : float),
  exists h' t',
    aggregate_accounts parse_float (h, t) accounts = inr (h', t')
    /\ (forall k, dict_get h' k
                  = accumulate (dict_get h k)
                               (offered_to parse_float k accounts))
    /\ t' = fold_left add (offered parse_float accounts) t
    /\ (dict_wf h -> dict_wf h')
    /\ (forall k, In k (keys h') ->
          In k (keys h)
          \/ exists v a, In v accounts
                         /\ counted parse_float v = Some (k, a)).
Proof.
  induction accounts as [|v accounts IH]; intros Hrange h t.
  - exists h, t.
    cbn [aggregate_accounts offered_to offered flat_map accumulate fold_left].
    repeat split; auto.
  - cbn [forallb] in Hrange. apply Bool.andb_true_iff in Hrange.
    destruct Hrange as [Hv Hrange]. specialize (IH Hrange).
    cbn [aggregate_accounts].
    rewrite (account_step_counted h t v Hv). cbn [bind].
    cbn [offered_to offered flat_map].
    destruct (counted parse_float v) as [[k' a]|] eqn:C.
    + match goal with
      | |- context [aggregate_accounts _ (?h1, ?t1) _] =>
          destruct (IH h1 t1) as [h' [t' [Hrun [Hget [Htot [Hwf Hkeys]]]]]]
      end.
      exists h', t'. split; [exact Hrun|]. split; [|split; [|split]].
      * intros k. rewrite Hget, dict_get_counted.
        destruct (key_eqb k' k); reflexivity.
      * rewrite Htot. reflexivity.
      * intros Hh. apply Hwf.
        destruct (dict_get h k'); apply f64_dict_wf_set; exact Hh.
      * intros k Hk. destruct (Hkeys k Hk) as [Hin|(v0 & a0 & Hin & Hc)].
        -- destruct (dict_get h k');
             (destruct (f64_keys_set _ _ _ _ Hin) as [Hin' | ->];
              [left; exact Hin'
              | right; exists v, a; split; [left; reflexivity|exact C]]).
        -- right. exists v0, a0. split; [right; exact Hin|exact Hc].
    + destruct (IH h t) as [h' [t' [Hrun [Hget [Htot [Hwf Hkeys]]]]]].
      exists h', t'. split; [exact Hrun|]. split; [|split; [|split]]; auto.
      intros k Hk. destruct (Hkeys k Hk) as [Hin|(v0 & a0 & Hin & Hc)].
      * left; exact Hin.
      * right. exists v0, a0. split; [right; exact Hin|exact Hc].
Qed.

End Scan.

End F64Facts.

(** ** The order of floats *)

Section F64Order.

Import F64.
Local Open Scope float_scope.

Lemma lex3_spec (a b : Z * Z * Z) :
  CompareSpec (a = b) (lt3 a b) (lt3 b a) (lex3 a b).
Proof.
  destruct a as [[a1 a2] a3], b as [[b1 b2] b3]. unfold lex3, lt3.
  destruct (Z.compare_spec a1 b1); [|constructor; lia|constructor; lia].
  destruct (Z.compare_spec a2 b2); [|constructor; lia|constructor; lia].
  destruct (Z.compare_spec a3 b3); constructor; try lia.
  subst. reflexivity.
Qed.

Lemma lt3_irrefl (a : Z * Z * Z) : ~ lt3 a a.
Proof. destruct a as [[a1 a2] a3]. unfold lt3. lia. Qed.

Lemma lt3_trans (a b c : Z * Z * Z) : lt3 a b -> lt3 b c -> lt3 a c.
Proof.
  destruct a as [[a1 a2] a3], b as [[b1 b2] b3], c as [[c1 c2] c3].
  unfold lt3. lia.
Qed.

Lemma lex3_refl (a : Z * Z * Z) : lex3 a a = Eq.
Proof.
  destruct (lex3_spec a a) as [H|H|H]; auto; destruct (lt3_irrefl a H).
Qed.

Lemma lex3_antisym (a b : Z * Z * Z) : lex3 b a = CompOpp (lex3 a b).
Proof.
  destruct (lex3_spec a b) as [H|H|H], (lex3_spec b a) as [H'|H'|H'];
    simpl; auto; subst;
    try (destruct (lt3_irrefl _ H)); try (destruct (lt3_irrefl _ H'));
    destruct (lt3_irrefl _ (lt3_trans _ _ _ H H')).
Qed.

(** [x < l] and [l <= h] give [x < h]. *)
Lemma lex3_lt_le (x l h : Z * Z * Z) :
  lex3 x l = Lt -> lex3 l h <> Gt -> lex3 x h = Lt.
Proof.
  intros H1 H2.
  destruct (lex3_spec x l) as [?|Hxl|?]; try discriminate.
  destruct (lex3_spec l h) as [Hlh|Hlh|Hlh]; [subst| |congruence].
  - destruct (lex3_spec x h) as [E|E|E]; auto; subst.
    + destruct (lt3_irrefl _ Hxl).
    + destruct (lt3_irrefl _ (lt3_trans _ _ _ Hxl E)).
  - pose proof (lt3_trans _ _ _ Hxl Hlh) as Hxh.
    destruct (lex3_spec x h) as [E|E|E]; auto; subst.
    + destruct (lt3_irrefl _ Hxh).
    + destruct (lt3_irrefl _ (lt3_trans _ _ _ Hxh E)).
Qed.

Lemma SFcompare_rank (x y : spec_float) :
  SFcompare x y
  = match rank x, rank y with
    | Some a, Some b => Some (lex3 a b)
    | _, _ => None
    end.
Proof.
  destruct x as [sx|sx| |sx mx ex], y as [sy|sy| |sy my ey];
    try destruct sx; try destruct sy; try reflexivity.
  cbn [SFcompare rank lex3]. rewrite Z.compare_opp.
  rewrite (Z.compare_antisym ex ey).
  change (Z.neg mx ?= Z.neg my)%Z with (CompOpp (Pos.compare_cont Eq mx my)).
  cbn [Z.compare]. destruct (ex ?= ey)%Z; reflexivity.
Qed.

(** Every float is in exactly one of four classes with respect to bounds
    [lo <= hi]: below, within, above, or [nan]. *)
Lemma float_four_classes (lo hi a : float) :
  (lo <=? hi) = true ->
  (Nat.b2n (a <? lo)%float
   + Nat.b2n ((lo <=? a)%float && (a <=? hi)%float)
   + Nat.b2n (hi <? a)%float + Nat.b2n (is_nan a) = 1)%nat.
Proof.
  unfold is_nan. rewrite !ltb_spec, !leb_spec, eqb_spec.
  unfold SFltb, SFleb, SFeqb. rewrite !SFcompare_rank.
  destruct (rank (Prim2SF lo)) as [l|]; [|discriminate].
  destruct (rank (Prim2SF hi)) as [h|]; [|discriminate].
  destruct (rank (Prim2SF a)) as [x|]; [|reflexivity].
  intros Hlh. rewrite lex3_refl.
  rewrite (lex3_antisym x l), (lex3_antisym x h).
  assert (Hle : lex3 l h <> Gt) by (destruct (lex3 l h); congruence).
  pose proof (lex3_lt_le x l h) as Htr.
  destruct (lex3 x l) eqn:E1; destruct (lex3 x h) eqn:E2; simpl; auto.
  specialize (Htr eq_refl Hle). discriminate.
Qed.

Lemma is_nan_compares_false (lo hi a : float) :
  is_nan a = true ->
  (a <? lo) = false /\ (lo <=? a) = false /\ (a <=? hi) = false
  /\ (hi <? a) = false.
Proof.
  unfold is_nan. rewrite !ltb_spec, !leb_spec, eqb_spec.
  unfold SFltb, SFleb, SFeqb. rewrite !SFcompare_rank.
  destruct (rank (Prim2SF a)) as [x|].
  - rewrite lex3_refl. discriminate.
  - destruct (rank (Prim2SF lo)), (rank (Prim2SF hi)); auto.
Qed.

End F64Order.

(** ** The filter *)

Section F64Filter.

Import F64.
Local Open Scope float_scope.

Variable cfg : AirdropConfig.

Local Abbreviation keep := (fun item : pykey * float => in_bounds cfg (snd item)).

Lemma f64_dict_wf_drop (d1 d2 : dict) (k : pykey) (v : float) :
  dict_wf (d1 ++ (k, v) :: d2) -> dict_wf (d1 ++ d2).
Proof.
  induction d1 as [|[k0 v0] d1 IH]; simpl.
  - tauto.
  - intros [H0 H]. split; [|auto].
    rewrite f64_dict_get_app in *.
    destruct (dict_get d1 k0); [discriminate|]. simpl in H0.
    destruct (key_eqb k0 k); [discriminate|exact H0].
Qed.

(** The loop of lines 216-218 from an accumulator whose keys the
    remaining items do not repeat. *)
Lemma f64_eligible_loop (items acc : dict) :
  dict_wf (acc ++ items) ->
  fold_left
    (fun el (item : pykey * float) =>
       let '(wallet, amount) := item in
       if in_bounds cfg amount then dict_set el wallet amount else el)
    items acc
  = acc ++ filter keep items.
Proof.
  revert acc.
  induction items as [|[k v] items IH]; intros acc Hwf; simpl.
  - rewrite app_nil_r. reflexivity.
  - destruct (in_bounds cfg v) eqn:E.
    + rewrite (f64_dict_set_fresh acc k v (f64_dict_wf_app_fresh _ _ _ _ Hwf)).
      rewrite IH.
      * rewrite <- app_assoc. reflexivity.
      * rewrite <- app_assoc. exact Hwf.
    + apply IH. exact (f64_dict_wf_drop _ _ _ _ Hwf).
Qed.

Lemma f64_eligible_is_filter (holders : dict) :
  dict_wf holders ->
  fst (fst (filter_eligible_holders cfg holders)) = filter keep holders.
Proof.
  intros Hwf. unfold filter_eligible_holders. cbn [fst].
  rewrite f64_eligible_loop; [reflexivity | exact Hwf].
Qed.

Lemma f64_dict_get_kept (d : dict) (k : pykey) (b : float) :
  dict_wf d ->
  dict_get (filter keep d) k = Some b <->
  dict_get d k = Some b /\ in_bounds cfg b = true.
Proof.
  induction d as [|[k0 v0] d IH]; simpl.
  - intros _. split; [discriminate | intros [H _]; discriminate].
  - intros [H0 Hwf]. specialize (IH Hwf).
    destruct (key_eqb k k0) eqn:E.
    + assert (Hnone : dict_get (filter keep d) k = None).
      { apply f64_dict_get_filter_None.
        rewrite (f64_dict_get_equiv d k k0 E). exact H0. }
      destruct (in_bounds cfg v0) eqn:B; simpl.
      * rewrite E. split.
        -- intros H. inversion H; subst. auto.
        -- intros [H _]. exact H.
      * rewrite Hnone. split; [discriminate|].
        intros [H Hb]. inversion H; subst. congruence.
    + destruct (in_bounds cfg v0); simpl; [rewrite E|]; exact IH.
Qed.

Lemma four_classes_count {A} (p1 p2 p3 p4 : A -> bool) (l : list A) :
  (forall x, In x l ->
     (Nat.b2n (p1 x) + Nat.b2n (p2 x) + Nat.b2n (p3 x) + Nat.b2n (p4 x) = 1)%nat) ->
  (List.length (filter p1 l) + List.length (filter p2 l)
   + List.length (filter p3 l) + List.length (filter p4 l)
   = List.length l)%nat.
Proof.
  induction l as [|x l IH]; intros H; simpl.
  - reflexivity.
  - pose proof (H x (or_introl eq_refl)) as Hx.
    assert (IH' := IH (fun y Hy => H y (or_intror Hy))).
    destruct (p1 x), (p2 x), (p3 x), (p4 x); simpl in *; lia.
Qed.

Lemma length_filter_values (p : float -> bool) (d : dict) :
  List.length (filter (fun item : pykey * float => p (snd item)) d)
  = List.length (filter p (values d)).
Proof.
  unfold values. induction d as [|[k v] d IH]; simpl.
  - reflexivity.
  - destruct (p v); simpl; rewrite IH; reflexivity.
Qed.

End F64Filter.

(** C6, as the code has it.  For a holder mapping and bounds min <= max, a
    wallet is in the eligible mapping, with its balance, iff it is a holder
    and min <= balance <= max, both ends included; the eligible mapping is
    the holders' in their order.  The first count is the number of balances
    below min and the second the number above max.  A balance that is not
    [nan] is in exactly one of the three classes; a [nan] balance compares
    false with both bounds and is in none, so the two counts, the number of
    eligible wallets and the number of [nan] balances add up to the number
    of holders. *)
Theorem filter_eligible_holders_classes
  (cfg : F64.AirdropConfig) (holders eligible : F64.dict) (small large : Z) :
  F64.dict_wf holders ->
  PrimFloat.leb (F64.min_token_holdings cfg) (F64.max_token_holdings cfg) = true ->
  F64.filter_eligible_holders cfg holders = (eligible, small, large) ->
  (forall w b,
      F64.dict_get eligible w = Some b <->
      F64.dict_get holders w = Some b
      /\ PrimFloat.leb (F64.min_token_holdings cfg) b = true
      /\ PrimFloat.leb b (F64.max_token_holdings cfg) = true)
  /\ eligible = filter (fun item => F64.in_bounds cfg (snd item)) holders
  /\ small = Z.of_nat (List.length
               (filter (fun b => PrimFloat.ltb b (F64.min_token_holdings cfg))
                       (F64.values holders)))
  /\ large = Z.of_nat (List.length
               (filter (fun b => PrimFloat.ltb (F64.max_token_holdings cfg) b)
                       (F64.values holders)))
  /\ (forall b,
        PrimFloat.is_nan b = false ->
        (Nat.b2n (PrimFloat.ltb b (F64.min_token_holdings cfg))
         + Nat.b2n (F64.in_bounds cfg b)
         + Nat.b2n (PrimFloat.ltb (F64.max_token_holdings cfg) b) = 1)%nat)
  /\ (forall b,
        PrimFloat.is_nan b = true ->
        PrimFloat.ltb b (F64.min_token_holdings cfg) = false
        /\ F64.in_bounds cfg b = false
        /\ PrimFloat.ltb (F64.max_token_holdings cfg) b = false)
  /\ (small + large + Z.of_nat (List.length eligible)
      + Z.of_nat (List.length (filter PrimFloat.is_nan (F64.values holders)))
      = Z.of_nat (List.length holders))%Z.
Proof.
  intros Hwf Hmm Hrun.
  pose proof (f64_eligible_is_filter cfg holders Hwf) as Hel.
  rewrite Hrun in Hel. cbn [fst] in Hel.
  unfold F64.filter_eligible_holders in Hrun.
  injection Hrun as _ Hs Hl.
  rewrite count_if_length in Hs, Hl.
  split; [|split; [exact Hel|split; [auto|split; [auto|split; [|split]]]]].
  - intros w b. rewrite Hel, (f64_dict_get_kept cfg holders w b Hwf).
    unfold F64.in_bounds. rewrite Bool.andb_true_iff. tauto.
  - intros b Hb.
    pose proof (float_four_classes _ _ b Hmm) as H4.
    rewrite Hb in H4. unfold F64.in_bounds. simpl Nat.b2n in H4 at 4. lia.
  - intros b Hb.
    destruct (is_nan_compares_false (F64.min_token_holdings cfg)
                (F64.max_token_holdings cfg) b Hb) as (H1 & H2 & H3 & H4).
    unfold F64.in_bounds. rewrite H1, H2, H4. auto.
  - subst small large. rewrite Hel.
    rewrite (length_filter_values (F64.in_bounds cfg) holders).
    pose proof (four_classes_count
                  (fun b => PrimFloat.ltb b (F64.min_token_holdings cfg))
                  (F64.in_bounds cfg)
                  (fun b => PrimFloat.ltb (F64.max_token_holdings cfg) b)
                  PrimFloat.is_nan (F64.values holders)
                  (fun b _ => float_four_classes _ _ b Hmm)) as H.
    unfold F64.values in *. rewrite length_map in H. lia.
Qed.

(** Against C6 as stated: holders [{A: nan, B: 2000}] under the default
    bounds.  B is eligible, A is not, and neither count includes A: the
    counts and the eligible wallets add up to one, the holders are two. *)
Lemma nan_balance_is_in_no_class :
  PrimFloat.leb (F64.min_token_holdings F64.Scripted.cfg)
                (F64.max_token_holdings F64.Scripted.cfg) = true
  /\ F64.dict_wf F64.Scripted.with_nan
  /\ exists eligible small large,
      F64.filter_eligible_holders F64.Scripted.cfg F64.Scripted.with_nan
      = (eligible, small, large)
      /\ eligible = [(F64.KStr "B", 2000%float)]
      /\ (small + large + Z.of_nat (List.length eligible))%Z = 1%Z
      /\ Z.of_nat (List.length F64.Scripted.with_nan) = 2%Z
      /\ (small + large + Z.of_nat (List.length eligible))%Z
         <> Z.of_nat (List.length F64.Scripted.with_nan).
Proof.
  split; [reflexivity|]. split; [simpl; auto|].
  do 3 eexists. split; [vm_compute; reflexivity|].
  split; [reflexivity|]. split; [reflexivity|]. split; [reflexivity|].
  discriminate.
Qed.

(** C6 on [F64.Scripted.spread] and the default bounds. *)
Lemma filter_eligible_holders_classes_witness :
  (1 + 1 + Z.of_nat (List.length [(F64.KStr "B", 2000%float);
                                   (F64.KStr "E", 1000%float);
                                   (F64.KStr "F", 10000000%float)])
   + Z.of_nat (List.length (filter PrimFloat.is_nan
                              (F64.values F64.Scripted.spread)))
   = Z.of_nat (List.length F64.Scripted.spread))%Z.
Proof.
  apply (filter_eligible_holders_classes F64.Scripted.cfg F64.Scripted.spread
           [(F64.KStr "B", 2000%float); (F64.KStr "E", 1000%float);
            (F64.KStr "F", 10000000%float)] 1 1).
  - simpl. repeat split; reflexivity.
  - reflexivity.
  - vm_compute. reflexivity.
Defined.

(** ** The scan, the cycle *)

Section F64Scan.

Import F64.
Local Open Scope float_scope.

Variable parse_float : string -> option float.

Lemma f64_aggregate_accounts_app (l1 l2 : list json) (st : dict * float) :
  aggregate_accounts parse_float st (l1 ++ l2)
  = (st1 <- aggregate_accounts parse_float st l1 ;;
     aggregate_accounts parse_float st1 l2).
Proof.
  revert st. induction l1 as [|x l1 IH]; intros st; simpl.
  - reflexivity.
  - destruct (account_step parse_float st x) as [e|st1]; simpl.
    + reflexivity.
    + apply IH.
Qed.

Lemma get_token_holders_scan (accounts : list json) :
  get_token_holders parse_float (scan_response accounts)
  = (st <- aggregate_accounts parse_float (@pair dict float [] 0) accounts ;;
     ret (ScanPair (fst st) (snd st))).
Proof. reflexivity. Qed.

(** The scan of a list none of whose records has an amount beyond the
    range. *)
Lemma get_token_holders_counted (accounts : list json) :
  forallb within_range accounts = true ->
  exists holders total_supply,
    get_token_holders parse_float (scan_response accounts)
    = inr (ScanPair holders total_supply)
    /\ dict_wf holders
    /\ (forall k, dict_get holders k
                  = in_order_sum (offered_to parse_float k accounts))
    /\ total_supply = fold_left add (offered parse_float accounts) 0
    /\ (forall k, In k (keys holders) ->
          exists v a, In v accounts /\ counted parse_float v = Some (k, a)).
Proof.
  intros Hrange.
  destruct (aggregate_accounts_counted parse_float accounts Hrange [] 0)
    as (h & t & Hrun & Hget & Htot & Hwf & Hkeys).
  exists h, t. rewrite get_token_holders_scan, Hrun.
  split; [reflexivity|]. split; [apply Hwf; exact I|].
  split; [|split; [exact Htot|]].
  - intros k. rewrite Hget. apply accumulate_in_order.
  - intros k Hk. destruct (Hkeys k Hk) as [[]|H]. exact H.
Qed.

End F64Scan.

(** C7, as the code has it.  A scan whose response carries a list of
    values, none of them a record with an integer amount beyond the range
    of [float], returns the pair (holders, total supply).  The wallet of
    every key holds the sum of its own parsable non-zero amounts, added in
    scan order, and a wallet with no such amount is absent; the total
    supply is the sum of all parsable non-zero amounts, added in scan
    order.  A value that is no record, or whose amount is zero or not
    parsable, or whose owner is no key, can be dropped from any scan
    without changing what it returns. *)
Theorem get_token_holders_sums_in_scan_order
  (parse_float : string -> option PrimFloat.float)
  (body : list (string * F64.json)) (result value : F64.json)
  (accounts : list F64.json) :
  assoc body "result" = Some result ->
  F64.py_getitem result "value" = inr value ->
  F64.py_iter value = inr accounts ->
  forallb F64.within_range accounts = true ->
  (exists holders total_supply,
      F64.get_token_holders parse_float (Some body)
      = inr (F64.ScanPair holders total_supply)
      /\ F64.dict_wf holders
      /\ (forall k, F64.dict_get holders k
                    = F64.in_order_sum (F64.offered_to parse_float k accounts))
      /\ total_supply
         = fold_left PrimFloat.add (F64.offered parse_float accounts) 0%float)
  /\ (forall l1 l2 v,
        F64.within_range v = true ->
        F64.counted parse_float v = None ->
        F64.get_token_holders parse_float (F64.scan_response (l1 ++ v :: l2))
        = F64.get_token_holders parse_float (F64.scan_response (l1 ++ l2))).
Proof.
  intros Hres Hval Hiter Hrange. split.
  - destruct (aggregate_accounts_counted parse_float accounts Hrange
                [] 0%float)
      as (h & t & Hrun & Hget & Htot & Hwf & _).
    exists h, t. unfold F64.get_token_holders.
    destruct body as [|kv body']; [discriminate|].
    rewrite Hres, Hval. cbn [bind]. rewrite Hiter. cbn [bind].
    change (@pair (list (F64.pykey * PrimFloat.float)) PrimFloat.float
                  [] 0%float)
      with (@pair F64.dict PrimFloat.float [] 0%float).
    rewrite Hrun.
    split; [reflexivity|]. split; [apply Hwf; exact I|].
    split; [|exact Htot].
    intros k. rewrite Hget. apply accumulate_in_order.
  - intros l1 l2 v Hv Hc.
    rewrite !get_token_holders_scan, !f64_aggregate_accounts_app.
    destruct (F64.aggregate_accounts parse_float
                (@pair F64.dict PrimFloat.float [] 0%float) l1)
      as [e|[h t]]; [reflexivity|].
    cbn [bind F64.aggregate_accounts].
    rewrite (account_step_counted parse_float h t v Hv), Hc. reflexivity.
Qed.

(** Against C7 as stated: wallet A holds accounts of 0.1 and 0.4, wallet B
    one of 0.2, scanned in the order 0.1, 0.2, 0.4.  The balances are 0.5
    and 0.2, whose sum is 0.7 in either order; the total supply returned is
    0.1 + 0.2 + 0.4 as the loop adds it, 0.7000000000000001. *)
Lemma total_supply_is_not_the_sum_of_balances :
  exists holders total_supply,
    F64.get_token_holders F64.Scripted.parse_float
      (F64.scan_response F64.Scripted.rounding)
    = inr (F64.ScanPair holders total_supply)
    /\ holders = [(F64.KStr "A", 0.5%float); (F64.KStr "B", 0.2%float)]
    /\ total_supply = 0.7000000000000001%float
    /\ F64.sum_left (F64.values holders) = 0.7%float
    /\ PrimFloat.add 0.2 0.5 = 0.7%float
    /\ PrimFloat.eqb total_supply (F64.sum_left (F64.values holders)) = false.
Proof.
  do 2 eexists. split; [vm_compute; reflexivity|].
  repeat split; reflexivity.
Qed.

(** An integer amount beyond the range of [float] ends the scan:
    [OverflowError] is not among the exceptions the loop skips, and the
    cycle fails with its text although wallet A holds a valid balance. *)
Example huge_integer_amount_fails_scan :
  F64.get_token_holders F64.Scripted.parse_float
    (F64.scan_response F64.Scripted.huge)
  = inl F64.OverflowError
  /\ fst (fst (fst (F64.Scripted.cycle (F64.init F64.Scripted.cfg)
                      {| F64.Scripted.responses :=
                           [F64.scan_response F64.Scripted.huge];
                         F64.Scripted.outcomes := [];
                         F64.Scripted.time := 0%float |})))
     = F64.CycleFail "int too large to convert to float".
Proof. split; vm_compute; reflexivity. Qed.

(** The scan [F64.Scripted.mixed] aggregates to A: 1250, B: 3000.5, E: 12,
    F: nan, and 7 under the key [None]; the zero, the null amount, the
    unparsable string, the junk, the record without amount and the owner
    that is a list are passed over, and the total supply is [nan]. *)
Example scenario_aggregation_binary64 :
  F64.get_token_holders F64.Scripted.parse_float
    (F64.scan_response F64.Scripted.mixed)
  = inr (F64.ScanPair
           [(F64.KStr "A", 1250%float); (F64.KStr "B", 3000.5%float);
            (F64.KStr "E", 12%float); (F64.KStr "F", PrimFloat.nan);
            (F64.KNone, 7%float)]
           PrimFloat.nan).
Proof. vm_compute. reflexivity. Qed.

(** C7 on the scan [F64.Scripted.mixed]. *)
Lemma get_token_holders_sums_in_scan_order_witness :
  exists holders total_supply,
    F64.get_token_holders F64.Scripted.parse_float
      (F64.scan_response F64.Scripted.mixed)
    = inr (F64.ScanPair holders total_supply)
    /\ F64.dict_wf holders
    /\ (forall k, F64.dict_get holders k
                  = F64.in_order_sum
                      (F64.offered_to F64.Scripted.parse_float k
                         F64.Scripted.mixed))
    /\ total_supply
       = fold_left PrimFloat.add
           (F64.offered F64.Scripted.parse_float F64.Scripted.mixed) 0%float.
Proof.
  apply (get_token_holders_sums_in_scan_order F64.Scripted.parse_float
           [("jsonrpc", F64.JStr "2.0");
            ("result", F64.JObj [("value", F64.JArr F64.Scripted.mixed)]);
            ("id", F64.JInt 1)]
           (F64.JObj [("value", F64.JArr F64.Scripted.mixed)])
           (F64.JArr F64.Scripted.mixed) F64.Scripted.mixed);
    reflexivity.
Defined.

(** C3 at its failing input.  The scan [F64.Scripted.eleven] offers ten
    wallets of 2000 tokens and an eleventh account of 1000 tokens whose
    owner is [null].  The scan counts it under the key [None]; it is
    eligible, and last in the distribution list, beyond the ten entries the
    plan logs.  The cycle reaches the execution stage and sends ten
    transfers, all accepted; at the eleventh entry the log line of the loop
    slices the wallet and raises [TypeError], which the [except] of the
    cycle turns into a failure result.  The result reports no success, and
    the cumulative total does not include the ten transfers sent. *)
Theorem null_owner_fails_cycle_after_transfers :
  (exists holders total_supply,
      F64.get_token_holders F64.Scripted.parse_float
        (F64.scan_response F64.Scripted.eleven)
      = inr (F64.ScanPair holders total_supply)
      /\ List.length holders = 11%nat
      /\ F64.dict_get holders F64.KNone = Some 1000%float
      /\ fst (fst (F64.filter_eligible_holders F64.Scripted.cfg holders))
         = holders)
  /\ exists bot world trace,
      F64.Scripted.cycle (F64.init F64.Scripted.cfg) F64.Scripted.null_owner
      = (F64.CycleFail "'NoneType' object is not subscriptable",
         bot, world, trace)
      /\ map F64.to_wallet trace
         = ["A"; "B"; "C"; "D"; "E"; "F"; "G"; "H"; "I"; "J"]
      /\ forallb F64.ok trace = true
      /\ forallb (fun a => PrimFloat.ltb 0 (F64.amount_of a)) trace = true
      /\ F64.cycle_count bot = 1%Z
      /\ F64.total_wbtc_distributed bot = 0%float.
Proof.
  split.
  - do 2 eexists. split; [vm_compute; reflexivity|].
    repeat split; reflexivity.
  - do 3 eexists. split; [vm_compute; reflexivity|].
    repeat split; reflexivity.
Qed.

(** The partial-failure scenario of C3 in binary64: holders
    [{A: 1000, B: 3000}], B's transfer refused and A's accepted.  The cycle
    reports success with one transfer sent, one failed and 0.05 sent; B was
    allocated 0.75 * 0.2, which is 0.15000000000000002. *)
Example partial_failure_binary64 :
  exists duration bot world,
    F64.Scripted.cycle (F64.init F64.Scripted.cfg) F64.Scripted.partial_failure
    = (F64.CycleOk 1 1 1 0.05%float duration, bot, world,
       [ {| F64.to_wallet := "B"; F64.amount_of := 0.15000000000000002%float;
            F64.ok := false |};
         {| F64.to_wallet := "A"; F64.amount_of := 0.05%float;
            F64.ok := true |} ]).
Proof. do 3 eexists. vm_compute. reflexivity. Qed.

(** Rounding against "equality only when every send succeeds": holders
    [{X: 1e17, Y: 1}] are allocated 0.2 and 2e-18, both positive.  X's
    transfer is accepted and Y's refused, and the amount sent, 0.2, equals
    the amount allocated, 0.2 + 2e-18 = 0.2. *)
Example rounding_absorbs_a_failed_allocation :
  exists total_sent duration bot world x y,
    F64.Scripted.cycle (F64.init F64.Scripted.cfg_wide) F64.Scripted.absorbed
    = (F64.CycleOk 1 1 1 total_sent duration, bot, world, [x; y])
    /\ F64.ok x = true /\ F64.ok y = false
    /\ PrimFloat.ltb 0 (F64.amount_of x) = true
    /\ PrimFloat.ltb 0 (F64.amount_of y) = true
    /\ total_sent = F64.sum_left [F64.amount_of x; F64.amount_of y].
Proof.
  do 6 eexists. split; [vm_compute; reflexivity|].
  repeat split; reflexivity.
Qed.

(** A negative allocation against the bound: holders [{X: 3, Y: -1}] are
    allocated 0.30000000000000004 and -0.1.  X's transfer is accepted and
    Y's refused, and more is sent than was allocated. *)
Example negative_share_exceeds_allocated :
  exists total_sent duration bot world x y,
    F64.Scripted.cycle (F64.init F64.Scripted.cfg_signed) F64.Scripted.negative
    = (F64.CycleOk 1 1 1 total_sent duration, bot, world, [x; y])
    /\ F64.ok x = true /\ F64.ok y = false
    /\ F64.amount_of x = 0.30000000000000004%float
    /\ F64.amount_of y = (-0.1)%float
    /\ PrimFloat.ltb (F64.sum_left [F64.amount_of x; F64.amount_of y])
                     total_sent = true.
Proof.
  do 6 eexists. split; [vm_compute; reflexivity|].
  repeat split; reflexivity.
Qed.

(** ** The books of a cycle *)

Section F64Cycle.

Import F64.
Local Open Scope float_scope.

Variable World : Type.
Variable rpc_request : World -> option (list (string * json)) * World.
Variable send_wbtc_airdrop : string -> float -> World -> (bool * string) * World.
Variable now : World -> float.
Variable sleep : float -> World -> World.
Variable parse_float : string -> option float.
Variable py_sum : list float -> float.

Local Abbreviation cycle :=
  (execute_airdrop_cycle World rpc_request send_wbtc_airdrop now sleep
                         parse_float py_sum).
Local Abbreviation run_loop := (send_loop World send_wbtc_airdrop sleep).

(** The counters after the loop, from the counters before it and the
    trace. *)
Lemma f64_send_loop_tally (distribution : list entry) :
  forall (t : tally) (w : World),
    successful_sends (snd (fst (fst (run_loop distribution t w))))
    = (successful_sends t + successes (snd (run_loop distribution t w)))%Z
    /\ failed_sends (snd (fst (fst (run_loop distribution t w))))
       = (failed_sends t + failures (snd (run_loop distribution t w)))%Z
    /\ total_wbtc_sent (snd (fst (fst (run_loop distribution t w))))
       = fold_left add
           (map amount_of (filter ok (snd (run_loop distribution t w))))
           (total_wbtc_sent t).
Proof.
  induction distribution as [|recipient rest IH]; intros t w;
    cbn [send_loop].
  - unfold successes, failures. simpl. repeat split; lia.
  - destruct (sliced (wallet recipient)) as [e|address].
    + unfold successes, failures. simpl. repeat split; lia.
    + destruct (send_wbtc_airdrop address (wbtc_amount recipient) w)
        as [[sent text] w1].
      match goal with
      | |- context [run_loop rest ?t1 ?w2] =>
          specialize (IH t1 w2);
          destruct (run_loop rest t1 w2) as [[[e t2] w3] trace]
      end.
      cbn [fst snd] in *. destruct IH as (Hs & Hf & Ht).
      unfold successes, failures in *.
      destruct sent; cbn [filter ok negb map fold_left List.length
                          successful_sends failed_sends total_wbtc_sent] in *;
        rewrite Hs, Hf, Ht; repeat split; lia.
Qed.

(** X8.  The books of one cycle, whatever its outcome: the cycle counter
    goes up by one and the configuration and the running flag are
    untouched.  A cycle that reports success carries the new cycle number,
    the numbers of successful and failed transfers and, as the amount sent,
    the amounts of the successful transfers added in order from 0.0; the
    cumulative total grows by that amount.  A cycle that reports failure
    leaves the cumulative total as it was, also when transfers went out
    before it failed. *)
Theorem cycle_accounting
  (b b' : WBTCAirdropBot) (w w' : World) (r : cycle_result)
  (trace : list attempt) :
  cycle b w = (r, b', w', trace) ->
  cycle_count b' = (cycle_count b + 1)%Z
  /\ config b' = config b
  /\ is_running b' = is_running b
  /\ (success r = false ->
      total_wbtc_distributed b' = total_wbtc_distributed b)
  /\ (success r = true ->
      exists duration,
        r = CycleOk (cycle_count b') (successes trace) (failures trace)
                    (amount_sent trace) duration
        /\ total_wbtc_distributed b'
           = total_wbtc_distributed b + amount_sent trace).
Proof.
  unfold execute_airdrop_cycle.
  destruct (rpc_request w) as [response w1].
  assert (Hfail : forall err w0 tr,
            (CycleFail err, count_cycle b, w0, tr) = (r, b', w', trace) ->
            cycle_count b' = (cycle_count b + 1)%Z
            /\ config b' = config b
            /\ is_running b' = is_running b
            /\ (success r = false ->
                total_wbtc_distributed b' = total_wbtc_distributed b)
            /\ (success r = true ->
                exists duration,
                  r = CycleOk (cycle_count b') (successes trace)
                              (failures trace) (amount_sent trace) duration
                  /\ total_wbtc_distributed b'
                     = total_wbtc_distributed b + amount_sent trace)).
  { intros err w0 tr H. injection H as <- <- <- <-. simpl.
    repeat split; auto. discriminate. }
  destruct (r0 <- get_token_holders parse_float response;; unpack2 r0)
    as [e|[holders total]]; [apply Hfail|].
  destruct (is_empty holders); [apply Hfail|].
  destruct (is_empty _); [apply Hfail|].
  match goal with
  | |- context [match ?c with inl _ => _ | inr _ => _ end] =>
      destruct c as [e|distribution]; [apply Hfail|]
  end.
  pose proof (f64_send_loop_tally distribution tally0 w1) as (Hs & Hf & Ht).
  destruct (run_loop distribution tally0 w1) as [[[e t] w2] tr].
  cbn [fst snd] in Hs, Hf, Ht.
  destruct e as [e|]; [apply Hfail|].
  intros H. injection H as <- <- <- <-. simpl.
  repeat split; auto; try discriminate.
  intros _. eexists. unfold amount_sent.
  rewrite Hs, Hf, Ht. simpl. split; reflexivity.
Qed.

Lemma f64_insert_desc_perm {A} (key : A -> float) (x : A) (l : list A) :
  Permutation (insert_desc key x l) (x :: l).
Proof.
  induction l as [|y l IH]; simpl.
  - apply Permutation_refl.
  - destruct (key x <? key y).
    + apply perm_trans with (y :: x :: l).
      * apply perm_skip, IH.
      * apply perm_swap.
    + apply Permutation_refl.
Qed.

Lemma f64_sort_desc_perm {A} (key : A -> float) (l : list A) :
  Permutation (sort_desc key l) l.
Proof.
  induction l as [|x l IH]; simpl.
  - apply Permutation_refl.
  - apply perm_trans with (x :: sort_desc key l).
    + apply f64_insert_desc_perm.
    + apply perm_skip, IH.
Qed.

Lemma f64_distribution_loop_wallets (cfg : AirdropConfig) (total : float)
  (items : dict) (d : list entry) :
  distribution_loop cfg total items = inr d -> map wallet d = keys items.
Proof.
  revert d. induction items as [|[k v] items IH]; intros d; simpl.
  - intros H. injection H as <-. reflexivity.
  - destruct (py_div v total) as [e|share]; [discriminate|]. cbn [bind].
    destruct (distribution_loop cfg total items) as [e|tl]; [discriminate|].
    cbn [bind ret]. intros H. injection H as <-. simpl.
    rewrite (IH tl eq_refl). reflexivity.
Qed.

Lemma f64_calculate_wallets (cfg : AirdropConfig) (eligible : dict)
  (d : list entry) :
  calculate_wbtc_distribution py_sum cfg eligible = inr d ->
  Permutation (map wallet d) (keys eligible).
Proof.
  unfold calculate_wbtc_distribution.
  destruct (distribution_loop cfg (py_sum (values eligible)) eligible)
    as [e|d0] eqn:E; [discriminate|].
  cbn [bind ret]. intros H. injection H as <-.
  rewrite <- (f64_distribution_loop_wallets _ _ _ _ E).
  apply Permutation_map, f64_sort_desc_perm.
Qed.

Lemma In_firstn {A} (n : nat) (l : list A) (x : A) :
  In x (firstn n l) -> In x l.
Proof.
  revert l. induction n as [|n IH]; intros l; simpl.
  - intros [].
  - destruct l as [|y l]; simpl; [intros []|].
    intros [H|H]; auto.
Qed.

Lemma f64_log_recipients_strings (top : list entry) :
  (forall e, In e top -> exists address, wallet e = KStr address) ->
  log_recipients top = inr tt.
Proof.
  induction top as [|r top IH]; intros H; simpl.
  - reflexivity.
  - destruct (H r (or_introl eq_refl)) as [address Hr]. rewrite Hr.
    cbn [sliced bind ret]. apply IH. intros e He. apply H. right. exact He.
Qed.

(** On wallets that are strings the loop runs to its end and attempts the
    entries in order. *)
Lemma f64_send_loop_strings (distribution : list entry) :
  (forall e, In e distribution -> exists address, wallet e = KStr address) ->
  forall (t : tally) (w : World),
    fst (fst (fst (run_loop distribution t w))) = None
    /\ map (fun a => KStr (to_wallet a)) (snd (run_loop distribution t w))
       = map wallet distribution
    /\ map amount_of (snd (run_loop distribution t w))
       = map wbtc_amount distribution.
Proof.
  induction distribution as [|r rest IH]; intros H t w; cbn [send_loop].
  - repeat split.
  - destruct (H r (or_introl eq_refl)) as [address Hr]. rewrite Hr.
    cbn [sliced ret].
    destruct (send_wbtc_airdrop address (wbtc_amount r) w) as [[sent text] w1].
    match goal with
    | |- context [run_loop rest ?t1 ?w2] =>
        destruct (IH (fun e He => H e (or_intror He)) t1 w2) as (He & Hw & Ha);
        destruct (run_loop rest t1 w2) as [[[e t2] w3] trace]
    end.
    cbn [fst snd map to_wallet amount_of] in *.
    rewrite Hw, Ha, ?Hr. repeat split; auto.
Qed.

(** X9.  A cycle whose eligible wallets are address strings and whose
    calculation returns attempts one transfer for each eligible wallet and
    for nobody else, in the order of the distribution list and with the
    allocated amounts, and reports success whatever the outcomes of the
    transfers. *)
Theorem cycle_attempts_every_eligible_holder
  (b : WBTCAirdropBot) (w w1 : World)
  (response : option (list (string * json))) (holders eligible : dict)
  (total : float) (distribution : list entry) :
  rpc_request w = (response, w1) ->
  get_token_holders parse_float response = inr (ScanPair holders total) ->
  fst (fst (filter_eligible_holders (config b) holders)) = eligible ->
  eligible <> [] ->
  (forall k, In k (keys eligible) -> exists address, k = KStr address) ->
  calculate_wbtc_distribution py_sum (config b) eligible = inr distribution ->
  success (fst (fst (fst (cycle b w)))) = true
  /\ map (fun a => KStr (to_wallet a)) (snd (cycle b w))
     = map wallet distribution
  /\ map amount_of (snd (cycle b w)) = map wbtc_amount distribution
  /\ Permutation (map wallet distribution) (keys eligible)
  /\ (successes (snd (cycle b w)) + failures (snd (cycle b w))
      = Z.of_nat (List.length eligible))%Z.
Proof.
  intros Hrpc Hscan Hel Hne Hstr Hcalc.
  pose proof (f64_calculate_wallets (config b) eligible distribution Hcalc)
    as Hperm.
  assert (Hd : forall e, In e distribution ->
                 exists address, wallet e = KStr address).
  { intros e He. apply Hstr.
    apply (Permutation_in _ Hperm). apply in_map. exact He. }
  assert (Hholders : is_empty holders = false).
  { destruct holders; [|reflexivity].
    exfalso. apply Hne. rewrite <- Hel. reflexivity. }
  assert (Heligible : is_empty eligible = false)
    by (destruct eligible; [congruence|reflexivity]).
  unfold execute_airdrop_cycle. rewrite Hrpc, Hscan.
  cbn [bind unpack2 ret count_cycle config].
  rewrite Hholders, Hel, Heligible, Hcalc. cbn [bind].
  rewrite (f64_log_recipients_strings (firstn 10 distribution)).
  2:{ intros e He. apply Hd. exact (In_firstn _ _ _ He). }
  cbn [bind ret].
  destruct (f64_send_loop_strings distribution Hd tally0 w1) as (He & Hw & Ha).
  destruct (run_loop distribution tally0 w1) as [[[e t] w2] trace].
  cbn [fst snd] in He, Hw, Ha. subst e. cbn [fst snd success].
  split; [reflexivity|]. split; [exact Hw|]. split; [exact Ha|].
  split; [exact Hperm|].
  assert (Hlen : List.length trace = List.length eligible).
  { rewrite <- (length_map amount_of trace), Ha, length_map.
    rewrite <- (length_map wallet distribution), (Permutation_length Hperm).
    unfold keys. apply length_map. }
  unfold successes, failures. rewrite <- Hlen.
  clear. induction trace as [|a trace IH]; simpl; [reflexivity|].
  destruct (ok a); simpl List.length; lia.
Qed.

Lemma f64_distribution_loop_inl (cfg : AirdropConfig) (total : float)
  (items : dict) (e : exn) :
  distribution_loop cfg total items = inl e -> e = ZeroDivisionError.
Proof.
  induction items as [|[k v] items IH]; simpl.
  - discriminate.
  - unfold py_div at 1 2. destruct (total =? 0).
    + cbn [bind raise]. intros H. injection H as <-. reflexivity.
    + cbn [bind ret].
      destruct (distribution_loop cfg total items) as [e'|tl].
      * cbn [bind]. intros H. injection H as <-. apply IH. reflexivity.
      * discriminate.
Qed.

Lemma f64_keys_filter (p : pykey * float -> bool) (d : dict) (k : pykey) :
  In k (keys (filter p d)) -> In k (keys d).
Proof.
  unfold keys. rewrite !in_map_iff.
  intros (x & Hx & Hin). apply filter_In in Hin. exists x. tauto.
Qed.

(** X10.  On a scan of records whose owners are strings, none with an
    integer amount beyond the range of [float], a cycle has four outcomes
    only: "No token holders found", "No eligible holders found", the
    division by a zero total, or success. *)
Theorem wellformed_scan_cycle_outcomes
  (b : WBTCAirdropBot) (w w1 : World) (accounts : list json) :
  rpc_request w = (scan_response accounts, w1) ->
  forallb within_range accounts = true ->
  forallb string_owner accounts = true ->
  fst (fst (fst (cycle b w))) = CycleFail "No token holders found"
  \/ fst (fst (fst (cycle b w))) = CycleFail "No eligible holders found"
  \/ fst (fst (fst (cycle b w))) = CycleFail (msg ZeroDivisionError)
  \/ success (fst (fst (fst (cycle b w)))) = true.
Proof.
  intros Hrpc Hrange Hstr.
  destruct (get_token_holders_counted parse_float accounts Hrange)
    as (h & t & Hscan & Hwf & _ & _ & Hkeys).
  assert (Hks : forall k, In k (keys h) -> exists address, k = KStr address).
  { intros k Hk. destruct (Hkeys k Hk) as (v & a & Hin & Hc).
    rewrite forallb_forall in Hstr. specialize (Hstr v Hin).
    unfold string_owner in Hstr. unfold counted in Hc.
    destruct (record_of v) as [[owner ui_amount]|]; [|discriminate].
    destruct owner; try discriminate.
    destruct (amount_value parse_float ui_amount) as [a0|]; [|discriminate].
    destruct (a0 =? 0); [discriminate|].
    cbn [owner_key] in Hc. injection Hc as <- _. eauto. }
  unfold execute_airdrop_cycle. rewrite Hrpc, Hscan.
  cbn [bind unpack2 ret count_cycle config fst snd].
  destruct (is_empty h); [left; reflexivity|].
  rewrite (f64_eligible_is_filter (config b) h Hwf).
  set (eligible := filter (fun item : pykey * float =>
                             in_bounds (config b) (snd item)) h).
  destruct (is_empty eligible); [right; left; reflexivity|].
  destruct (calculate_wbtc_distribution py_sum (config b) eligible)
    as [e|distribution] eqn:Hcalc.
  - right. right. left. cbn [bind].
    unfold calculate_wbtc_distribution in Hcalc.
    destruct (distribution_loop (config b) (py_sum (values eligible)) eligible)
      as [e'|d0] eqn:E; [|discriminate].
    cbn [bind] in Hcalc. injection Hcalc as <-.
    rewrite (f64_distribution_loop_inl _ _ _ _ E). reflexivity.
  - right. right. right. cbn [bind].
    pose proof (f64_calculate_wallets (config b) eligible distribution Hcalc)
      as Hperm.
    assert (Hd : forall e, In e distribution ->
                   exists address, wallet e = KStr address).
    { intros e He. apply Hks.
      apply (f64_keys_filter
               (fun item : pykey * float => in_bounds (config b) (snd item))).
      apply (Permutation_in _ Hperm). apply in_map. exact He. }
    rewrite (f64_log_recipients_strings (firstn 10 distribution)).
    2:{ intros e He. apply Hd. exact (In_firstn _ _ _ He). }
    cbn [bind ret].
    destruct (f64_send_loop_strings distribution Hd tally0 w1) as (He & _).
    destruct (run_loop distribution tally0 w1) as [[[e t2] w2] trace].
    cbn [fst] in He. subst e. reflexivity.
Qed.

End F64Cycle.

(** X8 on the cycle of [F64.Scripted.null_owner]. *)
Lemma cycle_accounting_witness :
  F64.total_wbtc_distributed
    (snd (fst (fst (F64.Scripted.cycle (F64.init F64.Scripted.cfg)
                      F64.Scripted.null_owner))))
  = F64.total_wbtc_distributed (F64.init F64.Scripted.cfg).
Proof.
  destruct (F64.Scripted.cycle (F64.init F64.Scripted.cfg)
              F64.Scripted.null_owner) as [[[r b'] w'] trace] eqn:H.
  destruct (cycle_accounting F64.Scripted.world F64.Scripted.rpc_request
              F64.Scripted.send_wbtc_airdrop F64.Scripted.now
              F64.Scripted.sleep F64.Scripted.parse_float F64.sum_left
              (F64.init F64.Scripted.cfg) b' F64.Scripted.null_owner w' r trace H)
    as (_ & _ & _ & Hfail & _).
  apply Hfail.
  vm_compute in H. injection H as <- _ _ _. reflexivity.
Defined.

(** X9 on holders [{A: 1000, B: 3000}], B's transfer refused. *)
Lemma cycle_attempts_every_eligible_holder_witness :
  map F64.to_wallet
    (snd (F64.Scripted.cycle (F64.init F64.Scripted.cfg)
            F64.Scripted.partial_failure))
  = ["B"; "A"].
Proof.
  destruct (cycle_attempts_every_eligible_holder F64.Scripted.world
              F64.Scripted.rpc_request F64.Scripted.send_wbtc_airdrop
              F64.Scripted.now F64.Scripted.sleep F64.Scripted.parse_float
              F64.sum_left (F64.init F64.Scripted.cfg)
              F64.Scripted.partial_failure
              {| F64.Scripted.responses := [];
                 F64.Scripted.outcomes := [false; true];
                 F64.Scripted.time := 0%float |}
              (F64.scan_response F64.Scripted.ab)
              [(F64.KStr "A", 1000%float); (F64.KStr "B", 3000%float)]
              [(F64.KStr "A", 1000%float); (F64.KStr "B", 3000%float)]
              4000%float
              [ {| F64.wallet := F64.KStr "B"; F64.token_amount := 3000%float;
                   F64.percentage := 75%float;
                   F64.wbtc_amount := 0.15000000000000002%float |};
                {| F64.wallet := F64.KStr "A"; F64.token_amount := 1000%float;
                   F64.percentage := 25%float;
                   F64.wbtc_amount := 0.05%float |} ])
    as (_ & Hw & _).
  - reflexivity.
  - vm_compute. reflexivity.
  - vm_compute. reflexivity.
  - discriminate.
  - intros k [<-|[<-|[]]]; eexists; reflexivity.
  - vm_compute. reflexivity.
  - apply (f_equal (map (fun k => match k with
                                  | F64.KStr s => s
                                  | _ => EmptyString
                                  end))) in Hw.
    rewrite map_map in Hw. cbn [map F64.wallet] in Hw.
    rewrite <- Hw. apply map_ext. reflexivity.
Defined.

(** X10 on the scan of [F64.Scripted.partial_failure]. *)
Lemma wellformed_scan_cycle_outcomes_witness :
  F64.success
    (fst (fst (fst (F64.Scripted.cycle (F64.init F64.Scripted.cfg)
                      F64.Scripted.partial_failure)))) = true.
Proof.
  destruct (wellformed_scan_cycle_outcomes F64.Scripted.world
              F64.Scripted.rpc_request F64.Scripted.send_wbtc_airdrop
              F64.Scripted.now F64.Scripted.sleep F64.Scripted.parse_float
              F64.sum_left (F64.init F64.Scripted.cfg)
              F64.Scripted.partial_failure
              {| F64.Scripted.responses := [];
                 F64.Scripted.outcomes := [false; true];
                 F64.Scripted.time := 0%float |}
              F64.Scripted.ab)
    as [H|[H|[H|H]]].
  - reflexivity.
  - reflexivity.
  - reflexivity.
  - vm_compute in H. discriminate H.
  - vm_compute in H. discriminate H.
  - vm_compute in H. discriminate H.
  - exact H.
Defined.

(** ** Scan and filter together *)

Section F64Composition.

Import F64.
Local Open Scope float_scope.

Lemma is_nan_Prim2SF (a : float) :
  is_nan a = true -> Prim2SF a = S754_nan.
Proof.
  unfold is_nan. rewrite eqb_spec. unfold SFeqb. rewrite SFcompare_rank.
  destruct (Prim2SF a) as [s|s| |s m e]; try reflexivity;
    (destruct (rank _) as [r|] eqn:E; [rewrite lex3_refl; discriminate|]);
    destruct s; discriminate.
Qed.

Lemma Prim2SF_is_nan (a : float) :
  Prim2SF a = S754_nan -> is_nan a = true.
Proof.
  intros H. unfold is_nan. rewrite eqb_spec, H. reflexivity.
Qed.

Lemma is_nan_add_l (a b : float) : is_nan a = true -> is_nan (a + b) = true.
Proof.
  intros H. apply Prim2SF_is_nan. rewrite add_spec, (is_nan_Prim2SF a H).
  reflexivity.
Qed.

Lemma is_nan_add_r (a b : float) : is_nan b = true -> is_nan (a + b) = true.
Proof.
  intros H. apply Prim2SF_is_nan. rewrite add_spec, (is_nan_Prim2SF b H).
  unfold SF64add, SFadd. destruct (Prim2SF a); reflexivity.
Qed.

Lemma is_nan_fold_start (l : list float) (x : float) :
  is_nan x = true -> is_nan (fold_left add l x) = true.
Proof.
  revert x. induction l as [|y l IH]; intros x H; simpl.
  - exact H.
  - apply IH, is_nan_add_l, H.
Qed.

Lemma is_nan_fold_In (l : list float) (x a : float) :
  In a l -> is_nan a = true -> is_nan (fold_left add l x) = true.
Proof.
  revert x. induction l as [|y l IH]; intros x Hin Ha; simpl.
  - destruct Hin.
  - destruct Hin as [->|Hin].
    + apply is_nan_fold_start, is_nan_add_r, Ha.
    + apply IH; assumption.
Qed.

Lemma offered_to_offered (parse_float : string -> option float)
  (k : pykey) (accounts : list json) (a : float) :
  In a (offered_to parse_float k accounts) ->
  In a (offered parse_float accounts).
Proof.
  induction accounts as [|v accounts IH]; simpl; [auto|].
  rewrite !in_app_iff. intros [H|H]; [left|right; auto].
  destruct (counted parse_float v) as [[k' a']|]; [|exact H].
  destruct (key_eqb k' k); [exact H|destruct H].
Qed.

End F64Composition.

(** X24.  Eligibility is decided on the aggregated balance of a wallet, the
    sum of its counted amounts as the scan added them, not on its accounts
    one by one: after a scan, a wallet is in the eligible mapping with
    balance [b] iff [b] is that sum and min <= b <= max. *)
Theorem eligibility_is_on_the_aggregated_balance
  (parse_float : string -> option PrimFloat.float) (cfg : F64.AirdropConfig)
  (accounts : list F64.json) :
  forallb F64.within_range accounts = true ->
  exists holders total_supply,
    F64.get_token_holders parse_float (F64.scan_response accounts)
    = inr (F64.ScanPair holders total_supply)
    /\ forall k b,
        F64.dict_get (fst (fst (F64.filter_eligible_holders cfg holders))) k
        = Some b
        <-> F64.in_order_sum (F64.offered_to parse_float k accounts) = Some b
            /\ PrimFloat.leb (F64.min_token_holdings cfg) b = true
            /\ PrimFloat.leb b (F64.max_token_holdings cfg) = true.
Proof.
  intros Hrange.
  destruct (get_token_holders_counted parse_float accounts Hrange)
    as (h & t & Hscan & Hwf & Hget & _).
  exists h, t. split; [exact Hscan|].
  intros k b.
  rewrite (f64_eligible_is_filter cfg h Hwf).
  rewrite (f64_dict_get_kept cfg h k b Hwf), Hget.
  unfold F64.in_bounds. rewrite Bool.andb_true_iff. tauto.
Qed.

(** The accounts of wallet A add up to 999.9999999999999 as the scan adds
    them, below the minimum of 1000, and A is not eligible; B is. *)
Example rounded_sum_misses_the_bound :
  exists total_supply,
    F64.get_token_holders F64.Scripted.parse_float
      (F64.scan_response F64.Scripted.at_the_bound)
    = inr (F64.ScanPair [(F64.KStr "A", 999.9999999999999%float);
                         (F64.KStr "B", 2000%float)] total_supply)
    /\ F64.filter_eligible_holders F64.Scripted.cfg
         [(F64.KStr "A", 999.9999999999999%float); (F64.KStr "B", 2000%float)]
       = ([(F64.KStr "B", 2000%float)], 1%Z, 0%Z).
Proof. eexists. split; vm_compute; reflexivity. Qed.

(** X24 on the scan [F64.Scripted.at_the_bound]. *)
Lemma eligibility_is_on_the_aggregated_balance_witness :
  exists holders total_supply,
    F64.get_token_holders F64.Scripted.parse_float
      (F64.scan_response F64.Scripted.at_the_bound)
    = inr (F64.ScanPair holders total_supply)
    /\ forall k b,
        F64.dict_get
          (fst (fst (F64.filter_eligible_holders F64.Scripted.cfg holders))) k
        = Some b
        <-> F64.in_order_sum
              (F64.offered_to F64.Scripted.parse_float k
                 F64.Scripted.at_the_bound) = Some b
            /\ PrimFloat.leb (F64.min_token_holdings F64.Scripted.cfg) b = true
            /\ PrimFloat.leb b (F64.max_token_holdings F64.Scripted.cfg) = true.
Proof.
  apply (eligibility_is_on_the_aggregated_balance F64.Scripted.parse_float
           F64.Scripted.cfg F64.Scripted.at_the_bound).
  reflexivity.
Defined.

(** X1.  The aggregated balance depends on the order of the scan: the
    accounts 0.1, 0.2, 0.3 of one wallet give 0.6000000000000001, and the
    same accounts in reverse order give 0.6. *)
Theorem aggregation_depends_on_scan_order :
  Permutation F64.Scripted.ascending F64.Scripted.descending
  /\ F64.get_token_holders F64.Scripted.parse_float
       (F64.scan_response F64.Scripted.ascending)
     = inr (F64.ScanPair [(F64.KStr "A", 0.6000000000000001%float)]
                         0.6000000000000001%float)
  /\ F64.get_token_holders F64.Scripted.parse_float
       (F64.scan_response F64.Scripted.descending)
     = inr (F64.ScanPair [(F64.KStr "A", 0.6%float)] 0.6%float)
  /\ PrimFloat.eqb 0.6000000000000001 0.6 = false.
Proof.
  split; [|split; [vm_compute; reflexivity|split; [vm_compute|]; reflexivity]].
  apply Permutation_rev.
Qed.

(** X2.  An amount that parses to [nan] is counted: the balance of its
    wallet and the total supply are [nan] from then on, whatever else the
    scan offers, and the wallet is eligible under no bounds. *)
Theorem nan_amount_poisons_the_sums
  (parse_float : string -> option PrimFloat.float)
  (accounts : list F64.json) (k : F64.pykey) (a : PrimFloat.float) :
  forallb F64.within_range accounts = true ->
  In a (F64.offered_to parse_float k accounts) ->
  PrimFloat.is_nan a = true ->
  exists holders total_supply b,
    F64.get_token_holders parse_float (F64.scan_response accounts)
    = inr (F64.ScanPair holders total_supply)
    /\ F64.dict_get holders k = Some b
    /\ PrimFloat.is_nan b = true
    /\ PrimFloat.is_nan total_supply = true
    /\ forall cfg,
        F64.dict_get (fst (fst (F64.filter_eligible_holders cfg holders))) k
        = None.
Proof.
  intros Hrange Hin Hnan.
  destruct (get_token_holders_counted parse_float accounts Hrange)
    as (h & t & Hscan & Hwf & Hget & Htot & _).
  specialize (Hget k).
  destruct (F64.offered_to parse_float k accounts) as [|a0 rest] eqn:Hoff;
    [destruct Hin|].
  cbn [F64.in_order_sum] in Hget.
  assert (Hb : PrimFloat.is_nan (fold_left PrimFloat.add rest a0) = true).
  { destruct Hin as [->|Hin].
    - apply is_nan_fold_start, Hnan.
    - apply (is_nan_fold_In rest a0 a Hin Hnan). }
  exists h, t, (fold_left PrimFloat.add rest a0).
  split; [exact Hscan|]. split; [exact Hget|]. split; [exact Hb|]. split.
  - rewrite Htot. apply (is_nan_fold_In _ _ a); [|exact Hnan].
    apply (offered_to_offered parse_float k). rewrite Hoff. exact Hin.
  - intros cfg.
    destruct (F64.dict_get (fst (fst (F64.filter_eligible_holders cfg h))) k)
      as [b'|] eqn:E; [|reflexivity].
    exfalso.
    rewrite (f64_eligible_is_filter cfg h Hwf) in E.
    apply (f64_dict_get_kept cfg h k b' Hwf) in E.
    destruct E as [E Hb'].
    rewrite Hget in E. injection E as <-.
    destruct (is_nan_compares_false (F64.min_token_holdings cfg)
                (F64.max_token_holdings cfg) _ Hb) as (_ & H2 & _).
    unfold F64.in_bounds in Hb'. rewrite H2 in Hb'. discriminate.
Qed.

(** X2 on the scan [F64.Scripted.mixed], whose wallet F holds ["nan"]. *)
Lemma nan_amount_poisons_the_sums_witness :
  exists holders total_supply b,
    F64.get_token_holders F64.Scripted.parse_float
      (F64.scan_response F64.Scripted.mixed)
    = inr (F64.ScanPair holders total_supply)
    /\ F64.dict_get holders (F64.KStr "F") = Some b
    /\ PrimFloat.is_nan b = true
    /\ PrimFloat.is_nan total_supply = true
    /\ forall cfg,
        F64.dict_get (fst (fst (F64.filter_eligible_holders cfg holders)))
                     (F64.KStr "F") = None.
Proof.
  apply (nan_amount_poisons_the_sums F64.Scripted.parse_float
           F64.Scripted.mixed (F64.KStr "F") PrimFloat.nan).
  - reflexivity.
  - vm_compute. left. reflexivity.
  - reflexivity.
Defined.
